(** * The JSON import pipeline of ikiform: schema validator and transformer

    A shallow embedding of
      - [JsonSchemaValidator] (json-schema-validator.ts), and
      - [JsonImportService]   (src/lib/import/json-import-service.ts),
    together with the facts about them that the specification states.

    JavaScript values are embedded as a datatype, numbers as IEEE binary64
    floats, strings as sequences of code units below 256.  Exceptions are
    explicit ([Result]); the validator's two accumulators ([this.errors],
    [this.warnings]) are threaded as state that survives a throw, as the
    [catch] block of [validate] reads them afterwards. *)

From Stdlib Require Import List String Ascii Bool ZArith Floats RelationClasses.
From Stdlib Require Import DecimalString.
Import ListNotations.
Open Scope list_scope.
Open Scope string_scope.

Set Implicit Arguments.
Set Warnings "-register-all".

(** ** Values *)

Inductive JSValue : Type :=
| JUndefined
| JNull
| JBool (b : bool)
| JNum (n : float)
| JStr (s : string)
| JArr (items : list JSValue)
| JObj (props : list (string * JSValue))
| JFun (name : string) (arity : nat).

(** An object is its list of own properties, in insertion order. *)
Definition Props := list (string * JSValue).

Inductive JSType := TUndefined | TObject | TBoolean | TNumber | TString | TFunction.

Definition JSType_eqb (a b : JSType) : bool :=
  match a, b with
  | TUndefined, TUndefined | TObject, TObject | TBoolean, TBoolean
  | TNumber, TNumber | TString, TString | TFunction, TFunction => true
  | _, _ => false
  end.

(** [typeof v] *)
Definition typeof (v : JSValue) : JSType :=
  match v with
  | JUndefined => TUndefined
  | JNull => TObject
  | JBool _ => TBoolean
  | JNum _ => TNumber
  | JStr _ => TString
  | JArr _ => TObject
  | JObj _ => TObject
  | JFun _ _ => TFunction
  end.

(** ToBoolean: what [if (v)], [!v], [v && ..] and [v || ..] test. *)
Definition truthy (v : JSValue) : bool :=
  match v with
  | JUndefined | JNull => false
  | JBool b => b
  | JNum n => negb (PrimFloat.eqb n 0 || PrimFloat.is_nan n)
  | JStr s => negb (s =? "")
  | JArr _ | JObj _ | JFun _ _ => true
  end.

Definition is_undefined (v : JSValue) : bool :=
  match v with JUndefined => true | _ => false end.

Definition is_null (v : JSValue) : bool :=
  match v with JNull => true | _ => false end.

(** [Array.isArray(v)] *)
Definition Array_isArray (v : JSValue) : bool :=
  match v with JArr _ => true | _ => false end.

(** [v === 'lit'] for a string literal. *)
Definition is_str (v : JSValue) (lit : string) : bool :=
  match v with JStr s => s =? lit | _ => false end.

(** [v === 0]: strict equality with the number zero (it holds of -0 too). *)
Definition is_zero (v : JSValue) : bool :=
  match v with JNum n => PrimFloat.eqb n 0 | _ => false end.

(** [a || b] and [a ?? b] on values (both operands already evaluated: every
    right operand in the importer is a literal or a pure read). *)
Definition js_or (a b : JSValue) : JSValue := if truthy a then a else b.

Definition js_nullish (a b : JSValue) : JSValue :=
  match a with JUndefined | JNull => b | _ => a end.

(** The number of a length: the float nearest to the natural number. *)
Definition of_nat (n : nat) : float :=
  SF2Prim (binary_normalize prec emax (Z.of_nat n) 0 false).

(** [Number.isInteger(v)]: a finite number without fractional part. *)
Definition Number_isInteger (v : JSValue) : bool :=
  match v with
  | JNum n =>
      match Prim2SF n with
      | S754_zero _ => true
      | S754_finite _ m e => (0 <=? e)%Z || (Z.pos m mod 2 ^ (- e) =? 0)%Z
      | S754_infinity _ | S754_nan => false
      end
  | _ => false
  end.

(** ** Strings *)

(** White space and line terminators among the code units below 256:
    TAB, LF, VT, FF, CR, SP and NBSP. *)
Definition is_white (c : ascii) : bool :=
  let n := nat_of_ascii c in
  ((9 <=? n) && (n <=? 13) || (n =? 32) || (n =? 160))%nat.

Fixpoint trimStart (s : string) : string :=
  match s with
  | EmptyString => EmptyString
  | String c r => if is_white c then trimStart r else s
  end.

Fixpoint trimEnd (s : string) : string :=
  match s with
  | EmptyString => EmptyString
  | String c r =>
      match trimEnd r with
      | EmptyString => if is_white c then EmptyString else String c EmptyString
      | r' => String c r'
      end
  end.

(** [s.trim()] *)
Definition trim (s : string) : string := trimEnd (trimStart s).

(** [s.includes(sub)] *)
Fixpoint includes (s sub : string) : bool :=
  prefix sub s ||
  match s with
  | EmptyString => false
  | String _ r => includes r sub
  end.

(** [list.join(sep)] of strings. *)
Fixpoint join (sep : string) (l : list string) : string :=
  match l with
  | [] => ""
  | [x] => x
  | x :: r => x ++ sep ++ join sep r
  end.

(** Decimal rendering of an array index, as a template literal prints it. *)
Definition index_to_string (i : nat) : string :=
  NilZero.string_of_uint (Nat.to_uint i).

(** ** Exceptions *)

Inductive JSError :=
| Error (msg : string)
| TypeError (msg : string)
| SyntaxError (msg : string).

(** [error instanceof Error ? error.message : 'Unknown error']: all three
    are instances of [Error]. *)
Definition error_message (e : JSError) : string :=
  match e with Error m | TypeError m | SyntaxError m => m end.

Inductive Result (A : Type) : Type :=
| Ok (a : A)
| Throw (e : JSError).
Arguments Ok {A} a.
Arguments Throw {A} e.

Definition bindR {A B} (c : Result A) (k : A -> Result B) : Result B :=
  match c with Ok a => k a | Throw e => Throw e end.

Declare Scope js_scope.
Delimit Scope js_scope with js.

Notation "x <~ c ;; k" := (bindR c (fun x => k))
  (at level 100, c at next level, right associativity) : js_scope.

Open Scope js_scope.

(** Short-circuit [b || k] and [b && k] where evaluating [k] may throw. *)
Definition or_else (b : bool) (k : Result bool) : Result bool :=
  if b then Ok true else k.

Definition and_then (b : bool) (k : Result bool) : Result bool :=
  if b then k else Ok false.

(** ** Objects and property reads *)

Fixpoint own (props : Props) (k : string) : option JSValue :=
  match props with
  | [] => None
  | (k', v) :: r => if k =? k' then Some v else own r k
  end.

(** [o.k = v] on an object under construction: an existing property keeps
    its place, a new one goes last. *)
Fixpoint set_prop (props : Props) (k : string) (v : JSValue) : Props :=
  match props with
  | [] => [(k, v)]
  | (k', v') :: r => if k =? k' then (k, v) :: r else (k', v') :: set_prop r k v
  end.

(** The members every plain object inherits from [Object.prototype]. *)
Definition Object_prototype_props : Props :=
  [ ("constructor", JFun "Object" 1);
    ("__defineGetter__", JFun "__defineGetter__" 2);
    ("__defineSetter__", JFun "__defineSetter__" 2);
    ("hasOwnProperty", JFun "hasOwnProperty" 1);
    ("__lookupGetter__", JFun "__lookupGetter__" 1);
    ("__lookupSetter__", JFun "__lookupSetter__" 1);
    ("isPrototypeOf", JFun "isPrototypeOf" 1);
    ("propertyIsEnumerable", JFun "propertyIsEnumerable" 1);
    ("toString", JFun "toString" 0);
    ("valueOf", JFun "valueOf" 0);
    ("toLocaleString", JFun "toLocaleString" 0) ].

Definition Object_prototype : JSValue := JObj Object_prototype_props.

(** What a plain object answers for a name it does not own. *)
Definition inherited (k : string) : JSValue :=
  if k =? "__proto__" then Object_prototype
  else match own Object_prototype_props k with
       | Some v => v
       | None => JUndefined
       end.

(** [obj[k]] on a plain object: own property first, then the prototype. *)
Definition lookup (props : Props) (k : string) : JSValue :=
  match own props k with
  | Some v => v
  | None => inherited k
  end.

(** [o.k] for the data names the importer reads ([title], [fields], [id],
    [type], [label], [options], [validation], ...).  None of them is a member
    of the array, string, number, boolean or function prototypes, so only
    plain objects can answer; reading from [undefined] or [null] throws.
    [length] and the method calls are modelled apart, below. *)
Definition get (o : JSValue) (k : string) : Result JSValue :=
  match o with
  | JUndefined =>
      Throw (TypeError ("Cannot read properties of undefined (reading '" ++ k ++ "')"))
  | JNull =>
      Throw (TypeError ("Cannot read properties of null (reading '" ++ k ++ "')"))
  | JObj props => Ok (lookup props k)
  | _ => Ok JUndefined
  end.

(** [o?.k] *)
Definition get_opt (o : JSValue) (k : string) : JSValue :=
  match o with
  | JObj props => lookup props k
  | _ => JUndefined
  end.

(** [o.length] on a value that is neither [undefined] nor [null]. *)
Definition get_length (o : JSValue) : JSValue :=
  match o with
  | JArr l => JNum (of_nat (List.length l))
  | JStr s => JNum (of_nat (String.length s))
  | JFun _ a => JNum (of_nat a)
  | JObj props => lookup props "length"
  | _ => JUndefined
  end.

(** [o?.[0]] *)
Definition get_first_opt (o : JSValue) : JSValue :=
  match o with
  | JArr l => nth 0 l JUndefined
  | JStr (String c _) => JStr (String c EmptyString)
  | JObj props => lookup props "0"
  | _ => JUndefined
  end.

(** [s.trim()] as a call: on anything but a string the member is missing (or,
    on a plain object coming from JSON, not a function) and the call throws. *)
Definition call_trim (v : JSValue) : Result string :=
  match v with
  | JStr s => Ok (trim s)
  | JUndefined => Throw (TypeError "Cannot read properties of undefined (reading 'trim')")
  | JNull => Throw (TypeError "Cannot read properties of null (reading 'trim')")
  | _ => Throw (TypeError "trim is not a function")
  end.

(** [list.includes(v)] for a list of string literals. *)
Definition list_includes (l : list string) (v : JSValue) : bool :=
  match v with
  | JStr s => existsb (String.eqb s) l
  | _ => false
  end.

(** [{ ...v }]: the own enumerable properties of [v]. *)
Fixpoint indexed (i : nat) (l : list JSValue) : Props :=
  match l with
  | [] => []
  | x :: r => (index_to_string i, x) :: indexed (S i) r
  end.

Fixpoint chars (s : string) : list JSValue :=
  match s with
  | EmptyString => []
  | String c r => JStr (String c EmptyString) :: chars r
  end.

Definition spread (v : JSValue) : Props :=
  match v with
  | JObj props => props
  | JArr l => indexed 0 l
  | JStr s => indexed 0 (chars s)
  | _ => []
  end.

(** ** The supported-type table *)

(** [SUPPORTED_FIELD_TYPES]: import name to internal name, in source order. *)
Definition SUPPORTED_FIELD_TYPES : Props :=
  [ ("text", JStr "text");
    ("short_text", JStr "text");
    ("email", JStr "email");
    ("textarea", JStr "textarea");
    ("long_text", JStr "textarea");
    ("number", JStr "number");
    ("date", JStr "date");
    ("time", JStr "time");
    ("phone", JStr "phone");
    ("file", JStr "file");
    ("signature", JStr "signature");
    ("rating", JStr "rating");
    ("slider", JStr "slider");
    ("tags", JStr "tags");
    ("address", JStr "address");
    ("link", JStr "link");
    ("radio", JStr "radio");
    ("select", JStr "select");
    ("checkbox", JStr "checkbox");
    ("checkboxes", JStr "checkbox");
    ("multi_select", JStr "select");
    ("section", JStr "statement");
    ("statement", JStr "statement");
    ("poll", JStr "poll");
    ("scheduler", JStr "scheduler");
    ("social", JStr "social") ].

(** [Object.keys(SUPPORTED_FIELD_TYPES)] *)
Definition getSupportedFieldTypes : list string := map fst SUPPORTED_FIELD_TYPES.

(** [SUPPORTED_FIELD_TYPES[importType] || importType].  The table is a plain
    object literal, so the read goes through [lookup]. *)
Definition mapFieldType (importType : string) : JSValue :=
  js_or (lookup SUPPORTED_FIELD_TYPES importType) (JStr importType).

(** ** State with exceptions *)

(** A computation over a state [St] that may throw; the state reached at the
    throw is kept. *)
Definition M (St A : Type) : Type := St -> St * Result A.

Definition ret {St A} (a : A) : M St A := fun s => (s, Ok a).

Definition bind {St A B} (c : M St A) (k : A -> M St B) : M St B :=
  fun s => match c s with
           | (s', Ok a) => k a s'
           | (s', Throw e) => (s', Throw e)
           end.

Definition lift {St A} (r : Result A) : M St A := fun s => (s, r).

Notation "x <- c ;; k" := (bind c (fun x => k))
  (at level 100, c at next level, right associativity) : js_scope.
Notation "c ;; k" := (bind c (fun _ => k))
  (at level 100, right associativity) : js_scope.

(** [if (c) { act }] *)
Definition when {St} (c : bool) (act : M St unit) : M St unit :=
  if c then act else ret tt.

(** [list.forEach((x, index) => f x index)], counting from [i]. *)
Fixpoint forEach_from {St A} (i : nat) (l : list A) (f : A -> nat -> M St unit) : M St unit :=
  match l with
  | [] => ret tt
  | x :: r => f x i ;; forEach_from (S i) r f
  end.

Definition forEach {St A} (l : list A) (f : A -> nat -> M St unit) : M St unit :=
  forEach_from 0 l f.

(** [list.map(f)] where [f] may throw. *)
Fixpoint mapM {St A B} (f : A -> M St B) (l : list A) : M St (list B) :=
  match l with
  | [] => ret []
  | x :: r => y <- f x ;; ys <- mapM f r ;; ret (y :: ys)
  end.

Fixpoint mapR {A B} (f : A -> Result B) (l : list A) : Result (list B) :=
  match l with
  | [] => Ok []
  | x :: r => y <~ f x ;; ys <~ mapR f r ;; Ok (y :: ys)
  end.

(** ** Validation results (types.ts) *)

Inductive Severity := SevError | SevWarning.

Record ValidationError := mkValidationError {
  path : string;
  message : string;
  severity : Severity
}.

Record ValidationResult := mkValidationResult {
  isValid : bool;
  errors : list ValidationError;
  warnings : list ValidationError;
  fixableErrors : list ValidationError
}.

(** The two private accumulators of a [JsonSchemaValidator]. *)
Record Validator := mkValidator {
  this_errors : list ValidationError;
  this_warnings : list ValidationError
}.

Definition V := M Validator.

Definition addError (p m : string) (sev : Severity) : V unit :=
  fun this =>
    let error := mkValidationError p m sev in
    match sev with
    | SevError => (mkValidator (this_errors this ++ [error]) (this_warnings this), Ok tt)
    | SevWarning => (mkValidator (this_errors this) (this_warnings this ++ [error]), Ok tt)
    end.

Definition addWarning (p m : string) (sev : Severity) : V unit :=
  fun this =>
    (mkValidator (this_errors this)
                 (this_warnings this ++ [mkValidationError p m sev]), Ok tt).

Definition isFixableError (error : ValidationError) : bool :=
  let fixableErrors :=
    [ "Field required must be a boolean";
      "Theme must be a string";
      "Language must be a string";
      "Success message must be a string" ] in
  existsb (fun fixable => includes (message error) fixable) fixableErrors.

(** ** The internal form schema and the import result *)

Record FormField := mkFormField {
  field_id : JSValue;
  field_type : JSValue;
  field_label : JSValue;
  field_description : JSValue;
  field_placeholder : JSValue;
  field_required : JSValue;
  field_validation : Props;
  field_settings : Props;
  field_options : option (list JSValue)
}.

Record FormBlock := mkFormBlock {
  block_id : string;
  block_title : string;
  block_description : string;
  block_fields : list FormField;
  block_settings : Props
}.

Record FormSchema := mkFormSchema {
  blocks : list FormBlock;
  fields : list FormField;
  settings : Props;
  logic : JSValue
}.

Record ImportTransformResult := mkImportTransformResult {
  success : bool;
  formSchema : option FormSchema;
  import_errors : list string;
  import_warnings : list string;
  validationResult : option ValidationResult
}.

(** ** Predicates on validator runs *)

(** [b] holds everything [a] holds, in the same order, and possibly more. *)
Definition extends (a b : Validator) : Prop :=
  (exists e, this_errors b = (this_errors a ++ e)%list) /\
  (exists w, this_warnings b = (this_warnings a ++ w)%list).

(** A step only ever appends to the two accumulators, thrown or not. *)
Definition accumulates {A} (c : V A) : Prop :=
  forall this, extends this (fst (c this)).

(** A step never throws. *)
Definition returns {A} (c : V A) : Prop :=
  forall this, exists a, snd (c this) = Ok a.

(** Whatever state the step starts from, the state it ends in (returning
    or throwing) satisfies [Q]. *)
Definition leaves {A} (c : V A) (Q : Validator -> Prop) : Prop :=
  forall this, Q (fst (c this)).

(** Whenever the step returns, the state it returns in satisfies [Q]. *)
Definition on_return {A} (c : V A) (Q : Validator -> Prop) : Prop :=
  forall this this' a, c this = (this', Ok a) -> Q this'.

(** [Q] survives further appends. *)
Definition kept (Q : Validator -> Prop) : Prop :=
  forall a b, extends a b -> Q a -> Q b.

Definition has_error (e : ValidationError) (this : Validator) : Prop :=
  In e (this_errors this).

Definition has_warning (w : ValidationError) (this : Validator) : Prop :=
  In w (this_warnings this).

(** A label that is missing ([undefined], or any other falsy value) or
    blank (a string of white space). *)
Definition blank_label (v : JSValue) : Prop :=
  truthy v = false \/ exists s, v = JStr s /\ trim s = "".

Definition label_error (path : string) : ValidationError :=
  mkValidationError (path ++ ".label")
    "Field label is required and must be a non-empty string" SevError.

Definition label_warning (path : string) : ValidationError :=
  mkValidationError (path ++ ".label")
    "Section fields should have descriptive labels" SevWarning.

Definition title_error : ValidationError :=
  mkValidationError "title"
    "Form title is required and must be a non-empty string" SevError.

Definition no_fields_error : ValidationError :=
  mkValidationError "fields" "Form must have at least one field" SevError.

Definition fields_not_array_error : ValidationError :=
  mkValidationError "fields" "Fields must be an array" SevError.

Definition not_object_error (path : string) : ValidationError :=
  mkValidationError path "Field must be an object" SevError.

(** Options the transformer can map: an array without [null] entries, or a
    value its guard sends back at once (falsy, or of length zero). *)
Definition options_mappable (options : JSValue) : bool :=
  match options with
  | JArr l => forallb (fun option => negb (is_null option)) l
  | _ => negb (truthy options) || is_zero (get_length options)
  end.

Definition root_error : ValidationError :=
  mkValidationError "root"
    "Invalid JSON format. Please check your JSON syntax." SevError.

(** ** Further predicates on validator runs *)

(** A step takes every state to one related to it by [R]. *)
Definition steps {A} (R : Validator -> Validator -> Prop) (c : V A) : Prop :=
  forall this, R this (fst (c this)).

(** [b] is [a] with more errors, all satisfying [Pe], and more warnings, all
    satisfying [Pw]. *)
Definition adds (Pe Pw : ValidationError -> Prop) (a b : Validator) : Prop :=
  (exists e, this_errors b = (this_errors a ++ e)%list /\ Forall Pe e) /\
  (exists w, this_warnings b = (this_warnings a ++ w)%list /\ Forall Pw w).

Definition is_error (e : ValidationError) : Prop := severity e = SevError.
Definition is_warning (e : ValidationError) : Prop := severity e = SevWarning.

(** The diagnostic is addressed at [base] or below it. *)
Definition under (base : string) (e : ValidationError) : Prop :=
  prefix base (path e) = true.

(** The places a diagnostic of a form is addressed at. *)
Definition rooted (e : ValidationError) : Prop :=
  path e = "title" \/ path e = "description" \/
  under "fields" e \/ under "settings" e.

Definition error_under (base : string) (e : ValidationError) : Prop :=
  under base e /\ is_error e.

Definition warning_under (base : string) (e : ValidationError) : Prop :=
  under base e /\ is_warning e.

Definition root_diagnostic (e : ValidationError) : Prop := rooted e /\ is_error e.

Definition field_warning (e : ValidationError) : Prop := under "fields" e /\ is_warning e.

Definition no_diagnostic (e : ValidationError) : Prop := False.
Definition any_diagnostic (e : ValidationError) : Prop := True.

(** Warnings come with errors: there is no warning, or there is an error. *)
Definition warned_is_wrong (this : Validator) : Prop :=
  this_warnings this = [] \/ this_errors this <> [].

(** A step keeps an invariant of the accumulators. *)
Definition keeps (I : Validator -> Prop) (a b : Validator) : Prop := I a -> I b.






(** What [transformOptions] makes of one entry of the options array. *)
Definition option_text (option text : JSValue) : Prop :=
  (typeof option = TString /\ text = option) \/
  (typeof option = TObject /\ truthy (get_opt option "label") = true /\
   text = get_opt option "label") \/
  (typeof option <> TString /\
   (typeof option <> TObject \/ truthy (get_opt option "label") = false) /\
   option <> JNull /\ text = JStr "Option").


Definition id_error (path : string) : ValidationError :=
  mkValidationError (path ++ ".id")
    "Field ID is required and must be a non-empty string" SevError.


Definition type_error (path type : string) : ValidationError :=
  mkValidationError (path ++ ".type")
    ("Unsupported field type: " ++ type ++ ". Supported types: "
     ++ join ", " getSupportedFieldTypes) SevError.

Definition options_error (path type : string) (options : JSValue) : ValidationError :=
  mkValidationError (path ++ ".options")
    ("Field type " ++ type ++
     (if truthy options && Array_isArray options
      then " must have at least one option"
      else " requires an options array")) SevError.

Definition bounds_error (path : string) : ValidationError :=
  mkValidationError (path ++ ".min") "min value must be less than max value" SevError.


(** ** The import dialog (JsonImportModal.tsx) *)

Module JsonImportModal.

Inductive ImportStep := Upload | Validate | Preview | Complete.

Inductive UploadMode := FileMode | TextMode.

(** A [File] stands for what a reader gets out of it: [None] when reading
    fails, the text otherwise (see [readFileAsText]). *)
Definition File := option string.

(** The eight state variables of the component. *)
Record State := mkState {
  currentStep : ImportStep;
  jsonFile : option File;
  jsonText : string;
  uploadMode : UploadMode;
  validationResult : option ValidationResult;
  importResult : option ImportTransformResult;
  isProcessing : bool;
  progress : nat
}.

Definition setCurrentStep (v : ImportStep) (s : State) : State :=
  mkState v (jsonFile s) (jsonText s) (uploadMode s) (validationResult s)
          (importResult s) (isProcessing s) (progress s).

Definition setJsonFile (v : option File) (s : State) : State :=
  mkState (currentStep s) v (jsonText s) (uploadMode s) (validationResult s)
          (importResult s) (isProcessing s) (progress s).

Definition setJsonText (v : string) (s : State) : State :=
  mkState (currentStep s) (jsonFile s) v (uploadMode s) (validationResult s)
          (importResult s) (isProcessing s) (progress s).

Definition setUploadMode (v : UploadMode) (s : State) : State :=
  mkState (currentStep s) (jsonFile s) (jsonText s) v (validationResult s)
          (importResult s) (isProcessing s) (progress s).

Definition setValidationResult (v : option ValidationResult) (s : State) : State :=
  mkState (currentStep s) (jsonFile s) (jsonText s) (uploadMode s) v
          (importResult s) (isProcessing s) (progress s).

Definition setImportResult (v : option ImportTransformResult) (s : State) : State :=
  mkState (currentStep s) (jsonFile s) (jsonText s) (uploadMode s)
          (validationResult s) v (isProcessing s) (progress s).

Definition setIsProcessing (v : bool) (s : State) : State :=
  mkState (currentStep s) (jsonFile s) (jsonText s) (uploadMode s)
          (validationResult s) (importResult s) v (progress s).

Definition setProgress (v : nat) (s : State) : State :=
  mkState (currentStep s) (jsonFile s) (jsonText s) (uploadMode s)
          (validationResult s) (importResult s) (isProcessing s) v.

(** The state the component is mounted with. *)
Definition initial : State := mkState Upload None "" FileMode None None false 0.

Definition resetModal (s : State) : State :=
  let s := setCurrentStep Upload s in
  let s := setJsonFile None s in
  let s := setJsonText "" s in
  let s := setValidationResult None s in
  let s := setImportResult None s in
  let s := setIsProcessing false s in
  setProgress 0 s.

(** [handleConfirmImport]: the result handed to [onImportSuccess], if any,
    and the state after. *)
Definition handleConfirmImport (s : State) : option ImportTransformResult * State :=
  match importResult s with
  | Some result =>
      if success result &&
         match formSchema result with Some _ => true | None => false end
      then (Some result, setCurrentStep Complete s)
      else (None, s)
  | None => (None, s)
  end.

Definition canProceedFromUpload (s : State) : bool :=
  match jsonFile s with
  | Some _ => true
  | None => (0 <? String.length (trim (jsonText s)))%nat
  end.

Definition canProceedFromValidation (s : State) : bool :=
  match importResult s with
  | Some result => success result
  | None => false
  end.

Definition getStepProgress (s : State) : nat :=
  match currentStep s with
  | Upload => 25
  | Validate => 50
  | Preview => 75
  | Complete => 100
  end.

(** What the progress bar is given. *)
Definition progress_value (s : State) : nat :=
  if isProcessing s then progress s else getStepProgress s.

(** The blocks of the dialog body, each under its own condition. *)
Definition shows_upload (s : State) : bool :=
  match currentStep s with Upload => true | _ => false end.

Definition shows_validation (s : State) : bool :=
  match currentStep s, validationResult s with
  | Validate, Some _ => true
  | _, _ => false
  end.

(** The list headed [Import Errors:] sits inside the validation block. *)
Definition shows_import_errors (s : State) : bool :=
  shows_validation s &&
  match importResult s with
  | Some result => (0 <? List.length (import_errors result))%nat
  | None => false
  end.

Definition shows_preview (s : State) : bool :=
  match currentStep s, importResult s with
  | Preview, Some result =>
      match formSchema result with Some _ => true | None => false end
  | _, _ => false
  end.

(** The list headed [Import Warnings:] sits inside the preview block. *)
Definition shows_import_warnings (s : State) : bool :=
  shows_preview s &&
  match importResult s with
  | Some result => (0 <? List.length (import_warnings result))%nat
  | None => false
  end.

Definition shows_complete (s : State) : bool :=
  match currentStep s with Complete => true | _ => false end.

End JsonImportModal.

(** ** The validation summary (ValidationResults.tsx) *)

(** The three faces of the component: the success banner, or the list
    under one of two badges. *)
Inductive Summary := ValidationSuccessful | ValidWithWarnings | ValidationFailed.

Definition ValidationResults (validationResult : ValidationResult) : Summary :=
  if isValid validationResult &&
     (List.length (warnings validationResult) =? 0)%nat
  then ValidationSuccessful
  else if isValid validationResult then ValidWithWarnings
  else ValidationFailed.

(** The alert [Ready to import with warnings] at the foot of the list. *)
Definition ready_with_warnings (validationResult : ValidationResult) : bool :=
  isValid validationResult &&
  (0 <? List.length (warnings validationResult))%nat.

(** ** The callers of the dialog (FormsHeader, useFormsManagement) *)

(** What [handleImportFromJson] does to the outside. *)
Inductive Effect :=
| toast_error (message : string)
| toast_success (message : string)
| createForm (userId : string) (title : JSValue) (schema : FormSchema)
| loadForms
| router_push (url : string).

(** [handleImportFromJson]; [created] is what [formsDb.createForm] answers
    with: the new form's id, or a rejection. *)
Definition handleImportFromJson (user : option string)
           (created : Result string) (result : ImportTransformResult)
  : list Effect :=
  match user, success result, formSchema result with
  | Some userId, true, Some schema =>
      createForm userId (lookup (settings schema) "title") schema ::
      match created with
      | Ok formId =>
          [ loadForms;
            toast_success "Form imported successfully!";
            router_push ("/form-builder/" ++ formId) ]
      | Throw _ => [ toast_error "Failed to create form from imported JSON" ]
      end
  | _, _, _ => [ toast_error "Failed to import form from JSON" ]
  end.

(** [handleImportSuccess] of FormsHeader: the dialog is closed and the
    result is passed on when there is someone to pass it to. *)
Definition handleImportSuccess {A} (onImportFromJson : option (ImportTransformResult -> A))
           (result : ImportTransformResult) : bool * option A :=
  let showImportModal := false in
  (showImportModal,
   match onImportFromJson with
   | Some f => Some (f result)
   | None => None
   end).


(** The two kinds of answer the import service gives. *)
Definition import_outcome (r : ImportTransformResult) : Prop :=
  (success r = true /\ import_errors r = [] /\ import_warnings r = [] /\
   exists schema v,
     formSchema r = Some schema /\ validationResult r = Some v /\
     isValid v = true /\ warnings v = []) \/
  (success r = false /\ formSchema r = None /\ import_errors r <> [] /\
   (validationResult r = None \/
    exists v, validationResult r = Some v /\ isValid v = false)).


(** ** Documents used in the worked examples *)

Definition obj_field (id type label : string) (more : Props) : JSValue :=
  JObj ([("id", JStr id); ("type", JStr type); ("label", JStr label)] ++ more).

Definition document (title : string) (fields : list JSValue) : JSValue :=
  JObj [("title", JStr title); ("fields", JArr fields)].

(** [{title:"", fields:[]}] *)
Definition empty_form : JSValue := document "" [].

(** [{title:"T", fields:[{id:"s1", type:"section", label:""}]}] *)
Definition blank_section : JSValue := obj_field "s1" "section" "" [].
Definition blank_section_form : JSValue := document "T" [blank_section].

(** [{id:"n1", type:"number", label:"Age", min:1, max:10, validation:{min:5}}] *)
Definition bounded_number : JSValue :=
  obj_field "n1" "number" "Age"
    [("min", JNum 1); ("max", JNum 10); ("validation", JObj [("min", JNum 5)])].

(** [{id:"t1", type:"text", label:"Name", validation:{minLength:0, maxLength:5}}] *)
Definition zero_minLength : JSValue :=
  obj_field "t1" "text" "Name"
    [("validation", JObj [("minLength", JNum 0); ("maxLength", JNum 5)])].

(** [{id:"t2", type:"text", label:"Code",
      validation:{minLength:2, maxLength:5, pattern:"^a"}}] *)
Definition patterned_text : JSValue :=
  obj_field "t2" "text" "Code"
    [("validation",
      JObj [("minLength", JNum 2); ("maxLength", JNum 5); ("pattern", JStr "^a")])].

(** [{id:"v1", type:"slider", label:"Volume", defaultValue:5, defaultChecked:true}] *)
Definition slider_both_defaults : JSValue :=
  obj_field "v1" "slider" "Volume"
    [("defaultValue", JNum 5); ("defaultChecked", JBool true)].

(** [{id:"c1", type:"text", label:"Agree", defaultValue:"no", defaultChecked:true}] *)
Definition text_both_defaults : JSValue :=
  obj_field "c1" "text" "Agree"
    [("defaultValue", JStr "no"); ("defaultChecked", JBool true)].

(** [{id:"f1", type:"multi_select", label:"Pick", options:["A","B"],
      minSelections:1, maxSelections:5}] *)
Definition pick_many : JSValue :=
  obj_field "f1" "multi_select" "Pick"
    [("options", JArr [JStr "A"; JStr "B"]);
     ("minSelections", JNum 1); ("maxSelections", JNum 5)].
Definition pick_many_form : JSValue := document "T" [pick_many].

(** [{id:"x1", type:"constructor", label:"Odd"}] *)
Definition constructor_field : JSValue := obj_field "x1" "constructor" "Odd" [].

(** A host for the worked examples.  The documents are given as values,
    with numbers compared to numbers only, so none of them reaches the two
    conversions, and the one text handed to the parser is not JSON; the clock
    and the random source are fixed. *)
Module Sample.

Definition JSON_parse (_ : string) : option JSValue := None.
Definition StringToNumber (_ : string) : float := PrimFloat.nan.
Definition NumberToString (_ : float) : string := "NaN".
Definition Date_now (_ : nat) : string := "1700000000000".
Definition Math_random (_ : nat) : string := "0.4fzyo82mvyr".

(** Modelled from the spec: [createDefaultFormSchema] of [@/lib/forms] is
    not among the sources.  The default schema is seeded with the title, the
    description and the multi-step switch, and its logic is empty. *)
Definition createDefaultFormSchema (title description : JSValue) (multiStep : bool)
  : FormSchema :=
  mkFormSchema [] []
    [("title", title); ("description", description);
     ("multiStep", JBool multiStep)]
    (JArr []).

End Sample.

(** Further documents and dialog states for the worked examples. *)

(** [{id:"h1", type:"hologram", label:"Odd"}] *)
Definition hologram_field : JSValue := obj_field "h1" "hologram" "Odd" [].

(** [{id:"s2", type:"select", label:"Pick"}] *)
Definition bare_select : JSValue := obj_field "s2" "select" "Pick" [].

(** [{id:"n2", type:"number", label:"Level", min:5, max:5}] *)
Definition level_bounds : JSValue :=
  obj_field "n2" "number" "Level" [("min", JNum 5); ("max", JNum 5)].

(** [["A", {id:"b", label:"B"}, 3]] *)
Definition mixed_options : JSValue :=
  JArr [JStr "A"; JObj [("id", JStr "b"); ("label", JStr "B")]; JNum 3].

(** [{theme:"dark", language:"ar"}] *)
Definition dark_arabic : JSValue :=
  JObj [("theme", JStr "dark"); ("language", JStr "ar")].

(** [{title:"T", fields:"none", settings:1}] *)
Definition fields_as_text : JSValue :=
  JObj [("title", JStr "T"); ("fields", JStr "none"); ("settings", JNum 1)].

(** [{id:"t3", type:"text", label:"Name", options:true}] *)
Definition text_with_options : JSValue :=
  obj_field "t3" "text" "Name" [("options", JBool true)].

(** A parser that knows three JSON texts. *)
Module Literals.

Definition JSON_parse (text : string) : option JSValue :=
  if text =? "{}" then Some (JObj [])
  else if text =? "[]" then Some (JArr [])
  else if text =? "null" then Some JNull
  else None.

End Literals.

(** The dialog with a text pasted into it. *)
Definition pasted (text : string) : JsonImportModal.State :=
  JsonImportModal.setJsonText text
    (JsonImportModal.setUploadMode JsonImportModal.TextMode JsonImportModal.initial).

(** [importedField.validation?.k], the rule an imported field carries under
    the name [k]. *)
Definition imported_rule (importedField : JSValue) (k : string) : JSValue :=
  get_opt (get_opt importedField "validation") k.

(** ** Host builtins and coercions *)

Section Host.

(** [JSON.parse]: [None] stands for the [SyntaxError] it throws. *)
Variable JSON_parse : string -> option JSValue.

(** The numeric reading of a string and the decimal rendering of a number
    (ECMAScript's StringToNumber and Number::toString). *)
Variable StringToNumber : string -> float.
Variable NumberToString : float -> string.

Definition parse (text : string) : Result JSValue :=
  match JSON_parse text with
  | Some data => Ok data
  | None => Throw (SyntaxError "Unexpected token in JSON")
  end.

(** ToString; an array is its elements joined by commas, [undefined] and
    [null] elements printing as nothing. *)
Fixpoint ToString (v : JSValue) : string :=
  match v with
  | JUndefined => "undefined"
  | JNull => "null"
  | JBool b => if b then "true" else "false"
  | JNum n => NumberToString n
  | JStr s => s
  | JArr l =>
      join "," (map (fun x => match x with
                              | JUndefined | JNull => ""
                              | _ => ToString x
                              end) l)
  | JObj _ => "[object Object]"
  | JFun name _ => "function " ++ name ++ "() { [native code] }"
  end.

(** ToPrimitive with hint number: [valueOf] of an object is the object, so
    its string form is taken. *)
Definition ToPrimitive (v : JSValue) : JSValue :=
  match v with
  | JArr _ | JObj _ | JFun _ _ => JStr (ToString v)
  | _ => v
  end.

(** ToNumber of a primitive. *)
Definition ToNumber (v : JSValue) : float :=
  match v with
  | JUndefined => PrimFloat.nan
  | JNull => 0%float
  | JBool b => if b then 1%float else 0%float
  | JNum n => n
  | JStr s => StringToNumber s
  | JArr _ | JObj _ | JFun _ _ => PrimFloat.nan
  end.

(** The abstract relational comparison; [None] is its [undefined] answer. *)
Definition IsLessThan (x y : JSValue) : option bool :=
  match ToPrimitive x, ToPrimitive y with
  | JStr a, JStr b => Some (String.ltb a b)
  | px, py =>
      let nx := ToNumber px in
      let ny := ToNumber py in
      if PrimFloat.is_nan nx || PrimFloat.is_nan ny then None
      else Some (PrimFloat.ltb nx ny)
  end.

(** [x < y] *)
Definition js_lt (x y : JSValue) : bool :=
  match IsLessThan x y with Some true => true | _ => false end.

(** [x >= y] *)
Definition js_ge (x y : JSValue) : bool :=
  match IsLessThan x y with Some false => true | _ => false end.

(** ** JsonSchemaValidator *)

(** [!v || typeof v !== 'string' || v.trim() === ''], the test applied to
    the form title, a field's id and a field's label. *)
Definition missing_text (v : JSValue) : Result bool :=
  or_else (negb (truthy v))
    (or_else (negb (JSType_eqb (typeof v) TString))
       (s <~ call_trim v ;; Ok (s =? ""))).

Definition validateFieldValidation (validation : JSValue) (path : string) : V unit :=
  if negb (JSType_eqb (typeof validation) TObject) || is_null validation then
    addError path "Validation must be an object" SevError
  else
    minLength <- lift (get validation "minLength") ;;
    maxLength <- lift (get validation "maxLength") ;;
    when (negb (is_undefined minLength) &&
          (negb (Number_isInteger minLength) || js_lt minLength (JNum 0)))
      (addError (path ++ ".minLength")
         "minLength must be a non-negative integer" SevError) ;;
    when (negb (is_undefined maxLength) &&
          (negb (Number_isInteger maxLength) || js_lt maxLength (JNum 1)))
      (addError (path ++ ".maxLength")
         "maxLength must be a positive integer" SevError) ;;
    when (negb (is_undefined minLength) && negb (is_undefined maxLength) &&
          js_ge minLength maxLength)
      (addError (path ++ ".minLength")
         "minLength must be less than maxLength" SevError) ;;
    pattern <- lift (get validation "pattern") ;;
    when (truthy pattern && negb (JSType_eqb (typeof pattern) TString))
      (addError (path ++ ".pattern") "Pattern must be a string" SevError).

(** The body of [field.options.forEach((option, index) => ...)]. *)
Definition validateOption (path : string) (option : JSValue) (index : nat) : V unit :=
  let here := path ++ ".options[" ++ index_to_string index ++ "]" in
  if JSType_eqb (typeof option) TString then
    s <- lift (call_trim option) ;;
    when (s =? "") (addError here "Option cannot be empty" SevError)
  else if JSType_eqb (typeof option) TObject && negb (is_null option) then
    oid <- lift (get option "id") ;;
    when (negb (truthy oid) || negb (JSType_eqb (typeof oid) TString))
      (addError (here ++ ".id")
         "Option ID is required and must be a string" SevError) ;;
    olabel <- lift (get option "label") ;;
    when (negb (truthy olabel) || negb (JSType_eqb (typeof olabel) TString))
      (addError (here ++ ".label")
         "Option label is required and must be a string" SevError)
  else
    addError here "Option must be a string or object with id and label" SevError.

Definition optionFields : list string :=
  ["radio"; "select"; "checkbox"; "checkboxes"; "multi_select"].

Definition validateFieldTypeSpecific (field : JSValue) (path : string) : V unit :=
  fieldType <- lift (get field "type") ;;
  (* Fields that require options *)
  when (list_includes optionFields fieldType)
    (options <- lift (get field "options") ;;
     (if negb (truthy options && Array_isArray options) then
        addError (path ++ ".options")
          ("Field type " ++ ToString fieldType ++ " requires an options array")
          SevError
      else if is_zero (get_length options) then
        addError (path ++ ".options")
          ("Field type " ++ ToString fieldType ++ " must have at least one option")
          SevError
      else
        match options with
        | JArr l => forEach l (validateOption path)
        | _ => lift (Throw (TypeError "field.options.forEach is not a function"))
        end) ;;
     (* Validate selection constraints *)
     when (is_str fieldType "checkboxes" || is_str fieldType "multi_select")
       (minSelections <- lift (get field "minSelections") ;;
        maxSelections <- lift (get field "maxSelections") ;;
        when (negb (is_undefined minSelections) &&
              (negb (Number_isInteger minSelections) ||
               js_lt minSelections (JNum 0)))
          (addError (path ++ ".minSelections")
             "minSelections must be a non-negative integer" SevError) ;;
        when (negb (is_undefined maxSelections))
          (when (negb (Number_isInteger maxSelections) ||
                 js_lt maxSelections (JNum 1))
             (addError (path ++ ".maxSelections")
                "maxSelections must be a positive integer" SevError) ;;
           when (negb (is_undefined minSelections) &&
                 js_lt maxSelections minSelections)
             (addError (path ++ ".maxSelections")
                "maxSelections cannot be less than minSelections" SevError)))) ;;
  (* Number and slider fields *)
  when (is_str fieldType "number" || is_str fieldType "slider")
    (min <- lift (get field "min") ;;
     max <- lift (get field "max") ;;
     step <- lift (get field "step") ;;
     when (negb (is_undefined min) && negb (JSType_eqb (typeof min) TNumber))
       (addError (path ++ ".min") "min value must be a number" SevError) ;;
     when (negb (is_undefined max) && negb (JSType_eqb (typeof max) TNumber))
       (addError (path ++ ".max") "max value must be a number" SevError) ;;
     when (negb (is_undefined step) && negb (JSType_eqb (typeof step) TNumber))
       (addError (path ++ ".step") "step value must be a number" SevError) ;;
     when (negb (is_undefined min) && negb (is_undefined max) && js_ge min max)
       (addError (path ++ ".min")
          "min value must be less than max value" SevError)) ;;
  (* Statement/section fields *)
  label <- lift (get field "label") ;;
  blank <- lift (and_then (is_str fieldType "section" || is_str fieldType "statement")
                   (or_else (negb (truthy label))
                      (s <~ call_trim label ;; Ok (s =? "")))) ;;
  when blank
    (addWarning (path ++ ".label")
       "Section fields should have descriptive labels" SevWarning) ;;
  (* Validation for specific field configurations *)
  validation <- lift (get field "validation") ;;
  when (truthy validation)
    (validateFieldValidation validation (path ++ ".validation")).

Definition validateField (field : JSValue) (path : string) : V unit :=
  if negb (truthy field) || negb (JSType_eqb (typeof field) TObject) then
    addError path "Field must be an object" SevError
  else
    (* Required properties *)
    id <- lift (get field "id") ;;
    badId <- lift (missing_text id) ;;
    when badId
      (addError (path ++ ".id")
         "Field ID is required and must be a non-empty string" SevError) ;;
    type <- lift (get field "type") ;;
    (if negb (truthy type) || negb (JSType_eqb (typeof type) TString) then
       addError (path ++ ".type")
         "Field type is required and must be a string" SevError
     else if negb (truthy (lookup SUPPORTED_FIELD_TYPES (ToString type))) then
       addError (path ++ ".type")
         ("Unsupported field type: " ++ ToString type ++ ". Supported types: "
          ++ join ", " getSupportedFieldTypes)
         SevError
     else ret tt) ;;
    label <- lift (get field "label") ;;
    badLabel <- lift (missing_text label) ;;
    when badLabel
      (addError (path ++ ".label")
         "Field label is required and must be a non-empty string" SevError) ;;
    (* Optional properties validation *)
    required <- lift (get field "required") ;;
    when (negb (is_undefined required) &&
          negb (JSType_eqb (typeof required) TBoolean))
      (addError (path ++ ".required") "Field required must be a boolean" SevError) ;;
    placeholder <- lift (get field "placeholder") ;;
    when (truthy placeholder && negb (JSType_eqb (typeof placeholder) TString))
      (addError (path ++ ".placeholder")
         "Field placeholder must be a string" SevError) ;;
    helpText <- lift (get field "helpText") ;;
    when (truthy helpText && negb (JSType_eqb (typeof helpText) TString))
      (addError (path ++ ".helpText") "Field helpText must be a string" SevError) ;;
    description <- lift (get field "description") ;;
    when (truthy description && negb (JSType_eqb (typeof description) TString))
      (addError (path ++ ".description")
         "Field description must be a string" SevError) ;;
    (* Type-specific validation *)
    validateFieldTypeSpecific field path.

(** The body of [notifications.emails.forEach((email, index) => ...)]. *)
Definition validateEmail (path : string) (email : JSValue) (index : nat) : V unit :=
  when (negb (JSType_eqb (typeof email) TString))
    (addError (path ++ ".notifications.emails[" ++ index_to_string index ++ "]")
       "Email must be a string" SevError).

(** [emails.forEach(...)] on a truthy value: only an array has the method. *)
Definition forEach_emails (path : string) (emails : JSValue) : V unit :=
  match emails with
  | JArr l => forEach l (validateEmail path)
  | _ => lift (Throw (TypeError "notifications.emails.forEach is not a function"))
  end.

Definition validateSettings (settings : JSValue) (path : string) : V unit :=
  if negb (JSType_eqb (typeof settings) TObject) || is_null settings then
    addError path "Settings must be an object" SevError
  else
    (* Validate theme *)
    theme <- lift (get settings "theme") ;;
    when (truthy theme && negb (JSType_eqb (typeof theme) TString))
      (addError (path ++ ".theme") "Theme must be a string" SevError) ;;
    (* Validate language *)
    language <- lift (get settings "language") ;;
    when (truthy language && negb (JSType_eqb (typeof language) TString))
      (addError (path ++ ".language") "Language must be a string" SevError) ;;
    (* Validate submission settings *)
    submission <- lift (get settings "submission") ;;
    when (truthy submission)
      (if negb (JSType_eqb (typeof submission) TObject) || is_null submission then
         addError (path ++ ".submission")
           "Submission settings must be an object" SevError
       else
         redirectUrl <- lift (get submission "redirectUrl") ;;
         when (negb (is_undefined redirectUrl) && negb (is_null redirectUrl) &&
               negb (JSType_eqb (typeof redirectUrl) TString))
           (addError (path ++ ".submission.redirectUrl")
              "Redirect URL must be a string or null" SevError) ;;
         successMessage <- lift (get submission "successMessage") ;;
         when (truthy successMessage &&
               negb (JSType_eqb (typeof successMessage) TString))
           (addError (path ++ ".submission.successMessage")
              "Success message must be a string" SevError)) ;;
    (* Validate notifications *)
    notifications <- lift (get settings "notifications") ;;
    when (truthy notifications)
      (if negb (JSType_eqb (typeof notifications) TObject) || is_null notifications then
         addError (path ++ ".notifications")
           "Notifications settings must be an object" SevError
       else
         sendEmail <- lift (get notifications "sendEmail") ;;
         when (negb (is_undefined sendEmail) &&
               negb (JSType_eqb (typeof sendEmail) TBoolean))
           (addError (path ++ ".notifications.sendEmail")
              "sendEmail must be a boolean" SevError) ;;
         emails <- lift (get notifications "emails") ;;
         if truthy emails && negb (Array_isArray emails) then
           addError (path ++ ".notifications.emails")
             "emails must be an array" SevError
         else
           when (truthy emails) (forEach_emails path emails)).

Definition validateFormSchema (data : JSValue) : V unit :=
  (* Check required root properties *)
  title <- lift (get data "title") ;;
  badTitle <- lift (missing_text title) ;;
  when badTitle
    (addError "title"
       "Form title is required and must be a non-empty string" SevError) ;;
  description <- lift (get data "description") ;;
  when (truthy description && negb (JSType_eqb (typeof description) TString))
    (addError "description" "Form description must be a string" SevError) ;;
  (* Validate fields array *)
  fields <- lift (get data "fields") ;;
  match fields with
  | JArr l =>
      when (is_zero (get_length fields))
        (addError "fields" "Form must have at least one field" SevError) ;;
      (* Validate each field *)
      forEach l (fun field index =>
                   validateField field ("fields[" ++ index_to_string index ++ "]")) ;;
      (* Validate settings if present *)
      settings <- lift (get data "settings") ;;
      when (truthy settings) (validateSettings settings "settings")
  | _ => addError "fields" "Fields must be an array" SevError
  end.

(** [validate]: both accumulators are reset, the input is parsed when it is
    a string, and whatever is thrown on the way becomes the root error. *)
Definition validate (jsonData : JSValue) : ValidationResult :=
  let this := mkValidator [] [] in
  let body : V unit :=
    data <- lift (match jsonData with
                  | JStr text => parse text
                  | _ => Ok jsonData
                  end) ;;
    validateFormSchema data in
  match body this with
  | (this, Ok _) =>
      mkValidationResult
        (List.length (this_errors this) =? 0)%nat
        (this_errors this)
        (this_warnings this)
        (filter isFixableError (this_errors this))
  | (this, Throw _) =>
      let this :=
        fst (addError "root"
               "Invalid JSON format. Please check your JSON syntax." SevError this) in
      mkValidationResult false (this_errors this) (this_warnings this) []
  end.

(** [validateJsonSchema]: a fresh validator for every call. *)
Definition validateJsonSchema (jsonData : JSValue) : ValidationResult :=
  validate jsonData.

(** ** JsonImportService *)

(** The clock and the random source, read once per generated identifier:
    [Date_now t] is the decimal rendering of [Date.now()] and [Math_random t]
    is [Math.random().toString(36)] at the [t]-th draw. *)
Variable Date_now : nat -> string.
Variable Math_random : nat -> string.

(** [createDefaultFormSchema({ title, description, multiStep })] of
    [@/lib/forms], which is not part of the import module. *)
Variable createDefaultFormSchema : JSValue -> JSValue -> bool -> FormSchema.

Definition World := nat.
Definition T := M World.

Definition generateUniqueId : T JSValue :=
  fun t => (S t, Ok (JStr ("field_" ++ Date_now t ++ "_" ++ substring 2 9 (Math_random t)))).

Definition generateBlockId : T string :=
  fun t => (S t, Ok ("block_" ++ Date_now t ++ "_" ++ substring 2 9 (Math_random t))).

(** [SUPPORTED_FIELD_TYPES[importedField.type] || importedField.type] at the
    call site, where the argument is whatever the field carries: the property
    key is its string form. *)
Definition mapFieldType_of (importType : JSValue) : JSValue :=
  js_or (lookup SUPPORTED_FIELD_TYPES (ToString importType)) importType.

(** The callback of [importedOptions.map]. *)
Definition transformOption (option : JSValue) : Result JSValue :=
  if JSType_eqb (typeof option) TString then Ok option
  else
    labelled <~ and_then (JSType_eqb (typeof option) TObject)
                  (l <~ get option "label" ;; Ok (truthy l)) ;;
    if labelled then get option "label" else Ok (JStr "Option").

(** [transformOptions]; [None] is its [undefined].  A JSON value other than
    an array has no callable [map]. *)
Definition transformOptions (importedOptions : JSValue) : Result (option (list JSValue)) :=
  if negb (truthy importedOptions) || is_zero (get_length importedOptions) then
    Ok None
  else
    match importedOptions with
    | JArr l => r <~ mapR transformOption l ;; Ok (Some r)
    | _ => Throw (TypeError "importedOptions.map is not a function")
    end.

(** [if (c) { o.k = v }] *)
Definition assign_if (c : bool) (o : Props) (k : string) (v : JSValue) : Props :=
  if c then set_prop o k v else o.
Arguments assign_if : simpl never.

Definition transformValidation (importedField : JSValue) : Result Props :=
  let validation : Props := [] in
  v <~ get importedField "validation" ;;
  (* Direct mappings *)
  let validation :=
    assign_if (truthy (get_opt v "minLength")) validation "minLength" (get_opt v "minLength") in
  let validation :=
    assign_if (truthy (get_opt v "maxLength")) validation "maxLength" (get_opt v "maxLength") in
  let validation :=
    assign_if (truthy (get_opt v "min")) validation "min" (get_opt v "min") in
  let validation :=
    assign_if (truthy (get_opt v "max")) validation "max" (get_opt v "max") in
  let validation :=
    assign_if (truthy (get_opt v "pattern")) validation "pattern" (get_opt v "pattern") in
  (* Map min/max from root level for number fields *)
  min <~ get importedField "min" ;;
  let validation := assign_if (negb (is_undefined min)) validation "min" min in
  max <~ get importedField "max" ;;
  let validation := assign_if (negb (is_undefined max)) validation "max" max in
  (* Custom validation messages *)
  required <~ get importedField "required" ;;
  let validation :=
    assign_if (truthy required) validation "requiredMessage"
      (JStr "This field is required") in
  Ok validation.

Definition transformFieldSettings (importedField fieldType : JSValue) : Result Props :=
  let settings : Props := [] in
  (* Help text *)
  helpText <~ get importedField "helpText" ;;
  let settings := assign_if (truthy helpText) settings "helpText" helpText in
  (* Default values *)
  defaultValue <~ get importedField "defaultValue" ;;
  let settings :=
    assign_if (negb (is_undefined defaultValue)) settings "defaultValue" defaultValue in
  defaultChecked <~ get importedField "defaultChecked" ;;
  let settings :=
    assign_if (negb (is_undefined defaultChecked)) settings "defaultValue" defaultChecked in
  (* Field-specific settings *)
  if is_str fieldType "textarea" then
    rows <~ get importedField "rows" ;;
    Ok (assign_if (truthy rows) settings "rows" rows)
  else if is_str fieldType "number" || is_str fieldType "slider" then
    min <~ get importedField "min" ;;
    let settings := assign_if (negb (is_undefined min)) settings "min" min in
    max <~ get importedField "max" ;;
    let settings := assign_if (negb (is_undefined max)) settings "max" max in
    step <~ get importedField "step" ;;
    let settings := assign_if (negb (is_undefined step)) settings "step" step in
    Ok (assign_if (is_str fieldType "slider" && negb (is_undefined defaultValue))
          settings "defaultValue" defaultValue)
  else if is_str fieldType "checkbox" then
    (* Handle selection constraints for multi-checkbox fields *)
    minSelections <~ get importedField "minSelections" ;;
    let settings :=
      assign_if (negb (is_undefined minSelections)) settings "min" minSelections in
    maxSelections <~ get importedField "maxSelections" ;;
    Ok (assign_if (negb (is_undefined maxSelections)) settings "max" maxSelections)
  else if is_str fieldType "select" then
    (* Allow multiple selection if specified *)
    type <~ get importedField "type" ;;
    Ok (assign_if (is_str type "multi_select") settings "allowMultiple" (JBool true))
  else if is_str fieldType "statement" then
    (* Map section/statement settings *)
    label <~ get importedField "label" ;;
    let settings := set_prop settings "statementHeading" label in
    description <~ get importedField "description" ;;
    let settings :=
      assign_if (truthy description) settings "statementDescription" description in
    let settings := set_prop settings "statementAlign" (JStr "left") in
    Ok (set_prop settings "statementSize" (JStr "md"))
  else if is_str fieldType "rating" then
    let settings := set_prop settings "starCount" (JNum 5) in
    let settings := set_prop settings "icon" (JStr "star") in
    Ok (set_prop settings "color" (JStr "#fbbf24"))
  else if is_str fieldType "tags" then
    let settings := set_prop settings "maxTags" (JNum 10) in
    Ok (set_prop settings "allowDuplicates" (JBool false))
  else
    Ok settings.

Definition transformField (importedField : JSValue) : T FormField :=
  (* Generate unique ID if not provided *)
  id <- lift (get importedField "id") ;;
  fieldId <- (if truthy id then ret id else generateUniqueId) ;;
  (* Map field type *)
  type <- lift (get importedField "type") ;;
  let mappedType := mapFieldType_of type in
  (* Transform options *)
  importedOptions <- lift (get importedField "options") ;;
  options <- lift (transformOptions importedOptions) ;;
  (* Build the internal field structure *)
  label <- lift (get importedField "label") ;;
  description <- lift (get importedField "description") ;;
  placeholder <- lift (get importedField "placeholder") ;;
  required <- lift (get importedField "required") ;;
  validation <- lift (transformValidation importedField) ;;
  settings <- lift (transformFieldSettings importedField mappedType) ;;
  ret (mkFormField fieldId mappedType label description placeholder
         (js_nullish required (JBool false)) validation settings
         (* Add options for fields that support them *)
         (match options with
          | Some (_ :: _) => options
          | _ => None
          end)).

Definition rtlLanguages : list string := ["ar"; "he"; "ur"; "fa"].

Definition transformSettings (importedSettings : JSValue) (baseSettings : Props)
  : Result Props :=
  let settings : Props := baseSettings in
  (* Basic settings *)
  theme <~ get importedSettings "theme" ;;
  let settings :=
    assign_if (truthy theme) settings "theme"
      (JObj (set_prop (spread (lookup settings "theme")) "primaryColor"
               (JStr (if is_str theme "dark" then "#1f2937" else "#3b82f6")))) in
  (* Submission settings *)
  submission <~ get importedSettings "submission" ;;
  settings <~ (if truthy submission then
                 successMessage <~ get submission "successMessage" ;;
                 let settings :=
                   assign_if (truthy successMessage) settings
                     "successMessage" successMessage in
                 redirectUrl <~ get submission "redirectUrl" ;;
                 Ok (assign_if (truthy redirectUrl) settings "redirectUrl" redirectUrl)
               else Ok settings) ;;
  (* Notifications *)
  notifications <~ get importedSettings "notifications" ;;
  settings <~ (if truthy notifications then
                 sendEmail <~ get notifications "sendEmail" ;;
                 emails <~ get notifications "emails" ;;
                 Ok (set_prop settings "notifications"
                       (JObj [ ("enabled", js_nullish sendEmail (JBool false));
                               ("email", js_or (get_first_opt emails) (JStr ""));
                               ("subject",
                                JStr ("New form submission: "
                                      ++ ToString (lookup settings "title")));
                               ("message",
                                JStr "A new form submission has been received.") ]))
               else Ok settings) ;;
  (* Language/RTL support *)
  language <~ get importedSettings "language" ;;
  Ok (assign_if (truthy language) settings "rtl"
        (JBool (list_includes rtlLanguages language))).

Definition mainBlockSettings : Props :=
  [ ("showStepNumber", JBool false);
    ("layout", JStr "single");
    ("spacing", JStr "normal") ].

(** [importedSchema.fields.map((field) => this.transformField(field))] *)
Definition map_fields (fields : JSValue) : T (list FormField) :=
  match fields with
  | JArr l => mapM transformField l
  | JUndefined =>
      lift (Throw (TypeError "Cannot read properties of undefined (reading 'map')"))
  | JNull =>
      lift (Throw (TypeError "Cannot read properties of null (reading 'map')"))
  | _ => lift (Throw (TypeError "importedSchema.fields.map is not a function"))
  end.

Definition createFormSchema (importedSchema : JSValue) : T FormSchema :=
  (* Start with default schema *)
  title <- lift (get importedSchema "title") ;;
  description <- lift (get importedSchema "description") ;;
  let baseSchema :=
    createDefaultFormSchema title (js_or description (JStr "")) false in
  (* Transform fields *)
  importedFields <- lift (get importedSchema "fields") ;;
  transformedFields <- map_fields importedFields ;;
  (* Create single block with all fields *)
  blockId <- generateBlockId ;;
  let mainBlock :=
    mkFormBlock blockId "Main" "" transformedFields mainBlockSettings in
  (* Apply imported settings *)
  importedSettings <- lift (get importedSchema "settings") ;;
  settings <- lift (transformSettings (js_or importedSettings (JObj []))
                      (settings baseSchema)) ;;
  ret (mkFormSchema [mainBlock] transformedFields settings (logic baseSchema)).

(** [`${e.path}: ${e.message}`] *)
Definition render (e : ValidationError) : string := path e ++ ": " ++ message e.

(** [transformJsonToFormSchema]: the whole body sits in a [try]; the promise
    it returns is always fulfilled, with the record below. *)
Definition transformJsonToFormSchema (jsonData : JSValue) (t : World)
  : World * ImportTransformResult :=
  (* First validate the JSON structure *)
  let validationResult := validateJsonSchema jsonData in
  if negb (isValid validationResult) then
    (t, mkImportTransformResult false None
          (map render (errors validationResult))
          (map render (warnings validationResult))
          (Some validationResult))
  else
    (* Transform to internal format *)
    match createFormSchema jsonData t with
    | (t', Ok formSchema) =>
        (t', mkImportTransformResult true (Some formSchema) []
               (map render (warnings validationResult))
               (Some validationResult))
    | (t', Throw error) =>
        (t', mkImportTransformResult false None
               ["Failed to transform JSON: " ++ error_message error] [] None)
    end.

(** [readFileAsText]: the reader fails ([None]), or delivers the text; an
    empty text is rejected as well. *)
Definition readFileAsText (file : option string) : Result string :=
  match file with
  | None => Throw (Error "File reading error")
  | Some text =>
      if truthy (JStr text) then Ok text
      else Throw (Error "Failed to read file")
  end.

Definition importFromFile (file : option string) (t : World)
  : World * ImportTransformResult :=
  match (text <~ readFileAsText file ;; parse text) with
  | Ok jsonData => transformJsonToFormSchema jsonData t
  | Throw error =>
      (t, mkImportTransformResult false None
            ["Failed to read file: " ++ error_message error] [] None)
  end.


(** ** JsonImportModal: the handler that runs the import *)

(** [handleValidateAndProcess]: the state after the handler has run to its
    end.  [importFromFile] and [transformJsonToFormSchema] always fulfil
    their promise, so the [catch] is reached from [JSON.parse] only. *)
Definition handleValidateAndProcess (s : JsonImportModal.State) (t : World)
  : World * JsonImportModal.State :=
  let jsonFile := JsonImportModal.jsonFile s in
  let jsonText := JsonImportModal.jsonText s in
  let s := JsonImportModal.setIsProcessing true s in
  let s := JsonImportModal.setProgress 25 s in
  let attempt : Result (World * ImportTransformResult) :=
    match jsonFile with
    | Some file => Ok (importFromFile file t)
    | None => data <~ parse jsonText ;; Ok (transformJsonToFormSchema data t)
    end in
  match attempt with
  | Ok (t', result) =>
      let s := JsonImportModal.setProgress 75 s in
      let s := JsonImportModal.setImportResult (Some result) s in
      let s := JsonImportModal.setValidationResult (validationResult result) s in
      let s := JsonImportModal.setCurrentStep
                 (if success result then JsonImportModal.Preview
                  else JsonImportModal.Validate) s in
      let s := JsonImportModal.setProgress 100 s in
      (t', JsonImportModal.setIsProcessing false s)
  | Throw error =>
      let s := JsonImportModal.setImportResult
                 (Some (mkImportTransformResult false None
                          ["Failed to process JSON: " ++ error_message error]
                          [] None)) s in
      let s := JsonImportModal.setCurrentStep JsonImportModal.Validate s in
      (t, JsonImportModal.setIsProcessing false s)
  end.



(** * Properties *)

(** ** Objects *)

Lemma own_set_prop_same (o : Props) (k : string) (v : JSValue) :
  own (set_prop o k v) k = Some v.
Proof.
  induction o as [|[k' v'] o IH]; simpl.
  - now rewrite String.eqb_refl.
  - destruct (k =? k') eqn:E; simpl.
    + now rewrite String.eqb_refl.
    + now rewrite E.
Qed.

Lemma own_set_prop_other (o : Props) (k k' : string) (v : JSValue) :
  k' <> k -> own (set_prop o k v) k' = own o k'.
Proof.
  intros Hne. apply String.eqb_neq in Hne.
  induction o as [|[k0 v0] o IH]; simpl.
  - now rewrite Hne.
  - destruct (k =? k0) eqn:E; simpl.
    + apply String.eqb_eq in E. subst k0. now rewrite Hne.
    + now rewrite IH.
Qed.

Lemma own_assign_if_other (c : bool) (o : Props) (k k' : string) (v : JSValue) :
  k' <> k -> own (assign_if c o k v) k' = own o k'.
Proof.
  intros Hne. unfold assign_if. destruct c; [now apply own_set_prop_other | reflexivity].
Qed.

Lemma own_assign_if_same (c : bool) (o : Props) (k : string) (v : JSValue) :
  own (assign_if c o k v) k = if c then Some v else own o k.
Proof. destruct c; [apply own_set_prop_same | reflexivity]. Qed.

(** Reads a property off a chain of assignments. *)
Ltac read_own :=
  repeat first [ rewrite own_assign_if_other by discriminate
               | rewrite own_set_prop_other by discriminate
               | rewrite own_assign_if_same
               | rewrite own_set_prop_same ].

Lemma is_str_eq (v : JSValue) (lit : string) : is_str v lit = true <-> v = JStr lit.
Proof.
  destruct v; simpl; split; try discriminate.
  - intros H. apply String.eqb_eq in H. now subst.
  - intros H. injection H as ->. apply String.eqb_refl.
Qed.

Lemma is_undefined_false (v : JSValue) : is_undefined v = false <-> v <> JUndefined.
Proof. destruct v; simpl; split; congruence. Qed.

(** A successful read is the optional read. *)
Lemma get_Ok (o : JSValue) (k : string) (v : JSValue) :
  get o k = Ok v -> v = get_opt o k /\ forall k', get o k' = Ok (get_opt o k').
Proof. destruct o; simpl; intros H; inversion H; auto. Qed.

Lemma get_not_nullish (v : JSValue) (k : string) :
  v <> JUndefined -> v <> JNull -> get v k = Ok (get_opt v k).
Proof. destruct v; simpl; congruence. Qed.

Lemma get_truthy (v : JSValue) (k : string) :
  truthy v = true -> get v k = Ok (get_opt v k).
Proof. destruct v; simpl; congruence. Qed.

(** ** The supported-type table and [mapFieldType] *)

Lemma own_In (o : Props) (k : string) (v : JSValue) :
  own o k = Some v -> In v (map snd o).
Proof.
  induction o as [|[k' v'] o IH]; simpl; [discriminate|].
  destruct (k =? k'); intros H; [left; congruence | right; auto].
Qed.

Lemma table_values_truthy (v : JSValue) :
  In v (map snd SUPPORTED_FIELD_TYPES) -> truthy v = true.
Proof.
  simpl. intros H.
  repeat (destruct H as [H|H]; [subst v; reflexivity|]). contradiction.
Qed.

Lemma mapFieldType_key (t : string) (v : JSValue) :
  own SUPPORTED_FIELD_TYPES t = Some v -> mapFieldType t = v.
Proof.
  intros H. unfold mapFieldType, lookup, js_or. rewrite H.
  now rewrite (table_values_truthy (own_In _ _ H)).
Qed.

Lemma mapFieldType_other (t : string) :
  own SUPPORTED_FIELD_TYPES t = None -> inherited t = JUndefined ->
  mapFieldType t = JStr t.
Proof.
  intros H1 H2. unfold mapFieldType, lookup, js_or. now rewrite H1, H2.
Qed.

(** ** Field validation rules ([transformValidation]) *)

Section TransformValidation.

Variable importedField : JSValue.
Variable validation : Props.
Hypothesis Hrun : transformValidation importedField = Ok validation.

Lemma transformValidation_unfold :
  validation =
    assign_if (truthy (get_opt importedField "required"))
      (assign_if (negb (is_undefined (get_opt importedField "max")))
         (assign_if (negb (is_undefined (get_opt importedField "min")))
            (assign_if (truthy (imported_rule importedField "pattern"))
               (assign_if (truthy (imported_rule importedField "max"))
                  (assign_if (truthy (imported_rule importedField "min"))
                     (assign_if (truthy (imported_rule importedField "maxLength"))
                        (assign_if (truthy (imported_rule importedField "minLength")) []
                           "minLength" (imported_rule importedField "minLength"))
                        "maxLength" (imported_rule importedField "maxLength"))
                     "min" (imported_rule importedField "min"))
                  "max" (imported_rule importedField "max"))
               "pattern" (imported_rule importedField "pattern"))
            "min" (get_opt importedField "min"))
         "max" (get_opt importedField "max"))
      "requiredMessage" (JStr "This field is required").
Proof.
  revert Hrun. unfold transformValidation, imported_rule.
  destruct importedField; simpl; intros H; inversion H; reflexivity.
Qed.

Lemma transformValidation_copies (k : string) :
  In k ["minLength"; "maxLength"; "pattern"] ->
  truthy (imported_rule importedField k) = true ->
  own validation k = Some (imported_rule importedField k).
Proof.
  intros Hk Ht. rewrite transformValidation_unfold.
  simpl in Hk.
  destruct Hk as [<-|[<-|[<-|[]]]]; read_own; now rewrite Ht.
Qed.

Lemma transformValidation_root_wins (k : string) :
  In k ["min"; "max"] ->
  get_opt importedField k <> JUndefined ->
  own validation k = Some (get_opt importedField k).
Proof.
  intros Hk Hp. apply is_undefined_false in Hp.
  rewrite transformValidation_unfold. simpl in Hk.
  destruct Hk as [<-|[<-|[]]]; read_own; now rewrite Hp.
Qed.

Lemma transformValidation_copies_bound (k : string) :
  In k ["min"; "max"] ->
  get_opt importedField k = JUndefined ->
  truthy (imported_rule importedField k) = true ->
  own validation k = Some (imported_rule importedField k).
Proof.
  intros Hk Hp Ht. rewrite transformValidation_unfold. simpl in Hk.
  destruct Hk as [<-|[<-|[]]]; read_own; rewrite Hp; cbn [is_undefined negb];
    now rewrite Ht.
Qed.

End TransformValidation.

Lemma transformValidation_returns (importedField : JSValue) :
  importedField <> JUndefined -> importedField <> JNull ->
  exists validation, transformValidation importedField = Ok validation.
Proof.
  intros H1 H2. unfold transformValidation.
  rewrite !(get_not_nullish _ H1 H2). simpl. eauto.
Qed.

(** C4 (as amended).  Whatever field object the transformer is given, it
    answers with a validation object in which a rule named [minLength],
    [maxLength] or [pattern] that the import's [validation] object carries
    with a truthy value is copied unchanged; [min] and [max] are copied in
    the same way when the field has no root-level [min] / [max], and
    otherwise the output's [validation.min] / [validation.max] is the
    root-level value. *)
Theorem transformValidation_rules (importedField : JSValue) :
  importedField <> JUndefined -> importedField <> JNull ->
  exists validation,
    transformValidation importedField = Ok validation /\
    (forall k, In k ["minLength"; "maxLength"; "pattern"] ->
               truthy (imported_rule importedField k) = true ->
               own validation k = Some (imported_rule importedField k)) /\
    (forall k, In k ["min"; "max"] ->
               get_opt importedField k = JUndefined ->
               truthy (imported_rule importedField k) = true ->
               own validation k = Some (imported_rule importedField k)) /\
    (forall k, In k ["min"; "max"] ->
               get_opt importedField k <> JUndefined ->
               own validation k = Some (get_opt importedField k)).
Proof.
  intros H1 H2.
  destruct (transformValidation_returns H1 H2) as [validation Hrun].
  exists validation. split; [exact Hrun|].
  repeat split; intros k Hk.
  - now apply transformValidation_copies.
  - now apply transformValidation_copies_bound.
  - now apply transformValidation_root_wins.
Qed.

(** ** Field settings ([transformFieldSettings]) *)

(** Every branch of the [switch] is decided by the tests on [fieldType]. *)
Ltac switch_cases fieldType :=
  repeat match goal with
         | |- context [is_str fieldType ?lit] =>
             let E := fresh "E" in
             destruct (is_str fieldType lit) eqn:E;
             [apply is_str_eq in E; subst fieldType; cbn [is_str String.eqb Ascii.eqb Bool.eqb orb andb] | ]
         end.

Lemma transformFieldSettings_defaults (importedField fieldType : JSValue) (settings : Props) :
  transformFieldSettings importedField fieldType = Ok settings ->
  get_opt importedField "defaultChecked" <> JUndefined ->
  own settings "defaultValue" =
    Some (if is_str fieldType "slider" &&
             negb (is_undefined (get_opt importedField "defaultValue"))
          then get_opt importedField "defaultValue"
          else get_opt importedField "defaultChecked").
Proof.
  intros Hrun Hdc. apply is_undefined_false in Hdc.
  revert Hrun. unfold transformFieldSettings.
  destruct (get importedField "helpText") eqn:E0; [|discriminate].
  apply get_Ok in E0. destruct E0 as [_ Hall].
  rewrite !Hall. cbn [bindR].
  switch_cases fieldType; cbn [orb andb];
    intros H; injection H as <-; read_own; rewrite ?Hdc; cbn [negb andb];
    try reflexivity;
    destruct (is_undefined (get_opt importedField "defaultValue")); reflexivity.
Qed.

Lemma transformFieldSettings_returns (importedField fieldType : JSValue) :
  importedField <> JUndefined -> importedField <> JNull ->
  exists settings, transformFieldSettings importedField fieldType = Ok settings.
Proof.
  intros H1 H2. unfold transformFieldSettings.
  rewrite !(get_not_nullish _ H1 H2). cbn [bindR].
  repeat match goal with
         | |- context [if ?c then _ else _] => destruct c
         end; eauto.
Qed.

(** C5 (as amended).  When an imported field carries both [defaultValue] and
    [defaultChecked], the settings made for it hold, as [defaultValue], the
    imported [defaultChecked] for every resolved type except ['slider']; for
    a slider they hold the imported [defaultValue], which the slider branch
    assigns again afterwards. *)
Theorem defaultChecked_precedence (importedField fieldType : JSValue) :
  get_opt importedField "defaultValue" <> JUndefined ->
  get_opt importedField "defaultChecked" <> JUndefined ->
  exists settings,
    transformFieldSettings importedField fieldType = Ok settings /\
    (fieldType <> JStr "slider" ->
     own settings "defaultValue" = Some (get_opt importedField "defaultChecked")) /\
    (fieldType = JStr "slider" ->
     own settings "defaultValue" = Some (get_opt importedField "defaultValue")).
Proof.
  intros Hdv Hdc.
  destruct (@transformFieldSettings_returns importedField fieldType)
    as [settings Hrun]; try (intros ->; now apply Hdv).
  exists settings. split; [exact Hrun|].
  rewrite (transformFieldSettings_defaults _ _ Hrun Hdc).
  apply is_undefined_false in Hdv. rewrite Hdv. split.
  - intros Hne. destruct (is_str fieldType "slider") eqn:E; [|reflexivity].
    apply is_str_eq in E. contradiction.
  - intros ->. reflexivity.
Qed.

Lemma transformFieldSettings_allowMultiple (importedField fieldType : JSValue) (settings : Props) :
  transformFieldSettings importedField fieldType = Ok settings ->
  own settings "allowMultiple" =
    if is_str fieldType "select" && is_str (get_opt importedField "type") "multi_select"
    then Some (JBool true) else None.
Proof.
  unfold transformFieldSettings.
  destruct (get importedField "helpText") eqn:E0; [|discriminate].
  apply get_Ok in E0. destruct E0 as [_ Hall].
  rewrite !Hall. cbn [bindR].
  switch_cases fieldType; cbn [orb andb];
    intros H; injection H as <-; read_own; reflexivity.
Qed.

(** ** Transformed fields *)

Lemma mapFieldType_of_string (s : string) :
  mapFieldType_of (JStr s) = mapFieldType s.
Proof. reflexivity. Qed.

(** What a transformed field is made of. *)
Lemma transformField_Ok (importedField : JSValue) (t t' : World) (f : FormField) :
  transformField importedField t = (t', Ok f) ->
  let mappedType := mapFieldType_of (get_opt importedField "type") in
  field_type f = mappedType /\
  transformValidation importedField = Ok (field_validation f) /\
  transformFieldSettings importedField mappedType = Ok (field_settings f) /\
  field_label f = get_opt importedField "label" /\
  field_required f = js_nullish (get_opt importedField "required") (JBool false).
Proof.
  unfold transformField, bind, lift, ret.
  destruct (get importedField "id") eqn:E0; [|discriminate].
  apply get_Ok in E0. destruct E0 as [-> Hall]. rewrite !Hall.
  destruct (truthy (get_opt importedField "id")); cbn [generateUniqueId];
    destruct (transformOptions (get_opt importedField "options")); try discriminate;
    destruct (transformValidation importedField); try discriminate;
    destruct (transformFieldSettings importedField _) eqn:Es; try discriminate;
    intros H; injection H as _ <-; cbn; auto.
Qed.

Lemma mapR_returns {A B} (f : A -> Result B) (l : list A) :
  Forall (fun x => exists y, f x = Ok y) l -> exists ys, mapR f l = Ok ys.
Proof.
  induction 1 as [|x l [y Hy] _ [ys Hys]]; simpl; [eauto|].
  rewrite Hy, Hys. simpl. eauto.
Qed.

Lemma transformOption_returns (option : JSValue) :
  is_null option = false -> exists y, transformOption option = Ok y.
Proof.
  intros H. unfold transformOption.
  destruct option as [ | |b|n|s|items|props|name arity]; simpl in *;
    try discriminate; eauto.
  destruct (truthy (lookup props "label")); eauto.
Qed.

Lemma transformOptions_returns (options : JSValue) :
  options_mappable options = true -> exists r, transformOptions options = Ok r.
Proof.
  intros H. unfold transformOptions.
  destruct options as [ | |b|n|s|items|props|name arity];
    try (unfold options_mappable in H; rewrite H; eauto).
  destruct (negb (truthy (JArr items)) || is_zero (get_length (JArr items)));
    [eauto|].
  destruct (@mapR_returns _ _ transformOption items) as [ys Hys].
  - apply Forall_forall. intros x Hx. apply transformOption_returns.
    simpl in H. rewrite forallb_forall in H. specialize (H x Hx).
    now destruct (is_null x).
  - rewrite Hys. simpl. eauto.
Qed.

Lemma transformField_returns (importedField : JSValue) (t : World) :
  importedField <> JUndefined -> importedField <> JNull ->
  options_mappable (get_opt importedField "options") = true ->
  exists t' field, transformField importedField t = (t', Ok field).
Proof.
  intros H1 H2 Hopt.
  destruct (transformOptions_returns _ Hopt) as [o Ho].
  destruct (transformValidation_returns H1 H2) as [v Hval].
  destruct (transformFieldSettings_returns
              (mapFieldType_of (get_opt importedField "type")) H1 H2) as [st Hst].
  unfold transformField, bind, lift, ret.
  rewrite !(get_not_nullish _ H1 H2), Ho, Hval, Hst.
  destruct (truthy (get_opt importedField "id")); cbn; eauto.
Qed.

(** C7.  Every field object whose options can be mapped is transformed, and
    in the transformed field the settings contain [allowMultiple = true]
    exactly when the import's [type] is literally ['multi_select']; such a
    field resolves to the internal type ['select'], and a field imported with
    the plain type ['select'] resolves to ['select'] too but gets no
    [allowMultiple]. *)
Theorem allowMultiple_iff_multi_select (importedField : JSValue) (t : World) :
  importedField <> JUndefined -> importedField <> JNull ->
  options_mappable (get_opt importedField "options") = true ->
  exists t' f,
    transformField importedField t = (t', Ok f) /\
    (own (field_settings f) "allowMultiple" = Some (JBool true) <->
     get_opt importedField "type" = JStr "multi_select") /\
    (get_opt importedField "type" = JStr "multi_select" ->
     field_type f = JStr "select") /\
    (get_opt importedField "type" = JStr "select" ->
     field_type f = JStr "select" /\ own (field_settings f) "allowMultiple" = None).
Proof.
  intros H1 H2 Hopt.
  destruct (transformField_returns t H1 H2 Hopt) as (t' & f & Hrun).
  exists t', f. split; [exact Hrun|].
  apply transformField_Ok in Hrun.
  destruct Hrun as (Hty & _ & Hset & _).
  apply transformFieldSettings_allowMultiple in Hset.
  rewrite Hset, Hty. clear Hset Hty.
  repeat split.
  - destruct (is_str (get_opt importedField "type") "multi_select") eqn:E.
    + intros _. now apply is_str_eq.
    + rewrite andb_false_r. discriminate.
  - intros ->. reflexivity.
  - intros ->. reflexivity.
  - rewrite H. reflexivity.
  - rewrite H. reflexivity.
Qed.

(** C10.  [mapFieldType] answers with the table's internal name on every key
    of the table, and with the type string itself on every string that is
    neither a key nor a member inherited from [Object.prototype]; the
    transformer then carries that string into the output field.  On an
    inherited member name the table read finds the member: on ['constructor']
    the answer is the function [Object], and a field of that type passes
    validation and is transformed with that function as its type. *)
Theorem mapFieldType_cases :
  (forall t v, own SUPPORTED_FIELD_TYPES t = Some v -> mapFieldType t = v) /\
  (forall t, own SUPPORTED_FIELD_TYPES t = None -> inherited t = JUndefined ->
             mapFieldType t = JStr t) /\
  (forall importedField t0 t1 f s,
      transformField importedField t0 = (t1, Ok f) ->
      get_opt importedField "type" = JStr s ->
      own SUPPORTED_FIELD_TYPES s = None -> inherited s = JUndefined ->
      field_type f = JStr s) /\
  (own SUPPORTED_FIELD_TYPES "constructor" = None /\
   mapFieldType "constructor" = JFun "Object" 1 /\
   isValid (validate
              (document "T" [constructor_field])) = true /\
   forall t0, exists f,
     transformField constructor_field t0 = (t0, Ok f) /\
     field_type f = JFun "Object" 1).
Proof.
  split; [exact mapFieldType_key|].
  split; [exact mapFieldType_other|].
  split.
  - intros importedField t0 t1 f s Hrun Hty H1 H2.
    apply transformField_Ok in Hrun. destruct Hrun as (-> & _).
    rewrite Hty, mapFieldType_of_string. now apply mapFieldType_other.
  - repeat split. intros t0. eexists. split; [vm_compute; reflexivity | reflexivity].
Qed.

(** ** The validator's accumulators *)

Lemma extends_refl (a : Validator) : extends a a.
Proof. split; exists []; now rewrite app_nil_r. Qed.

Lemma extends_trans (a b c : Validator) : extends a b -> extends b c -> extends a c.
Proof.
  intros [[e1 H1] [w1 H2]] [[e2 H3] [w2 H4]]. split.
  - exists (e1 ++ e2)%list. now rewrite H3, H1, app_assoc.
  - exists (w1 ++ w2)%list. now rewrite H4, H2, app_assoc.
Qed.

Lemma extends_In_error (a b : Validator) (e : ValidationError) :
  extends a b -> In e (this_errors a) -> In e (this_errors b).
Proof. intros [[x ->] _] H. apply in_or_app. now left. Qed.

Lemma extends_In_warning (a b : Validator) (e : ValidationError) :
  extends a b -> In e (this_warnings a) -> In e (this_warnings b).
Proof. intros [_ [x ->]] H. apply in_or_app. now left. Qed.

Lemma accumulates_ret {A} (a : A) : accumulates (ret a).
Proof. intros this. apply extends_refl. Qed.

Lemma accumulates_lift {A} (r : Result A) : accumulates (lift r).
Proof. intros this. apply extends_refl. Qed.

Lemma accumulates_bind {A B} (c : V A) (k : A -> V B) :
  accumulates c -> (forall a, accumulates (k a)) -> accumulates (bind c k).
Proof.
  intros Hc Hk this. unfold bind. specialize (Hc this).
  destruct (c this) as [this1 [a|e]]; simpl in *; [|exact Hc].
  eapply extends_trans; [exact Hc | apply Hk].
Qed.

Lemma accumulates_addError (p m : string) (sev : Severity) : accumulates (addError p m sev).
Proof.
  intros this. destruct sev; simpl; split; simpl;
    first [ eexists; reflexivity | exists []; now rewrite app_nil_r ].
Qed.

Lemma accumulates_addWarning (p m : string) (sev : Severity) :
  accumulates (addWarning p m sev).
Proof.
  intros this. simpl. split; simpl;
    first [ eexists; reflexivity | exists []; now rewrite app_nil_r ].
Qed.

Lemma accumulates_when (c : bool) (act : V unit) :
  accumulates act -> accumulates (when c act).
Proof. intros H. destruct c; [exact H | apply accumulates_ret]. Qed.

Lemma accumulates_forEach_from {A} (f : A -> nat -> V unit) (l : list A) :
  (forall x i, accumulates (f x i)) -> forall i, accumulates (forEach_from i l f).
Proof.
  intros Hf. induction l as [|x l IH]; intros i; simpl.
  - apply accumulates_ret.
  - apply accumulates_bind; [apply Hf | intros _; apply IH].
Qed.

Lemma accumulates_forEach {A} (f : A -> nat -> V unit) (l : list A) :
  (forall x i, accumulates (f x i)) -> accumulates (forEach l f).
Proof. intros Hf. now apply accumulates_forEach_from. Qed.

Create HintDb accum.
#[local] Hint Resolve accumulates_ret accumulates_lift accumulates_addError
  accumulates_addWarning accumulates_when : accum.

(** Walks a validator body: binds, guards, branches and loops. *)
Ltac accum :=
  repeat first
    [ progress intros
    | solve [auto with accum]
    | apply accumulates_bind
    | apply accumulates_when
    | apply accumulates_forEach
    | match goal with
      | |- accumulates (if ?c then _ else _) => destruct c
      | |- accumulates (match ?x with _ => _ end) => destruct x
      end ].

Lemma accumulates_validateFieldValidation validation path :
  accumulates (validateFieldValidation validation path).
Proof. unfold validateFieldValidation. accum. Qed.

Lemma accumulates_validateOption path option index :
  accumulates (validateOption path option index).
Proof. unfold validateOption. accum. Qed.

Lemma accumulates_validateFieldTypeSpecific field path :
  accumulates (validateFieldTypeSpecific field path).
Proof.
  unfold validateFieldTypeSpecific.
  pose proof accumulates_validateFieldValidation.
  pose proof accumulates_validateOption.
  accum.
Qed.

Lemma accumulates_validateField field path :
  accumulates (validateField field path).
Proof.
  unfold validateField. pose proof accumulates_validateFieldTypeSpecific. accum.
Qed.

Lemma accumulates_validateSettings settings path :
  accumulates (validateSettings settings path).
Proof. unfold validateSettings, forEach_emails, validateEmail. accum. Qed.

Lemma accumulates_validateFormSchema data :
  accumulates (validateFormSchema data).
Proof.
  unfold validateFormSchema.
  pose proof accumulates_validateField. pose proof accumulates_validateSettings.
  accum.
Qed.

(** ** [validate] *)

Lemma isValid_length (jsonData : JSValue) :
  isValid (validate jsonData) = (List.length (errors (validate jsonData)) =? 0)%nat.
Proof.
  unfold validate.
  match goal with |- context [bind ?c ?k ?s] => destruct (bind c k s) as [this [u|e]] end;
    cbn; [reflexivity|].
  rewrite length_app. cbn. now rewrite Nat.add_1_r.
Qed.

(** C2.  In the result of [validate], [isValid] is true exactly when the
    list of errors is empty; it is computed from that list alone, so two
    results with the same errors agree on [isValid] whatever their warnings. *)
Theorem isValid_iff_no_errors (jsonData : JSValue) :
  let r := validate jsonData in
  (isValid r = true <-> errors r = []) /\
  isValid r = (List.length (errors r) =? 0)%nat /\
  forall other,
    errors (validate other) = errors r ->
    isValid (validate other) = isValid r.
Proof.
  cbv zeta. split; [|split].
  - rewrite isValid_length. destruct (errors (validate jsonData)); cbn; split; congruence.
  - apply isValid_length.
  - intros other Heq. now rewrite !isValid_length, Heq.
Qed.

(** C6.  On a string that [JSON.parse] rejects, [validate] answers
    [isValid = false] with the single error at path ["root"], no warnings and
    no fixable errors: nothing else has been checked. *)
Theorem validate_unparseable (text : string) :
  JSON_parse text = None ->
  validate (JStr text) = mkValidationResult false [root_error] [] [].
Proof.
  intros Hparse. unfold validate, bind, lift, parse. rewrite Hparse. reflexivity.
Qed.

(** ** Steps that return, and what steps leave behind *)

Lemma returns_ret {A} (a : A) : returns (ret (St := Validator) a).
Proof. intros this. now exists a. Qed.

Lemma returns_lift_Ok {A} (a : A) : returns (lift (St := Validator) (Ok a)).
Proof. intros this. now exists a. Qed.

Lemma returns_bind {A B} (c : V A) (k : A -> V B) :
  returns c -> (forall a, returns (k a)) -> returns (bind c k).
Proof.
  intros Hc Hk this. unfold bind. destruct (Hc this) as [a Ha].
  destruct (c this) as [this1 r]. simpl in Ha. subst r. apply Hk.
Qed.

Lemma returns_addError (p m : string) (sev : Severity) : returns (addError p m sev).
Proof. intros this. exists tt. now destruct sev. Qed.

Lemma returns_addWarning (p m : string) (sev : Severity) :
  returns (addWarning p m sev).
Proof. intros this. now exists tt. Qed.

Lemma returns_when (c : bool) (act : V unit) :
  (c = true -> returns act) -> returns (when c act).
Proof. destruct c; intros H; [now apply H | apply returns_ret]. Qed.

Lemma returns_forEach_from {A} (f : A -> nat -> V unit) (l : list A) :
  (forall x i, returns (f x i)) -> forall i, returns (forEach_from i l f).
Proof.
  intros Hf. induction l as [|x l IH]; intros i; simpl.
  - apply returns_ret.
  - apply returns_bind; [apply Hf | intros _; apply IH].
Qed.

Lemma kept_has_error (e : ValidationError) : kept (has_error e).
Proof. intros a b. apply extends_In_error. Qed.

Lemma kept_has_warning (w : ValidationError) : kept (has_warning w).
Proof. intros a b. apply extends_In_warning. Qed.

Lemma leaves_on_return {A} (c : V A) (Q : Validator -> Prop) :
  leaves c Q -> on_return c Q.
Proof. intros H this this' a E. specialize (H this). now rewrite E in H. Qed.

Lemma leaves_bind_first {A B} (c : V A) (k : A -> V B) (Q : Validator -> Prop) :
  kept Q -> leaves c Q -> (forall a, accumulates (k a)) -> leaves (bind c k) Q.
Proof.
  intros HQ Hc Hk this. unfold bind. specialize (Hc this).
  destruct (c this) as [this1 [a|e]]; simpl in *; [|exact Hc].
  eapply HQ; [apply Hk | exact Hc].
Qed.

Lemma leaves_bind_next {A B} (c : V A) (k : A -> V B) (Q : Validator -> Prop) :
  returns c -> (forall a, leaves (k a) Q) -> leaves (bind c k) Q.
Proof.
  intros Hc Hk this. unfold bind. destruct (Hc this) as [a Ha].
  destruct (c this) as [this1 r]. simpl in Ha. subst r. apply Hk.
Qed.

Lemma leaves_lift_Ok {A B} (v : A) (k : A -> V B) (Q : Validator -> Prop) :
  leaves (k v) Q -> leaves (bind (lift (Ok v)) k) Q.
Proof. intros H this. apply H. Qed.

Lemma leaves_addError (p m : string) :
  leaves (addError p m SevError) (has_error (mkValidationError p m SevError)).
Proof. intros this. simpl. apply in_or_app. right. now left. Qed.

Lemma leaves_addWarning (p m : string) (sev : Severity) :
  leaves (addWarning p m sev) (has_warning (mkValidationError p m sev)).
Proof. intros this. simpl. apply in_or_app. right. now left. Qed.

Lemma on_return_bind_first {A B} (c : V A) (k : A -> V B) (Q : Validator -> Prop) :
  kept Q -> on_return c Q -> (forall a, accumulates (k a)) -> on_return (bind c k) Q.
Proof.
  intros HQ Hc Hk this this' b. unfold bind.
  destruct (c this) as [this1 [a|e]] eqn:E; [|discriminate].
  intros Ek. eapply HQ; [|eapply Hc; exact E].
  specialize (Hk a this1). now rewrite Ek in Hk.
Qed.

Lemma on_return_bind_next {A B} (c : V A) (k : A -> V B) (Q : Validator -> Prop) :
  (forall a, on_return (k a) Q) -> on_return (bind c k) Q.
Proof.
  intros Hk this this' b. unfold bind.
  destruct (c this) as [this1 [a|e]]; [|discriminate]. apply Hk.
Qed.

Lemma on_return_lift_Ok {A B} (v : A) (k : A -> V B) (Q : Validator -> Prop) :
  on_return (k v) Q -> on_return (bind (lift (Ok v)) k) Q.
Proof. intros H this. apply H. Qed.

(** A loop that returns has run its body on every element. *)
Lemma on_return_forEach_from {A} (f : A -> nat -> V unit) (Q : Validator -> Prop)
      (l : list A) (j : nat) (x : A) :
  kept Q -> (forall y i, accumulates (f y i)) ->
  nth_error l j = Some x ->
  forall i, on_return (f x (i + j)) Q -> on_return (forEach_from i l f) Q.
Proof.
  intros HQ Hf. revert j. induction l as [|y l IH]; intros j Hj i Hx.
  - destruct j; discriminate.
  - destruct j as [|j]; simpl in *.
    + injection Hj as ->. rewrite Nat.add_0_r in Hx.
      apply on_return_bind_first; auto.
      intros _. now apply accumulates_forEach_from.
    + apply on_return_bind_next. intros _. apply (IH j Hj).
      now rewrite Nat.add_succ_comm.
Qed.

(** The required-string test never throws. *)
Lemma missing_text_total (v : JSValue) : exists b, missing_text v = Ok b.
Proof.
  unfold missing_text.
  destruct v as [ | |b|n|s|items|props|name arity]; simpl;
    try (eexists; reflexivity).
  - destruct b; simpl; eexists; reflexivity.
  - destruct (negb _); simpl; eexists; reflexivity.
  - destruct (s =? ""); simpl; eexists; reflexivity.
Qed.

Lemma missing_text_blank (v : JSValue) : blank_label v -> missing_text v = Ok true.
Proof.
  unfold missing_text. intros [Hf|(s & -> & Hs)]; [now rewrite Hf|].
  simpl. destruct (s =? ""); simpl; [reflexivity|].
  now rewrite Hs.
Qed.

(** ** Blank labels on section fields *)

Ltac solve_returns :=
  repeat first
    [ apply returns_ret | apply returns_lift_Ok | apply returns_addError
    | apply returns_addWarning
    | apply returns_when; intros ?
    | apply returns_bind; [|intros ?]
    | match goal with |- returns (if ?c then _ else _) => destruct c end ].

(** One step of a run whose outcome is known: a read that succeeds, or a
    step that returns and is of no further interest. *)
Ltac leaves_step :=
  cbv beta;
  first [ apply leaves_lift_Ok
        | apply leaves_bind_next; [solve [solve_returns] | intros ?] ].

Lemma blank_test (v : JSValue) :
  blank_label v ->
  or_else (negb (truthy v)) (s <~ call_trim v ;; Ok (s =? "")) = Ok true.
Proof.
  intros [Hf|(s & -> & Hs)]; [now rewrite Hf|].
  simpl. destruct (s =? ""); simpl; [reflexivity|]. now rewrite Hs.
Qed.

Lemma validateField_leaves_label_error (props : Props) (path : string) :
  blank_label (lookup props "label") ->
  leaves (validateField (JObj props) path) (has_error (label_error path)).
Proof.
  intros Hb. unfold validateField.
  cbn [truthy typeof JSType_eqb negb orb get].
  leaves_step. destruct (missing_text_total (lookup props "id")) as [b ->].
  do 5 leaves_step. cbv beta.
  rewrite (missing_text_blank Hb). leaves_step. cbv beta.
  apply leaves_bind_first.
  - apply kept_has_error.
  - apply leaves_addError.
  - pose proof accumulates_validateFieldTypeSpecific. accum.
Qed.

Lemma validateField_leaves_label_warning (props : Props) (path ty : string) :
  lookup props "type" = JStr ty -> ty = "section" \/ ty = "statement" ->
  blank_label (lookup props "label") ->
  leaves (validateField (JObj props) path) (has_warning (label_warning path)).
Proof.
  intros Hty Hsec Hb. unfold validateField.
  cbn [truthy typeof JSType_eqb negb orb get].
  leaves_step. destruct (missing_text_total (lookup props "id")) as [b ->].
  do 5 leaves_step. cbv beta.
  rewrite (missing_text_blank Hb).
  do 10 leaves_step. cbv beta.
  unfold validateFieldTypeSpecific. cbn [get].
  leaves_step. rewrite Hty.
  assert (Hopt : list_includes optionFields (JStr ty) = false)
    by (destruct Hsec; subst ty; reflexivity).
  assert (Hnum : is_str (JStr ty) "number" || is_str (JStr ty) "slider" = false)
    by (destruct Hsec; subst ty; reflexivity).
  assert (Hsect : is_str (JStr ty) "section" || is_str (JStr ty) "statement" = true)
    by (destruct Hsec; subst ty; reflexivity).
  cbv beta. rewrite Hopt, Hnum, Hsect. cbn [when and_then].
  do 3 leaves_step.
  rewrite (blank_test Hb). leaves_step. cbv beta.
  apply leaves_bind_first.
  - apply kept_has_warning.
  - apply leaves_addWarning.
  - pose proof accumulates_validateFieldValidation. accum.
Qed.

(** A form that returns from validation has every field's findings. *)
Lemma validateFormSchema_on_return (form : Props) (l : list JSValue) (i : nat)
      (field : JSValue) (Q : Validator -> Prop) :
  kept Q ->
  lookup form "fields" = JArr l -> nth_error l i = Some field ->
  leaves (validateField field ("fields[" ++ index_to_string i ++ "]")) Q ->
  on_return (validateFormSchema (JObj form)) Q.
Proof.
  intros HQ Hfields Hi Hfield. unfold validateFormSchema. cbn [get].
  apply on_return_lift_Ok. cbv beta.
  do 2 (apply on_return_bind_next; intros ?).
  apply on_return_lift_Ok. cbv beta.
  apply on_return_bind_next; intros ?.
  apply on_return_lift_Ok. cbv beta. rewrite Hfields.
  apply on_return_bind_next; intros ?.
  apply on_return_bind_first; [exact HQ | |].
  - unfold forEach.
    eapply on_return_forEach_from with (j := i) (x := field); eauto.
    + intros y k. apply accumulates_validateField.
    + now apply leaves_on_return.
  - pose proof accumulates_validateSettings. accum.
Qed.

Lemma validate_has_error (jsonData : JSValue) (e : ValidationError) :
  typeof jsonData <> TString ->
  on_return (validateFormSchema jsonData) (has_error e) ->
  isValid (validate jsonData) = false.
Proof.
  intros Hty Hret. unfold validate.
  assert (Hbody :
    forall c : V unit, on_return c (has_error e) ->
      isValid (match c (mkValidator [] []) with
               | (this, Ok _) =>
                   mkValidationResult (List.length (this_errors this) =? 0)%nat
                     (this_errors this) (this_warnings this)
                     (filter isFixableError (this_errors this))
               | (this, Throw _) =>
                   let this := fst (addError "root"
                     "Invalid JSON format. Please check your JSON syntax." SevError this) in
                   mkValidationResult false (this_errors this) (this_warnings this) []
               end) = false).
  { intros c Hc. destruct (c (mkValidator [] [])) as [this [u|err]] eqn:E; [|reflexivity].
    apply Hc in E. unfold has_error in E. cbn.
    destruct (this_errors this); [contradiction | reflexivity]. }
  apply Hbody. destruct jsonData; try (apply on_return_lift_Ok; exact Hret).
  now contradiction Hty.
Qed.

(** C3.  A field of type ['section'] or ['statement'] whose label is missing
    or blank gets the warning at its [label] path and, from the label test
    every field goes through, an error at the same path as well; a form that
    holds such a field is therefore never valid. *)
Theorem blank_section_label_is_an_error :
  (forall props path ty,
      lookup props "type" = JStr ty -> ty = "section" \/ ty = "statement" ->
      blank_label (lookup props "label") ->
      leaves (validateField (JObj props) path)
        (fun this => has_warning (label_warning path) this /\
                     has_error (label_error path) this)) /\
  (forall form l i props ty,
      lookup form "fields" = JArr l -> nth_error l i = Some (JObj props) ->
      lookup props "type" = JStr ty -> ty = "section" \/ ty = "statement" ->
      blank_label (lookup props "label") ->
      isValid (validate (JObj form)) = false) /\
  validate blank_section_form =
    mkValidationResult false
      [label_error "fields[0]"] [label_warning "fields[0]"] [].
Proof.
  split; [|split].
  - intros props path ty Hty Hsec Hb this. split.
    + now apply (@validateField_leaves_label_warning props path ty).
    + now apply validateField_leaves_label_error.
  - intros form l i props ty Hfields Hi Hty Hsec Hb.
    apply validate_has_error with
      (e := label_error ("fields[" ++ index_to_string i ++ "]")); [discriminate|].
    apply validateFormSchema_on_return with (l := l) (i := i) (field := JObj props);
      auto using kept_has_error.
    now apply validateField_leaves_label_error.
  - reflexivity.
Qed.

(** ** Settings and the empty form *)

Lemma returns_emails (path : string) (emails : JSValue) :
  returns (if truthy emails && negb (Array_isArray emails)
           then addError (path ++ ".notifications.emails") "emails must be an array" SevError
           else when (truthy emails) (forEach_emails path emails)).
Proof.
  destruct emails; cbn [Array_isArray negb];
    rewrite ?andb_true_r, ?andb_false_r;
    try (destruct (truthy _); cbn [when];
         [apply returns_addError | apply returns_ret]).
  apply returns_when. intros _. unfold forEach_emails, forEach.
  apply returns_forEach_from. intros x i. unfold validateEmail. solve_returns.
Qed.

(** Settings validation never throws. *)
Lemma returns_validateSettings (settings : JSValue) (path : string) :
  returns (validateSettings settings path).
Proof.
  unfold validateSettings.
  destruct settings; cbn [typeof JSType_eqb negb orb is_null get];
    try apply returns_addError;
    (do 4 (apply returns_bind; [solve [solve_returns] | intros ?]);
     apply returns_bind; [solve [solve_returns] |intros submission];
     apply returns_bind;
     [ apply returns_when; intros _;
       destruct submission; cbn [typeof JSType_eqb negb orb is_null get];
       solve [solve_returns]
     | intros ? ];
     apply returns_bind; [solve [solve_returns] | intros notifications];
     apply returns_when; intros _;
     destruct notifications; cbn [typeof JSType_eqb negb orb is_null get];
     try apply returns_addError;
     (do 3 (apply returns_bind; [solve [solve_returns] | intros ?]);
      apply returns_emails)).
Qed.

Lemma is_zero_length_nil : is_zero (get_length (JArr [])) = true.
Proof. vm_compute. reflexivity. Qed.

(** What validating [{title:"", fields:[], settings}] comes to. *)
Lemma validateFormSchema_empty (settings : JSValue) (this : Validator) :
  validateFormSchema
    (JObj [("title", JStr ""); ("fields", JArr []); ("settings", settings)]) this =
  when (truthy settings) (validateSettings settings "settings")
    (mkValidator ((this_errors this ++ [title_error]) ++ [no_fields_error])
                 (this_warnings this)).
Proof.
  unfold validateFormSchema, bind, lift.
  cbn -[validateSettings is_zero get_length when truthy].
  rewrite is_zero_length_nil. reflexivity.
Qed.

(** C8.  [validate] on [{title:"", fields:[]}] answers [isValid = false]
    with exactly the error at ['title'] and the error at ['fields'], both
    from the one call; and when that form carries a [settings] member too,
    its result still starts with those two errors and goes on with whatever
    settings validation finds from there. *)
Theorem empty_form_title_and_fields :
  validate empty_form =
    mkValidationResult false [title_error; no_fields_error] [] [] /\
  forall settings,
    let r := validate (JObj [("title", JStr ""); ("fields", JArr []);
                             ("settings", settings)]) in
    isValid r = false /\
    (exists more, errors r = title_error :: no_fields_error :: more) /\
    errors r =
      this_errors
        (fst (when (truthy settings) (validateSettings settings "settings")
                (mkValidator [title_error; no_fields_error] []))).
Proof.
  split; [reflexivity|].
  intros settings.
  set (start := mkValidator [title_error; no_fields_error] []).
  set (c := when (truthy settings) (validateSettings settings "settings")).
  assert (Hret : returns c)
    by (apply returns_when; intros _; apply returns_validateSettings).
  assert (Hacc : accumulates c)
    by (apply accumulates_when, accumulates_validateSettings).
  destruct (Hret start) as [u Hu]. destruct (Hacc start) as [[more Hmore] _].
  assert (Hrun : validate (JObj [("title", JStr ""); ("fields", JArr []);
                                 ("settings", settings)]) =
                 mkValidationResult
                   (List.length (this_errors (fst (c start))) =? 0)%nat
                   (this_errors (fst (c start)))
                   (this_warnings (fst (c start)))
                   (filter isFixableError (this_errors (fst (c start))))).
  { unfold validate, bind at 1, lift at 1.
    rewrite validateFormSchema_empty. fold c. change (mkValidator _ _) with start.
    destruct (c start) as [this r]. simpl in Hu. subst r. reflexivity. }
  cbv zeta. rewrite Hrun. cbn [isValid errors]. rewrite Hmore. cbn. eauto.
Qed.

(** ** [transformJsonToFormSchema] *)

Lemma invalid_has_errors (jsonData : JSValue) :
  isValid (validate jsonData) = false -> errors (validate jsonData) <> [].
Proof.
  intros Hinv Hnil. rewrite isValid_length, Hnil in Hinv. discriminate.
Qed.

(** C1.  [transformJsonToFormSchema] answers every input with a result
    record: a validation failure gives the rendered validation errors, an
    exception thrown while transforming gives the one message made from it,
    and otherwise the schema is there with no error.  In every case
    [success] is true exactly when [formSchema] is present and the list of
    errors is empty. *)
Theorem transformJsonToFormSchema_result (jsonData : JSValue) (t : World) :
  let r := snd (transformJsonToFormSchema jsonData t) in
  let v := validateJsonSchema jsonData in
  (success r = true <-> formSchema r <> None /\ import_errors r = []) /\
  (success r = false -> formSchema r = None /\ import_errors r <> []) /\
  (isValid v = false ->
   r = mkImportTransformResult false None (map render (errors v))
         (map render (warnings v)) (Some v)) /\
  (forall t' error,
      isValid v = true -> createFormSchema jsonData t = (t', Throw error) ->
      r = mkImportTransformResult false None
            ["Failed to transform JSON: " ++ error_message error] [] None) /\
  (forall t' schema,
      isValid v = true -> createFormSchema jsonData t = (t', Ok schema) ->
      r = mkImportTransformResult true (Some schema) []
            (map render (warnings v)) (Some v)).
Proof.
  cbv zeta. unfold transformJsonToFormSchema, validateJsonSchema.
  destruct (isValid (validate jsonData)) eqn:Hv; cbn [negb].
  - destruct (createFormSchema jsonData t) as [t1 [schema|error]]; cbn;
      repeat split; intros; try discriminate; try congruence;
      repeat match goal with
             | H : _ /\ _ |- _ => destruct H
             | H : (_, _) = (_, _) |- _ => inversion H; subst; clear H
             end;
      try congruence; reflexivity.
  - cbn. pose proof (invalid_has_errors _ Hv) as Hne.
    assert (Hmap : map render (errors (validate jsonData)) <> [])
      by (destruct (errors (validate jsonData)); [congruence | discriminate]).
    repeat split; intros; try discriminate; try congruence;
      repeat match goal with H : _ /\ _ |- _ => destruct H end;
      congruence.
Qed.

(** Reading a file adds two ways to fail, and each is a result as well. *)
Lemma importFromFile_result (file : option string) (t : World) :
  let r := snd (importFromFile file t) in
  success r = true <-> formSchema r <> None /\ import_errors r = [].
Proof.
  cbv zeta. unfold importFromFile.
  destruct (text <~ readFileAsText file ;; parse text) as [jsonData|error].
  - unfold transformJsonToFormSchema, validateJsonSchema.
    destruct (isValid (validate jsonData)) eqn:Hv; cbn [negb].
    + destruct (createFormSchema jsonData t) as [t1 [schema|error]]; cbn;
        split; intros H; try discriminate; try (destruct H; congruence).
      split; [discriminate | reflexivity].
    + cbn. split; intros H; [discriminate | destruct H; congruence].
  - cbn. split; intros H; [discriminate | destruct H; congruence].
Qed.

(** ** The assembled schema *)

Lemma mapM_Forall2 {St A B} (f : A -> M St B) (l : list A) :
  forall s s' ys,
    mapM f l s = (s', Ok ys) ->
    Forall2 (fun x y => exists s0 s1, f x s0 = (s1, Ok y)) l ys.
Proof.
  induction l as [|x l IH]; intros s s' ys; simpl.
  - unfold ret. intros H. injection H as _ <-. constructor.
  - unfold bind. destruct (f x s) as [s1 [y|e]] eqn:Ex; [|discriminate].
    destruct (mapM f l s1) as [s2 [ys'|e]] eqn:El; [|discriminate].
    unfold ret. intros H. injection H as _ <-.
    constructor; [eauto | eapply IH; eauto].
Qed.

Lemma createFormSchema_Ok (importedSchema : JSValue) (t t' : World) (schema : FormSchema) :
  createFormSchema importedSchema t = (t', Ok schema) ->
  exists l transformed t1 blockId,
    get_opt importedSchema "fields" = JArr l /\
    mapM transformField l t = (t1, Ok transformed) /\
    blocks schema = [mkFormBlock blockId "Main" "" transformed mainBlockSettings] /\
    fields schema = transformed /\
    logic schema =
      logic (createDefaultFormSchema (get_opt importedSchema "title")
               (js_or (get_opt importedSchema "description") (JStr "")) false).
Proof.
  unfold createFormSchema, bind, lift, ret.
  destruct (get importedSchema "title") eqn:E0; [|discriminate].
  apply get_Ok in E0. destruct E0 as [-> Hall]. rewrite !Hall.
  destruct (get_opt importedSchema "fields") as [ | |b|n|s|l|props|name arity] eqn:Ef;
    cbn [map_fields lift]; try discriminate.
  destruct (mapM transformField l t) as [t1 [transformed|e]] eqn:El; [|discriminate].
  cbn [generateBlockId].
  destruct (transformSettings _ _) as [st|e]; [|discriminate].
  intros H. injection H as _ <-. cbn.
  exists l, transformed, t1. eexists. repeat split. exact El.
Qed.

(** Whatever schema comes out of an import has the one block. *)
Lemma produced_schema_shape (jsonData : JSValue) (t : World) (schema : FormSchema) :
  formSchema (snd (transformJsonToFormSchema jsonData t)) = Some schema ->
  exists l block,
    get_opt jsonData "fields" = JArr l /\
    blocks schema = [block] /\
    block_settings block =
      [("showStepNumber", JBool false); ("layout", JStr "single");
       ("spacing", JStr "normal")] /\
    Forall2 (fun imported field =>
               exists t0 t1, transformField imported t0 = (t1, Ok field))
            l (block_fields block) /\
    fields schema = block_fields block /\
    logic schema =
      logic (createDefaultFormSchema (get_opt jsonData "title")
               (js_or (get_opt jsonData "description") (JStr "")) false).
Proof.
  unfold transformJsonToFormSchema.
  destruct (negb _); [discriminate|].
  destruct (createFormSchema jsonData t) as [t1 [produced|e]] eqn:E; [|discriminate].
  cbn. intros H. injection H as ->.
  apply createFormSchema_Ok in E.
  destruct E as (l & transformed & t2 & blockId & Hf & Hmap & Hb & Hfs & Hl).
  exists l. eexists. rewrite Hb, Hfs, Hl. cbn.
  repeat split; try reflexivity; [exact Hf|].
  eapply mapM_Forall2. exact Hmap.
Qed.

(** ** Valid forms are transformed *)

Lemma fields_must_be_array (data : JSValue) :
  data <> JUndefined -> data <> JNull ->
  (forall l, get_opt data "fields" <> JArr l) ->
  on_return (validateFormSchema data) (has_error fields_not_array_error).
Proof.
  intros H1 H2 Hf. unfold validateFormSchema.
  rewrite !(get_not_nullish _ H1 H2).
  apply on_return_lift_Ok. cbv beta.
  do 2 (apply on_return_bind_next; intros ?).
  apply on_return_lift_Ok. cbv beta.
  apply on_return_bind_next; intros ?.
  apply on_return_lift_Ok. cbv beta.
  destruct (get_opt data "fields") as [ | |b|n|s|items|props|name arity] eqn:E;
    try (apply leaves_on_return, leaves_addError).
  exfalso. now apply (Hf items).
Qed.

Lemma validateField_not_object (field : JSValue) (path : string) :
  truthy field && JSType_eqb (typeof field) TObject = false ->
  leaves (validateField field path) (has_error (not_object_error path)).
Proof.
  intros H. unfold validateField.
  replace (negb (truthy field) || negb (JSType_eqb (typeof field) TObject))
    with true by (rewrite <- negb_andb, H; reflexivity).
  apply leaves_addError.
Qed.

(** What a valid form, given as a value, is made of. *)
Lemma valid_form_inv (jsonData : JSValue) :
  typeof jsonData <> TString -> isValid (validate jsonData) = true ->
  exists form l,
    jsonData = JObj form /\ lookup form "fields" = JArr l /\
    Forall (fun field => truthy field = true /\ typeof field = TObject) l.
Proof.
  intros Hty Hv.
  assert (Hnot : forall e, on_return (validateFormSchema jsonData) (has_error e) -> False).
  { intros e He. rewrite (validate_has_error Hty He) in Hv. discriminate. }
  assert (Hfields : exists l, get_opt jsonData "fields" = JArr l).
  { destruct (get_opt jsonData "fields") eqn:E; eauto; exfalso;
      (destruct jsonData; try discriminate Hv; try (now contradiction Hty);
       apply (Hnot fields_not_array_error), fields_must_be_array;
       try discriminate; intros l; try rewrite E; simpl in *; congruence). }
  destruct Hfields as [l Hl].
  destruct jsonData; try discriminate Hl. simpl in Hl.
  exists props, l. repeat split; auto.
  apply Forall_forall. intros field Hin.
  destruct (In_nth_error _ _ Hin) as [i Hi].
  destruct (truthy field && JSType_eqb (typeof field) TObject) eqn:E.
  - apply andb_prop in E. destruct E as [E1 E2]. split; [exact E1|].
    destruct (typeof field); simpl in E2; congruence.
  - exfalso. eapply Hnot.
    eapply validateFormSchema_on_return; eauto using kept_has_error.
    now apply validateField_not_object.
Qed.

Lemma mapM_returns {St A B} (f : A -> M St B) (l : list A) :
  Forall (fun x => forall s, exists s' y, f x s = (s', Ok y)) l ->
  forall s, exists s' ys, mapM f l s = (s', Ok ys).
Proof.
  induction 1 as [|x l Hx _ IH]; intros s; simpl; [unfold ret; eauto|].
  unfold bind. destruct (Hx s) as (s1 & y & ->).
  destruct (IH s1) as (s2 & ys & ->). unfold ret. eauto.
Qed.

Lemma transformSettings_returns (importedSettings : JSValue) (baseSettings : Props) :
  truthy importedSettings = true ->
  exists settings, transformSettings importedSettings baseSettings = Ok settings.
Proof.
  intros Ht. unfold transformSettings.
  rewrite !(fun k => get_truthy importedSettings k Ht). cbn [bindR].
  destruct (truthy (get_opt importedSettings "submission")) eqn:Es;
    [rewrite !(fun k => get_truthy _ k Es)|]; cbn [bindR];
    (destruct (truthy (get_opt importedSettings "notifications")) eqn:En;
     [rewrite !(fun k => get_truthy _ k En)|]; cbn [bindR]; eauto).
Qed.

(** Every form that [validate] accepts as a value, and whose fields carry
    options the transformer can map, is given a schema. *)
Lemma valid_form_is_transformed (jsonData : JSValue) (t : World) :
  typeof jsonData <> TString ->
  isValid (validate jsonData) = true ->
  (forall l field, get_opt jsonData "fields" = JArr l -> In field l ->
                   options_mappable (get_opt field "options") = true) ->
  exists schema,
    formSchema (snd (transformJsonToFormSchema jsonData t)) = Some schema.
Proof.
  intros Hty Hv Hopt.
  destruct (valid_form_inv jsonData Hty Hv) as (form & l & -> & Hl & Hall).
  unfold transformJsonToFormSchema, validateJsonSchema. rewrite Hv. cbn [negb].
  assert (Hrun : exists t' schema, createFormSchema (JObj form) t = (t', Ok schema)).
  { unfold createFormSchema, bind, lift, ret. cbn [get]. rewrite Hl.
    cbn [map_fields].
    destruct (@mapM_returns _ _ _ transformField l) with (s := t) as (t1 & fs & ->).
    - apply Forall_forall. intros field Hin s.
      rewrite Forall_forall in Hall. destruct (Hall field Hin) as [Htr _].
      apply transformField_returns;
        [intros ->; discriminate | intros ->; discriminate |].
      apply (Hopt l field); [exact Hl | exact Hin].
    - cbn [generateBlockId].
      destruct (@transformSettings_returns
                  (js_or (lookup form "settings") (JObj []))
                  (settings (createDefaultFormSchema (lookup form "title")
                               (js_or (lookup form "description") (JStr "")) false)))
        as [st ->]; [|eauto].
      unfold js_or. destruct (truthy (lookup form "settings")) eqn:E; [exact E | reflexivity]. }
  destruct Hrun as (t' & schema & ->). cbn. eauto.
Qed.

(** A form handed over as JSON text is validated after parsing, but the
    transformer is then given the text itself, which has no [fields]: no
    schema comes out of it. *)
Lemma text_is_not_transformed (text : string) (t : World) :
  formSchema (snd (transformJsonToFormSchema (JStr text) t)) = None.
Proof.
  unfold transformJsonToFormSchema.
  destruct (negb _); reflexivity.
Qed.

(** C9.  For every valid imported schema (a value that [validate] accepts,
    with options the transformer can map) a schema is produced, and it has
    exactly one block; the block's settings are [{showStepNumber: false,
    layout: 'single', spacing: 'normal'}] and its fields are the transformed
    imported fields in import order; the schema's own [fields] list is that
    same sequence, and [logic] is the default schema's. *)
Theorem valid_form_schema_shape (jsonData : JSValue) (t : World) :
  typeof jsonData <> TString ->
  isValid (validate jsonData) = true ->
  (forall l field, get_opt jsonData "fields" = JArr l -> In field l ->
                   options_mappable (get_opt field "options") = true) ->
  exists schema l block,
    formSchema (snd (transformJsonToFormSchema jsonData t)) = Some schema /\
    get_opt jsonData "fields" = JArr l /\
    blocks schema = [block] /\
    block_settings block =
      [("showStepNumber", JBool false); ("layout", JStr "single");
       ("spacing", JStr "normal")] /\
    Forall2 (fun imported field =>
               exists t0 t1, transformField imported t0 = (t1, Ok field))
            l (block_fields block) /\
    fields schema = block_fields block /\
    logic schema =
      logic (createDefaultFormSchema (get_opt jsonData "title")
               (js_or (get_opt jsonData "description") (JStr "")) false).
Proof.
  intros Hty Hv Hopt.
  destruct (@valid_form_is_transformed jsonData t Hty Hv Hopt) as [schema Hs].
  destruct (@produced_schema_shape jsonData t schema Hs) as (l & block & H).
  exists schema, l, block. split; [exact Hs | exact H].
Qed.

(** * Further properties *)

(** ** Steps related by a preorder *)

Section Steps.

Context {R : Validator -> Validator -> Prop} {HR : PreOrder R}.

Lemma steps_ret {A} (a : A) : steps R (ret a).
Proof. intros this. reflexivity. Qed.

Lemma steps_lift {A} (r : Result A) : steps R (lift r).
Proof. intros this. reflexivity. Qed.

Lemma steps_bind {A B} (c : V A) (k : A -> V B) :
  steps R c -> (forall a, steps R (k a)) -> steps R (bind c k).
Proof.
  intros Hc Hk this. unfold bind. specialize (Hc this).
  destruct (c this) as [this1 [a|e]]; simpl in *; [|exact Hc].
  etransitivity; [exact Hc | apply Hk].
Qed.

Lemma steps_lift_Ok {A B} (v : A) (k : A -> V B) :
  steps R (k v) -> steps R (bind (lift (Ok v)) k).
Proof. intros H this. apply H. Qed.

Lemma steps_bind_lift {A B} (r : Result A) (k : A -> V B) :
  (forall a, r = Ok a -> steps R (k a)) -> steps R (bind (lift r) k).
Proof.
  intros Hk. destruct r as [a|e].
  - apply steps_lift_Ok. now apply Hk.
  - intros this. reflexivity.
Qed.

Lemma steps_when (c : bool) (act : V unit) :
  (c = true -> steps R act) -> steps R (when c act).
Proof. intros H. destruct c; [now apply H | apply steps_ret]. Qed.

Lemma steps_forEach_from {A} (f : A -> nat -> V unit) (l : list A) :
  (forall x i, steps R (f x i)) -> forall i, steps R (forEach_from i l f).
Proof.
  intros Hf. induction l as [|x l IH]; intros i; simpl.
  - apply steps_ret.
  - apply steps_bind; [apply Hf | intros _; apply IH].
Qed.

Lemma steps_forEach {A} (f : A -> nat -> V unit) (l : list A) :
  (forall x i, steps R (f x i)) -> steps R (forEach l f).
Proof. intros Hf. now apply steps_forEach_from. Qed.

End Steps.

#[local] Instance adds_PreOrder (Pe Pw : ValidationError -> Prop) : PreOrder (adds Pe Pw).
Proof.
  split.
  - intros a. split; exists []; now rewrite app_nil_r.
  - intros a b c [(e1 & H1 & F1) (w1 & H2 & F2)] [(e2 & H3 & F3) (w2 & H4 & F4)]. split.
    + exists (e1 ++ e2)%list. rewrite H3, H1, app_assoc. split; [reflexivity|].
      apply Forall_app. now split.
    + exists (w1 ++ w2)%list. rewrite H4, H2, app_assoc. split; [reflexivity|].
      apply Forall_app. now split.
Qed.

#[local] Instance keeps_PreOrder (I : Validator -> Prop) : PreOrder (keeps I).
Proof. split; [intros a H; exact H | intros a b c H1 H2 H; auto]. Qed.

Lemma adds_weaken (Pe Pw Qe Qw : ValidationError -> Prop) (a b : Validator) :
  (forall e, Pe e -> Qe e) -> (forall e, Pw e -> Qw e) ->
  adds Pe Pw a b -> adds Qe Qw a b.
Proof.
  intros He Hw [(e & H1 & F1) (w & H2 & F2)]. split.
  - exists e. split; [exact H1|]. eapply Forall_impl; [exact He | exact F1].
  - exists w. split; [exact H2|]. eapply Forall_impl; [exact Hw | exact F2].
Qed.

Lemma steps_addError_adds (Pe Pw : ValidationError -> Prop) (p m : string) :
  Pe (mkValidationError p m SevError) -> steps (adds Pe Pw) (addError p m SevError).
Proof.
  intros H this. simpl. split; simpl.
  - eexists. split; [reflexivity|]. now constructor.
  - exists []. now rewrite app_nil_r.
Qed.

Lemma steps_addWarning_adds (Pe Pw : ValidationError -> Prop) (p m : string) (sev : Severity) :
  Pw (mkValidationError p m sev) -> steps (adds Pe Pw) (addWarning p m sev).
Proof.
  intros H this. simpl. split; simpl.
  - exists []. now rewrite app_nil_r.
  - eexists. split; [reflexivity|]. now constructor.
Qed.

Lemma prefix_refl (a : string) : prefix a a = true.
Proof. induction a as [|c a IH]; simpl; [reflexivity|]. now destruct (ascii_dec c c). Qed.

Lemma prefix_app_r (a b c : string) : prefix a b = true -> prefix a (b ++ c) = true.
Proof.
  revert b. induction a as [|x a IH]; intros b.
  - intros _. now destruct (b ++ c).
  - destruct b as [|y b]; simpl; [discriminate|].
    destruct (ascii_dec x y); [apply IH | discriminate].
Qed.

Lemma error_under_intro (base p m : string) :
  prefix base p = true -> error_under base (mkValidationError p m SevError).
Proof. intros H. split; [exact H | reflexivity]. Qed.

Lemma warning_under_intro (base p m : string) :
  prefix base p = true -> warning_under base (mkValidationError p m SevWarning).
Proof. intros H. split; [exact H | reflexivity]. Qed.

Create HintDb walk.
#[local] Hint Resolve prefix_refl prefix_app_r error_under_intro warning_under_intro : walk.

(** Walks a validator body for a relation between the states before and
    after; [side] settles what a recorded diagnostic has to satisfy. *)
Ltac walk side :=
  repeat first
    [ progress intros
    | solve [eauto with walk]
    | apply steps_ret
    | apply steps_lift
    | apply steps_addError_adds; solve [side]
    | apply steps_addWarning_adds; solve [side]
    | match goal with
      | |- steps _ (bind (lift _) _) => apply steps_bind_lift
      end
    | apply steps_bind
    | apply steps_when
    | apply steps_forEach
    | match goal with
      | |- steps _ (if ?c then _ else _) => destruct c eqn:?
      | |- steps _ (match ?x with _ => _ end) => destruct x eqn:?
      end ].

Ltac addressed := eauto 6 with walk.

Lemma validateFieldValidation_adds (base : string) validation q :
  prefix base q = true ->
  steps (adds (error_under base) (warning_under base))
        (validateFieldValidation validation q).
Proof. intros Hq. unfold validateFieldValidation. walk addressed. Qed.

Lemma validateOption_adds (base : string) q option index :
  prefix base q = true ->
  steps (adds (error_under base) (warning_under base)) (validateOption q option index).
Proof. intros Hq. unfold validateOption. walk addressed. Qed.

Lemma validateFieldTypeSpecific_adds (base : string) field q :
  prefix base q = true ->
  steps (adds (error_under base) (warning_under base))
        (validateFieldTypeSpecific field q).
Proof.
  intros Hq. unfold validateFieldTypeSpecific.
  pose proof validateFieldValidation_adds. pose proof validateOption_adds.
  walk addressed.
Qed.

Lemma validateField_adds (base : string) field q :
  prefix base q = true ->
  steps (adds (error_under base) (warning_under base)) (validateField field q).
Proof.
  intros Hq. unfold validateField.
  pose proof validateFieldTypeSpecific_adds. walk addressed.
Qed.

Lemma validateSettings_adds (base : string) settings q :
  prefix base q = true ->
  steps (adds (error_under base) no_diagnostic) (validateSettings settings q).
Proof.
  intros Hq. unfold validateSettings, forEach_emails, validateEmail. walk addressed.
Qed.


Lemma steps_weaken {A} (R Q : Validator -> Validator -> Prop) (c : V A) :
  (forall a b, R a b -> Q a b) -> steps R c -> steps Q c.
Proof. intros H Hc this. apply H, Hc. Qed.

Lemma prefix_fields (s : string) : prefix "fields" ("fields[" ++ s) = true.
Proof. exact (prefix_app_r "fields" "fields" ("[" ++ s) eq_refl). Qed.

Lemma validateField_rooted field (index : nat) :
  steps (adds root_diagnostic field_warning)
        (validateField field ("fields[" ++ index_to_string index ++ "]")).
Proof.
  eapply steps_weaken; [|apply (validateField_adds "fields"), prefix_fields].
  intros a b. apply adds_weaken.
  - intros e [H1 H2]. split; [|exact H2]. right. right. now left.
  - intros e H. exact H.
Qed.

Lemma validateSettings_rooted settings :
  steps (adds root_diagnostic field_warning) (validateSettings settings "settings").
Proof.
  eapply steps_weaken; [|apply (validateSettings_adds "settings"), prefix_refl].
  intros a b. apply adds_weaken.
  - intros e [H1 H2]. split; [|exact H2]. right. right. now right.
  - intros e [].
Qed.

Lemma validateFormSchema_rooted data :
  steps (adds root_diagnostic field_warning) (validateFormSchema data).
Proof.
  unfold validateFormSchema.
  pose proof validateField_rooted. pose proof validateSettings_rooted.
  walk ltac:(split; [unfold rooted, under; cbn; auto | reflexivity]).
Qed.

(** What [validate] returns, read off the state its body ends in. *)
Lemma validate_by_steps (R : Validator -> Validator -> Prop) `{!PreOrder R}
      (jsonData : JSValue) :
  (forall data, steps R (validateFormSchema data)) ->
  exists this,
    R (mkValidator [] []) this /\
    warnings (validate jsonData) = this_warnings this /\
    ((errors (validate jsonData) = this_errors this /\
      isValid (validate jsonData) = (List.length (this_errors this) =? 0)%nat /\
      fixableErrors (validate jsonData) = filter isFixableError (this_errors this)) \/
     (errors (validate jsonData) = (this_errors this ++ [root_error])%list /\
      isValid (validate jsonData) = false /\
      fixableErrors (validate jsonData) = [])).
Proof.
  intros H. unfold validate.
  set (body := bind _ _).
  assert (Hb : steps R body).
  { apply steps_bind; [apply steps_lift | intros data; apply H]. }
  specialize (Hb (mkValidator [] [])).
  destruct (body (mkValidator [] [])) as [this [u|e]]; exists this; simpl in *;
    (split; [exact Hb|]); (split; [reflexivity|]); [left | right]; auto.
Qed.

(** X1. Every diagnostic is filed by its severity: whatever the input, the
    entries of [errors] all have severity error, the entries of [warnings]
    all have severity warning, and [fixableErrors] is a selection of
    [errors]. *)
Theorem diagnostics_filed_by_severity (jsonData : JSValue) :
  Forall is_error (errors (validate jsonData)) /\
  Forall is_warning (warnings (validate jsonData)) /\
  incl (fixableErrors (validate jsonData)) (errors (validate jsonData)).
Proof.
  destruct (validate_by_steps (R := adds root_diagnostic field_warning) jsonData
              validateFormSchema_rooted)
    as (this & [(e & He & Fe) (w & Hw & Fw)] & -> & Hcases).
  simpl in He, Hw.
  assert (Ferr : Forall is_error (this_errors this)).
  { rewrite He. eapply Forall_impl; [|exact Fe]. now intros x [_ Hx]. }
  assert (Fwarn : Forall is_warning (this_warnings this)).
  { rewrite Hw. eapply Forall_impl; [|exact Fw]. now intros x [_ Hx]. }
  destruct Hcases as [(-> & _ & ->)|(-> & _ & ->)].
  - repeat split; [exact Ferr | exact Fwarn |].
    intros x Hx. apply filter_In in Hx. tauto.
  - repeat split; [|exact Fwarn | intros x []].
    apply Forall_app. split; [exact Ferr|]. now repeat constructor.
Qed.

(** X2. Every diagnostic is addressed where it belongs: all that
    [validateField field p] records lies at [p] or below it, and in the
    result of [validate] every error is addressed at the title, the
    description, the fields or the settings, or is the root error, while
    every warning lies under the fields. *)
Theorem diagnostics_addressed (jsonData : JSValue) :
  (forall field p this,
      adds (under p) (under p) this (fst (validateField field p this))) /\
  Forall (fun e => rooted e \/ e = root_error) (errors (validate jsonData)) /\
  Forall (under "fields") (warnings (validate jsonData)).
Proof.
  split.
  { intros field p this.
    eapply adds_weaken; [| |apply (validateField_adds p), prefix_refl];
      now intros e [H _]. }
  destruct (validate_by_steps (R := adds root_diagnostic field_warning) jsonData
              validateFormSchema_rooted)
    as (this & [(e & He & Fe) (w & Hw & Fw)] & -> & Hcases).
  simpl in He, Hw.
  assert (Ferr : Forall (fun e => rooted e \/ e = root_error) (this_errors this)).
  { rewrite He. eapply Forall_impl; [|exact Fe]. intros x [Hx _]. now left. }
  split.
  - destruct Hcases as [(-> & _)|(-> & _)]; [exact Ferr|].
    apply Forall_app. split; [exact Ferr|]. constructor; [now right | constructor].
  - rewrite Hw. eapply Forall_impl; [|exact Fw]. now intros x [Hx _].
Qed.


(** ** Warnings come with errors *)

Lemma blank_test_inv (v : JSValue) :
  or_else (negb (truthy v)) (s <~ call_trim v ;; Ok (s =? "")) = Ok true ->
  blank_label v.
Proof.
  destruct (truthy v) eqn:Ht; simpl; [|now left].
  destruct v as [ | |b|n|s|items|props|name arity]; simpl; try discriminate.
  intros H. right. exists s. split; [reflexivity|].
  apply String.eqb_eq. congruence.
Qed.

Lemma steps_addError_wrong (p m : string) :
  steps (keeps warned_is_wrong) (addError p m SevError).
Proof.
  intros this _. right. simpl. now destruct (this_errors this).
Qed.

Lemma steps_silent_keeps {A} (c : V A) :
  steps (adds any_diagnostic no_diagnostic) c -> steps (keeps warned_is_wrong) c.
Proof.
  intros H this [Hw|He]; destruct (H this) as [(e & He' & _) (w & Hw' & Fw)].
  - left. rewrite Hw', Hw. destruct w as [|x w]; [reflexivity|].
    inversion Fw as [|? ? []].
  - right. rewrite He'. now destruct (this_errors this).
Qed.

#[local] Hint Resolve steps_addError_wrong : walk.

Ltac silent := first [exact I | split; exact I].

Lemma validateFieldValidation_silent validation q :
  steps (adds any_diagnostic no_diagnostic) (validateFieldValidation validation q).
Proof. unfold validateFieldValidation. walk silent. Qed.

Lemma validateOption_silent q option index :
  steps (adds any_diagnostic no_diagnostic) (validateOption q option index).
Proof. unfold validateOption. walk silent. Qed.

Lemma validateSettings_silent settings q :
  steps (adds any_diagnostic no_diagnostic) (validateSettings settings q).
Proof.
  unfold validateSettings, forEach_emails, validateEmail. walk silent.
Qed.

Lemma steps_silent_adds {A} (Pw : ValidationError -> Prop) (c : V A) :
  steps (adds any_diagnostic no_diagnostic) c -> steps (adds any_diagnostic Pw) c.
Proof.
  apply steps_weaken. intros a b. apply adds_weaken; [auto | intros e []].
Qed.

(** The one warning of the validator is recorded for blank labels only. *)
Lemma validateFieldTypeSpecific_warns field q :
  steps (adds any_diagnostic (fun _ => blank_label (get_opt field "label")))
        (validateFieldTypeSpecific field q).
Proof.
  unfold validateFieldTypeSpecific.
  pose proof (fun v p => steps_silent_adds
                (fun _ => blank_label (get_opt field "label"))
                (validateFieldValidation_silent v p)).
  pose proof (fun p o i => steps_silent_adds
                (fun _ => blank_label (get_opt field "label"))
                (validateOption_silent p o i)).
  walk ltac:(first
    [ exact I
    | cbv beta; subst;
      match goal with
      | Hl : get field "label" = Ok ?l, Hb : and_then ?c _ = Ok true |- _ =>
          apply get_Ok in Hl; destruct Hl as [-> _];
          destruct c; [apply blank_test_inv; exact Hb | discriminate]
      end ]).
Qed.

Lemma validateField_warns field q :
  steps (adds any_diagnostic
           (fun _ => truthy field = true /\
                     JSType_eqb (typeof field) TObject = true /\
                     blank_label (get_opt field "label")))
        (validateField field q).
Proof.
  unfold validateField.
  destruct (negb (truthy field) || negb (JSType_eqb (typeof field) TObject)) eqn:Hobj.
  - now apply steps_addError_adds.
  - apply orb_false_elim in Hobj. destruct Hobj as [H1 H2].
    apply negb_false_iff in H1, H2.
    assert (Hts : steps (adds any_diagnostic
                           (fun _ => truthy field = true /\
                                     JSType_eqb (typeof field) TObject = true /\
                                     blank_label (get_opt field "label")))
                        (validateFieldTypeSpecific field q)).
    { eapply steps_weaken; [|apply validateFieldTypeSpecific_warns].
      intros a b. apply adds_weaken; auto. }
    walk ltac:(exact I).
Qed.

Lemma validateField_blank_label field q :
  truthy field = true -> JSType_eqb (typeof field) TObject = true ->
  blank_label (get_opt field "label") ->
  leaves (validateField field q) (has_error (label_error q)).
Proof.
  intros Ht Ho Hb.
  destruct field as [ | |b|n|s|items|props|name arity]; try discriminate.
  - unfold validateField. cbn [get_opt] in Hb.
    cbn [truthy typeof JSType_eqb negb orb get].
    do 6 leaves_step. cbv beta.
    rewrite (missing_text_blank Hb). leaves_step. cbv beta.
    apply leaves_bind_first.
    + apply kept_has_error.
    + apply leaves_addError.
    + pose proof accumulates_validateFieldTypeSpecific. accum.
  - now apply validateField_leaves_label_error.
Qed.

Lemma validateField_keeps field q :
  steps (keeps warned_is_wrong) (validateField field q).
Proof.
  intros this Hinv.
  destruct (validateField_warns field q this) as [(e & He & _) (w & Hw & Fw)].
  destruct w as [|x w].
  - destruct Hinv as [Hn|Hn].
    + left. now rewrite Hw, Hn.
    + right. rewrite He. now destruct (this_errors this).
  - inversion Fw as [|? ? (Ht & Ho & Hb) _]. right.
    pose proof (@validateField_blank_label field q Ht Ho Hb this) as Hin.
    unfold has_error in Hin. intros Hnil. now rewrite Hnil in Hin.
Qed.

Lemma validateFormSchema_keeps data :
  steps (keeps warned_is_wrong) (validateFormSchema data).
Proof.
  unfold validateFormSchema.
  pose proof validateField_keeps.
  pose proof (fun s p => steps_silent_keeps (validateSettings_silent s p)).
  walk idtac.
Qed.

Lemma validate_no_warnings (jsonData : JSValue) :
  isValid (validate jsonData) = true -> warnings (validate jsonData) = [].
Proof.
  destruct (validate_by_steps (R := keeps warned_is_wrong) jsonData
              validateFormSchema_keeps)
    as (this & Hk & -> & Hcases).
  intros Hv.
  destruct Hcases as [(_ & Hi & _)|(_ & Hi & _)]; rewrite Hi in Hv;
    [|discriminate].
  destruct (Hk (or_introl eq_refl)) as [Hw|He]; [exact Hw|].
  destruct (this_errors this); [now elim He | discriminate].
Qed.

(** X3. A form that passes validation carries no warning: the only warning
    the validator knows, the one for a blank label on a section or a
    statement, is always recorded after the error for the same label. *)
Theorem valid_means_no_warnings (jsonData : JSValue) :
  isValid (validate jsonData) = true ->
  warnings (validate jsonData) = [] /\ errors (validate jsonData) = [] /\
  fixableErrors (validate jsonData) = [].
Proof.
  intros Hv. split; [now apply validate_no_warnings|].
  destruct (validate_by_steps (R := keeps warned_is_wrong) jsonData
              validateFormSchema_keeps)
    as (this & _ & _ & [(He & Hi & Hf)|(_ & Hi & _)]); rewrite Hi in Hv;
    [|discriminate].
  rewrite Hf, He. destruct (this_errors this); [now split | discriminate].
Qed.


(** X4. A successful import reports no warning: whenever
    [transformJsonToFormSchema] answers with success, its list of warnings
    is empty and so are the warnings of the validation result it hands on. *)
Theorem successful_import_has_no_warnings (jsonData : JSValue) (t : World) :
  success (snd (transformJsonToFormSchema jsonData t)) = true ->
  import_warnings (snd (transformJsonToFormSchema jsonData t)) = [] /\
  exists r, validationResult (snd (transformJsonToFormSchema jsonData t)) = Some r /\
            isValid r = true /\ warnings r = [].
Proof.
  unfold transformJsonToFormSchema, validateJsonSchema.
  destruct (isValid (validate jsonData)) eqn:Hv; simpl; [|discriminate].
  destruct (createFormSchema jsonData t) as [t' [schema|e]]; simpl; [|discriminate].
  intros _. rewrite (validate_no_warnings jsonData Hv). split; [reflexivity|].
  eexists. split; [reflexivity|]. rewrite (validate_no_warnings jsonData Hv).
  now split.
Qed.


(** ** Where the root error comes from *)







Lemma returns_not_throws {A} (c : V A) (this : Validator) :
  returns c -> forall e, snd (c this) <> Throw e.
Proof. intros H e He. destruct (H this) as [a Ha]. congruence. Qed.


Create HintDb returning.




Lemma truthy_object (field : JSValue) :
  truthy field = true -> JSType_eqb (typeof field) TObject = true ->
  forall k, get field k = Ok (get_opt field k).
Proof. intros Ht _ k. now apply get_truthy. Qed.












(** ** The transformer, part by part *)

Lemma mapR_Forall2 {A B} (f : A -> Result B) (l : list A) (ys : list B) :
  mapR f l = Ok ys -> Forall2 (fun x y => f x = Ok y) l ys.
Proof.
  revert ys. induction l as [|x l IH]; intros ys; simpl.
  - intros H. injection H as <-. constructor.
  - destruct (f x) as [y|e] eqn:Ex; simpl; [|discriminate].
    destruct (mapR f l) as [r|e]; simpl; [|discriminate].
    intros H. injection H as <-. constructor; [exact Ex | now apply IH].
Qed.

Lemma transformOption_text (option text : JSValue) :
  transformOption option = Ok text -> option_text option text.
Proof.
  unfold transformOption, option_text.
  destruct option as [ | |b|n|s|items|props|name arity];
    cbn [typeof JSType_eqb and_then bindR get get_opt];
    try (intros H; injection H as <-; right; right;
         repeat split; try discriminate; left; discriminate).
  - discriminate.
  - intros H. injection H as <-. left. now split.
  - unfold truthy at 1. cbn [bindR].
    intros H. injection H as <-. right. right.
    repeat split; try discriminate. now right.
  - destruct (truthy (lookup props "label")) eqn:Hl; cbn [bindR];
      intros H; injection H as <-; right; [left | right].
    + now repeat split.
    + repeat split; try discriminate. now right.
Qed.


Lemma transformOptions_nonempty (importedOptions : JSValue) (r : list JSValue) :
  transformOptions importedOptions = Ok (Some r) -> r <> [].
Proof.
  unfold transformOptions.
  destruct (negb (truthy importedOptions) || is_zero (get_length importedOptions))
    eqn:Hc; [discriminate|].
  destruct importedOptions as [ | |b|n|s|l|props|name arity]; try discriminate.
  destruct l as [|x l].
  - cbn [truthy negb orb] in Hc. now rewrite is_zero_length_nil in Hc.
  - cbn [mapR]. destruct (transformOption x); cbn [bindR]; [|discriminate].
    destruct (mapR transformOption l); cbn [bindR]; [|discriminate].
    intros H. injection H as <-. discriminate.
Qed.

(** X6. When [transformOptions] delivers a list, the options were a
    non-empty array and the list has one text per entry, in order: a
    string entry as it is, an object's truthy label, and ['Option'] for
    anything else; a [null] entry makes the call throw instead. *)
Theorem transformOptions_entries (importedOptions : JSValue) (r : list JSValue) :
  transformOptions importedOptions = Ok (Some r) ->
  exists l, importedOptions = JArr l /\ l <> [] /\ r <> [] /\
            Forall2 option_text l r.
Proof.
  unfold transformOptions.
  destruct (negb (truthy importedOptions) || is_zero (get_length importedOptions))
    eqn:Hc; [discriminate|].
  destruct importedOptions as [ | |b|n|s|l|props|name arity]; try discriminate.
  destruct (mapR transformOption l) as [ys|e] eqn:Hm; cbn [bindR]; [|discriminate].
  intros H. injection H as <-. exists l.
  assert (Hl : l <> []).
  { intros ->. cbn [truthy negb orb] in Hc. now rewrite is_zero_length_nil in Hc. }
  apply mapR_Forall2 in Hm.
  repeat split; [exact Hl | |].
  - intros ->. inversion Hm. now subst.
  - eapply Forall2_impl; [|exact Hm]. intros a b0. apply transformOption_text.
Qed.




Lemma transformSettings_keeps (importedSettings : JSValue) (baseSettings settings : Props) :
  transformSettings importedSettings baseSettings = Ok settings ->
  forall k, ~ In k ["theme"; "successMessage"; "redirectUrl";
                    "notifications"; "rtl"] ->
            own settings k = own baseSettings k.
Proof.
  unfold transformSettings.
  destruct (get importedSettings "theme") eqn:E0; [|discriminate].
  apply get_Ok in E0. destruct E0 as [_ Hall]. rewrite !Hall. cbn [bindR].
  intros Hrun k Hk.
  assert (k <> "theme") by (intros ->; apply Hk; simpl; tauto).
  assert (k <> "successMessage") by (intros ->; apply Hk; simpl; tauto).
  assert (k <> "redirectUrl") by (intros ->; apply Hk; simpl; tauto).
  assert (k <> "notifications") by (intros ->; apply Hk; simpl; tauto).
  assert (k <> "rtl") by (intros ->; apply Hk; simpl; tauto).
  revert Hrun.
  destruct (truthy (get_opt importedSettings "submission"));
    [destruct (get (get_opt importedSettings "submission") "successMessage") eqn:E1;
     [apply get_Ok in E1; destruct E1 as [_ Hall1]; rewrite !Hall1|];
     cbn [bindR]; try discriminate|]; cbn [bindR];
    (destruct (truthy (get_opt importedSettings "notifications"));
     [destruct (get (get_opt importedSettings "notifications") "sendEmail") eqn:E2;
      [apply get_Ok in E2; destruct E2 as [_ Hall2]; rewrite !Hall2|];
      cbn [bindR]; try discriminate|]; cbn [bindR];
     intros Hrun; injection Hrun as <-;
     repeat first [ rewrite own_assign_if_other by assumption
                  | rewrite own_set_prop_other by assumption ];
     reflexivity).
Qed.

(** X8. [transformSettings] never throws on the settings object it is
    given and touches five settings only: theme, successMessage,
    redirectUrl, notifications and rtl; every other setting of the default
    schema is kept. A truthy language sets [rtl] to whether it is one of
    ar, he, ur, fa; a truthy theme sets the primary colour, dark to
    [#1f2937] and anything else to [#3b82f6], next to the theme's other
    members. *)
Theorem transformSettings_frame (importedSettings : JSValue) (baseSettings : Props) :
  truthy importedSettings = true ->
  exists settings,
    transformSettings importedSettings baseSettings = Ok settings /\
    (forall k, ~ In k ["theme"; "successMessage"; "redirectUrl";
                       "notifications"; "rtl"] ->
               own settings k = own baseSettings k) /\
    own settings "rtl" =
      (if truthy (get_opt importedSettings "language")
       then Some (JBool (list_includes rtlLanguages
                           (get_opt importedSettings "language")))
       else own baseSettings "rtl") /\
    (if truthy (get_opt importedSettings "theme")
     then exists o,
         own settings "theme" = Some (JObj o) /\
         own o "primaryColor" =
           Some (JStr (if is_str (get_opt importedSettings "theme") "dark"
                       then "#1f2937" else "#3b82f6")) /\
         forall k, k <> "primaryColor" ->
                   own o k = own (spread (lookup baseSettings "theme")) k
     else own settings "theme" = own baseSettings "theme").
Proof.
  intros Ht. unfold transformSettings.
  rewrite !(fun k => get_truthy importedSettings k Ht). cbn [bindR].
  destruct (truthy (get_opt importedSettings "submission")) eqn:Es;
    [rewrite !(fun k => get_truthy _ k Es)|]; cbn [bindR];
    (destruct (truthy (get_opt importedSettings "notifications")) eqn:En;
     [rewrite !(fun k => get_truthy _ k En)|]; cbn [bindR];
     eexists; (split; [reflexivity|]);
     (split; [|split];
     [ intros k Hk;
       assert (k <> "theme") by (intros ->; apply Hk; simpl; tauto);
       assert (k <> "successMessage") by (intros ->; apply Hk; simpl; tauto);
       assert (k <> "redirectUrl") by (intros ->; apply Hk; simpl; tauto);
       assert (k <> "notifications") by (intros ->; apply Hk; simpl; tauto);
       assert (k <> "rtl") by (intros ->; apply Hk; simpl; tauto);
       repeat first [ rewrite own_assign_if_other by assumption
                    | rewrite own_set_prop_other by assumption ];
       reflexivity
     | rewrite own_assign_if_same; read_own; reflexivity
     | read_own;
       destruct (truthy (get_opt importedSettings "theme"));
       [ eexists; split; [reflexivity|]; split;
         [ apply own_set_prop_same
         | intros k Hk; now apply own_set_prop_other ]
       | reflexivity ] ])).
Qed.


(** X9. The output of [transformValidation], member by member: minLength,
    maxLength and pattern are present exactly when the imported rule is
    truthy (so a rule of 0 or of the empty pattern is left out); min and
    max are the root-level value when the field has one and else the
    truthy rule; requiredMessage is present exactly when [required] is
    truthy; and there is no other member. *)
Theorem transformValidation_members (importedField : JSValue) (validation : Props) :
  transformValidation importedField = Ok validation ->
  (forall k, In k ["minLength"; "maxLength"; "pattern"] ->
             own validation k =
               if truthy (imported_rule importedField k)
               then Some (imported_rule importedField k) else None) /\
  (forall k, In k ["min"; "max"] ->
             own validation k =
               if negb (is_undefined (get_opt importedField k))
               then Some (get_opt importedField k)
               else if truthy (imported_rule importedField k)
                    then Some (imported_rule importedField k) else None) /\
  own validation "requiredMessage" =
    (if truthy (get_opt importedField "required")
     then Some (JStr "This field is required") else None) /\
  (forall k, ~ In k ["minLength"; "maxLength"; "min"; "max"; "pattern";
                     "requiredMessage"] ->
             own validation k = None).
Proof.
  intros Hrun. rewrite (@transformValidation_unfold importedField validation Hrun).
  repeat split.
  - intros k Hk. simpl in Hk.
    destruct Hk as [<-|[<-|[<-|[]]]]; read_own;
      now destruct (truthy (imported_rule importedField _)).
  - intros k Hk. simpl in Hk.
    destruct Hk as [<-|[<-|[]]]; read_own;
      destruct (negb (is_undefined (get_opt importedField _))); try reflexivity;
      now destruct (truthy (imported_rule importedField _)).
  - read_own. now destruct (truthy (get_opt importedField "required")).
  - intros k Hk.
    assert (k <> "minLength") by (intros ->; apply Hk; simpl; tauto).
    assert (k <> "maxLength") by (intros ->; apply Hk; simpl; tauto).
    assert (k <> "min") by (intros ->; apply Hk; simpl; tauto).
    assert (k <> "max") by (intros ->; apply Hk; simpl; tauto).
    assert (k <> "pattern") by (intros ->; apply Hk; simpl; tauto).
    assert (k <> "requiredMessage") by (intros ->; apply Hk; simpl; tauto).
    repeat rewrite own_assign_if_other by assumption. reflexivity.
Qed.


(** ** Identifiers of a valid form *)

Lemma validateField_leaves_id_error (field : JSValue) (q : string) :
  truthy field = true -> typeof field = TObject ->
  missing_text (get_opt field "id") = Ok true ->
  leaves (validateField field q) (has_error (id_error q)).
Proof.
  intros Ht Ho Hm. unfold validateField. rewrite Ht, Ho. cbn [JSType_eqb negb orb].
  rewrite (get_truthy field "id" Ht). apply leaves_lift_Ok. cbv beta.
  rewrite Hm. apply leaves_lift_Ok. cbv beta.
  apply leaves_bind_first.
  - apply kept_has_error.
  - apply leaves_addError.
  - pose proof accumulates_validateFieldTypeSpecific. accum.
Qed.

Lemma missing_text_false (v : JSValue) :
  missing_text v = Ok false ->
  truthy v = true /\ exists s, v = JStr s /\ trim s <> "".
Proof.
  unfold missing_text.
  destruct (truthy v) eqn:Ht; cbn [negb or_else]; [|discriminate].
  destruct v as [ | |b|n|s|items|props|name arity];
    cbn [typeof JSType_eqb negb or_else call_trim bindR]; try discriminate.
  intros H. split; [reflexivity|]. exists s. split; [reflexivity|].
  intros Hs. rewrite Hs in H. discriminate.
Qed.

Lemma valid_form_ids (jsonData : JSValue) :
  typeof jsonData <> TString -> isValid (validate jsonData) = true ->
  exists form l,
    jsonData = JObj form /\ lookup form "fields" = JArr l /\
    Forall (fun field =>
              truthy (get_opt field "id") = true /\
              exists s, get_opt field "id" = JStr s /\ trim s <> "") l.
Proof.
  intros Hty Hv.
  destruct (@valid_form_inv jsonData Hty Hv) as (form & l & -> & Hl & Hobj).
  exists form, l. repeat split; auto.
  apply Forall_forall. intros field Hin.
  rewrite Forall_forall in Hobj. destruct (Hobj _ Hin) as [Ht Ho].
  destruct (In_nth_error _ _ Hin) as [i Hi].
  destruct (missing_text_total (get_opt field "id")) as [[|] Hm];
    [|now apply missing_text_false].
  exfalso.
  assert (He : on_return (validateFormSchema (JObj form))
                 (has_error (id_error ("fields[" ++ index_to_string i ++ "]")))).
  { eapply validateFormSchema_on_return; eauto using kept_has_error.
    now apply validateField_leaves_id_error. }
  rewrite (validate_has_error Hty He) in Hv. discriminate.
Qed.


Lemma transformField_keeps_id (importedField : JSValue) (t t' : World) (f : FormField) :
  truthy (get_opt importedField "id") = true ->
  transformField importedField t = (t', Ok f) ->
  field_id f = get_opt importedField "id" /\ t' = t.
Proof.
  intros Hid. unfold transformField, bind, lift, ret.
  destruct (get importedField "id") eqn:E0; [|discriminate].
  apply get_Ok in E0. destruct E0 as [-> Hall]. rewrite !Hall, Hid.
  destruct (transformOptions (get_opt importedField "options")); [|discriminate].
  destruct (transformValidation importedField); [|discriminate].
  destruct (transformFieldSettings importedField _); [|discriminate].
  intros H. injection H as <- <-. now split.
Qed.

(** X7. What [transformField] takes over as it is: a truthy [id] is kept
    and no identifier is drawn; otherwise the identifier is
    [field_<now>_<random>] and exactly one draw is made. Description and
    placeholder are copied, and [options] is either absent or the
    non-empty list [transformOptions] delivered. *)
Theorem transformField_identifier (importedField : JSValue) (t t' : World)
        (f : FormField) :
  transformField importedField t = (t', Ok f) ->
  (if truthy (get_opt importedField "id")
   then field_id f = get_opt importedField "id" /\ t' = t
   else field_id f =
          JStr ("field_" ++ Date_now t ++ "_" ++ substring 2 9 (Math_random t)) /\
        t' = S t) /\
  field_description f = get_opt importedField "description" /\
  field_placeholder f = get_opt importedField "placeholder" /\
  match field_options f with
  | Some r => r <> [] /\
              transformOptions (get_opt importedField "options") = Ok (Some r)
  | None => transformOptions (get_opt importedField "options") = Ok None
  end.
Proof.
  unfold transformField, bind, lift, ret.
  destruct (get importedField "id") eqn:E0; [|discriminate].
  apply get_Ok in E0. destruct E0 as [-> Hall]. rewrite !Hall.
  destruct (truthy (get_opt importedField "id")); cbn [generateUniqueId];
    (destruct (transformOptions (get_opt importedField "options")) as [o|e] eqn:Eo;
     [|discriminate]);
    (destruct (transformValidation importedField); [|discriminate]);
    (destruct (transformFieldSettings importedField _); [|discriminate]);
    intros H; injection H as <- <-; cbn;
    (repeat split;
     destruct o as [[|x r]|]; [| |reflexivity];
     [ now apply transformOptions_nonempty in Eo
     | split; [discriminate | reflexivity] ]).
Qed.

Lemma mapM_transformField_ids (l : list JSValue) :
  Forall (fun field => truthy (get_opt field "id") = true) l ->
  forall t t1 transformed,
    mapM transformField l t = (t1, Ok transformed) ->
    t1 = t /\ map field_id transformed = map (fun field => get_opt field "id") l.
Proof.
  induction 1 as [|field l Hid _ IH]; intros t t1 transformed; simpl.
  - unfold ret. intros H. injection H as <- <-. now split.
  - unfold bind at 1.
    destruct (transformField field t) as [t2 [f|e]] eqn:Ef; [|discriminate].
    apply (@transformField_keeps_id field t t2 f Hid) in Ef. destruct Ef as [Hf ->].
    unfold bind at 1.
    destruct (mapM transformField l t) as [t3 [fs|e]] eqn:El; [|discriminate].
    unfold ret. intros H. injection H as <- <-.
    destruct (IH _ _ _ El) as [-> Hmap]. split; [reflexivity|].
    simpl. now rewrite Hf, Hmap.
Qed.

Lemma createFormSchema_run (importedSchema : JSValue) (t t' : World)
      (schema : FormSchema) :
  createFormSchema importedSchema t = (t', Ok schema) ->
  exists l transformed t1,
    get_opt importedSchema "fields" = JArr l /\
    mapM transformField l t = (t1, Ok transformed) /\
    t' = S t1 /\
    blocks schema =
      [mkFormBlock ("block_" ++ Date_now t1 ++ "_" ++ substring 2 9 (Math_random t1))
         "Main" "" transformed mainBlockSettings] /\
    fields schema = transformed /\
    transformSettings (js_or (get_opt importedSchema "settings") (JObj []))
      (settings (createDefaultFormSchema (get_opt importedSchema "title")
                   (js_or (get_opt importedSchema "description") (JStr "")) false)) =
      Ok (settings schema).
Proof.
  unfold createFormSchema, bind, lift, ret.
  destruct (get importedSchema "title") eqn:E0; [|discriminate].
  apply get_Ok in E0. destruct E0 as [-> Hall]. rewrite !Hall.
  destruct (get_opt importedSchema "fields") as [ | |b|n|s|l|props|name arity] eqn:Ef;
    cbn [map_fields lift]; try discriminate.
  destruct (mapM transformField l t) as [t1 [transformed|e]] eqn:El; [|discriminate].
  cbn [generateBlockId].
  destruct (transformSettings _ _) as [st|e] eqn:Es; [|discriminate].
  intros H. injection H as <- <-. cbn.
  exists l, transformed, t1. repeat split. exact El.
Qed.

(** X10. An import that yields a schema keeps every field's identifier:
    the validator has seen to it that each field carries a non-blank
    string [id], so no field identifier is generated, the fields of the
    schema carry the imported identifiers in import order, and the one
    draw of the clock and the random source goes to the block's
    identifier. *)
Theorem import_keeps_identifiers (jsonData : JSValue) (t : World)
        (schema : FormSchema) :
  formSchema (snd (transformJsonToFormSchema jsonData t)) = Some schema ->
  exists l block,
    get_opt jsonData "fields" = JArr l /\
    map field_id (fields schema) = map (fun field => get_opt field "id") l /\
    Forall (fun id => exists s, id = JStr s /\ trim s <> "")
           (map field_id (fields schema)) /\
    blocks schema = [block] /\
    block_id block = "block_" ++ Date_now t ++ "_" ++ substring 2 9 (Math_random t) /\
    fst (transformJsonToFormSchema jsonData t) = S t.
Proof.
  intros Hs.
  assert (Hty : typeof jsonData <> TString).
  { destruct jsonData; try discriminate.
    now rewrite text_is_not_transformed in Hs. }
  revert Hs. unfold transformJsonToFormSchema, validateJsonSchema.
  destruct (isValid (validate jsonData)) eqn:Hv; cbn [negb]; [|discriminate].
  destruct (createFormSchema jsonData t) as [t1 [produced|e]] eqn:E; [|discriminate].
  cbn. intros H. injection H as ->.
  apply createFormSchema_run in E.
  destruct E as (l & transformed & t2 & Hf & Hmap & -> & Hb & Hfs & _).
  destruct (@valid_form_ids jsonData Hty Hv) as (form & l' & -> & Hl & Hids).
  simpl in Hf. rewrite Hl in Hf. injection Hf as ->.
  assert (Hids1 : Forall (fun field => truthy (get_opt field "id") = true) l).
  { eapply Forall_impl; [|exact Hids]. now intros field [H _]. }
  destruct (mapM_transformField_ids Hids1 _ Hmap) as [-> Hmapid].
  exists l. eexists. rewrite Hb, Hfs, Hmapid.
  repeat split; try reflexivity; [exact Hl|].
  apply Forall_map. eapply Forall_impl; [|exact Hids]. now intros field [_ H].
Qed.


(** ** Entry points *)

(** X11. How [importFromFile] fails and what it does otherwise: a reader
    error, an empty file and a text that does not parse are all answered
    with a failure whose one message begins [Failed to read file:], with no
    warnings, no validation result and no identifier drawn; a text that
    parses is handled exactly as [transformJsonToFormSchema] handles the
    parsed value. *)
Theorem importFromFile_cases (t : World) :
  importFromFile None t =
    (t, mkImportTransformResult false None
          ["Failed to read file: File reading error"] [] None) /\
  importFromFile (Some "") t =
    (t, mkImportTransformResult false None
          ["Failed to read file: Failed to read file"] [] None) /\
  (forall text, text <> "" -> JSON_parse text = None ->
     exists message,
       importFromFile (Some text) t =
         (t, mkImportTransformResult false None
               ["Failed to read file: " ++ message] [] None)) /\
  (forall text data, text <> "" -> JSON_parse text = Some data ->
     importFromFile (Some text) t = transformJsonToFormSchema data t).
Proof.
  assert (Hne : forall text, text <> "" -> truthy (JStr text) = true).
  { intros text H. simpl. destruct text; [now elim H | reflexivity]. }
  repeat split.
  - intros text H Hp. unfold importFromFile, readFileAsText, parse.
    rewrite (Hne text H). cbn [bindR]. rewrite Hp. eexists. reflexivity.
  - intros text data H Hp. unfold importFromFile, readFileAsText, parse.
    rewrite (Hne text H). cbn [bindR]. now rewrite Hp.
Qed.

(** X12. A form handed to [transformJsonToFormSchema] as JSON text is
    validated but never transformed: [validate] parses the text, the
    transformer reads [fields] off the text itself. So the call never
    succeeds on a text, and a text holding a valid form is answered with
    the failure [Cannot read properties of undefined (reading 'map')], with
    no validation result attached and no identifier drawn. *)
Theorem text_is_validated_not_transformed (text : string) (t : World) :
  success (snd (transformJsonToFormSchema (JStr text) t)) = false /\
  formSchema (snd (transformJsonToFormSchema (JStr text) t)) = None /\
  (isValid (validate (JStr text)) = true ->
   transformJsonToFormSchema (JStr text) t =
     (t, mkImportTransformResult false None
           ["Failed to transform JSON: " ++
            "Cannot read properties of undefined (reading 'map')"] [] None)).
Proof.
  unfold transformJsonToFormSchema, validateJsonSchema.
  destruct (isValid (validate (JStr text))); cbn; repeat split; try discriminate.
Qed.

(** X13. Mapping a type twice changes nothing: every internal name of the
    table is itself a key of the table and is mapped to itself, and so
    [mapFieldType] is idempotent on every string, the inherited member
    names included. *)
Theorem mapFieldType_idempotent (importType : string) :
  mapFieldType_of (mapFieldType importType) = mapFieldType importType /\
  (forall v, own SUPPORTED_FIELD_TYPES importType = Some v ->
             exists s, v = JStr s /\ own SUPPORTED_FIELD_TYPES s = Some (JStr s)).
Proof.
  assert (Hkeys : forall v, In v (map snd SUPPORTED_FIELD_TYPES) ->
            mapFieldType_of v = v /\
            exists s, v = JStr s /\ own SUPPORTED_FIELD_TYPES s = Some (JStr s)).
  { simpl. intros v H.
    repeat (destruct H as [H|H];
            [subst v; split; [reflexivity | eexists; split; reflexivity]|]).
    contradiction. }
  split.
  - destruct (own SUPPORTED_FIELD_TYPES importType) as [v|] eqn:Hown.
    + rewrite (mapFieldType_key _ Hown). apply Hkeys. eapply own_In. exact Hown.
    + unfold mapFieldType, lookup. rewrite Hown. unfold inherited.
      destruct (importType =? "__proto__") eqn:E; [reflexivity|].
      destruct (own Object_prototype_props importType) as [v|] eqn:Hp.
      * apply own_In in Hp. simpl in Hp.
        repeat (destruct Hp as [Hp|Hp]; [subst v; reflexivity|]). contradiction.
      * cbn [js_or truthy]. unfold mapFieldType_of. cbn [ToString].
        unfold lookup. rewrite Hown. unfold inherited. now rewrite E, Hp.
  - intros v Hown. apply Hkeys. eapply own_In. exact Hown.
Qed.


(** ** What a field is rejected for *)

Lemma field_error_invalid (form : Props) (l : list JSValue) (field : JSValue)
      (e : string -> ValidationError) :
  (forall p, leaves (validateField field p) (has_error (e p))) ->
  lookup form "fields" = JArr l -> In field l ->
  isValid (validate (JObj form)) = false.
Proof.
  intros He Hl Hin. destruct (In_nth_error _ _ Hin) as [i Hi].
  apply validate_has_error
    with (e := e ("fields[" ++ index_to_string i ++ "]")); [discriminate|].
  eapply validateFormSchema_on_return; eauto using kept_has_error.
Qed.

(** The checks of [validateField] that come before the type-specific ones
    all return on a field that is an object. *)
Lemma validateField_then_specific (field : JSValue) (q : string)
      (Q : Validator -> Prop) :
  truthy field = true -> typeof field = TObject ->
  leaves (validateFieldTypeSpecific field q) Q ->
  leaves (validateField field q) Q.
Proof.
  intros Ht Ho HQ. unfold validateField. rewrite Ht, Ho.
  cbn [JSType_eqb negb orb].
  rewrite (get_truthy field "id" Ht). apply leaves_lift_Ok. cbv beta.
  destruct (missing_text_total (get_opt field "id")) as [b1 ->].
  apply leaves_lift_Ok. cbv beta. leaves_step.
  rewrite (get_truthy field "type" Ht). apply leaves_lift_Ok. cbv beta.
  leaves_step.
  rewrite (get_truthy field "label" Ht). apply leaves_lift_Ok. cbv beta.
  destruct (missing_text_total (get_opt field "label")) as [b2 ->].
  apply leaves_lift_Ok. cbv beta. leaves_step.
  rewrite (get_truthy field "required" Ht). do 2 leaves_step.
  rewrite (get_truthy field "placeholder" Ht). do 2 leaves_step.
  rewrite (get_truthy field "helpText" Ht). do 2 leaves_step.
  rewrite (get_truthy field "description" Ht). do 2 leaves_step.
  exact HQ.
Qed.

(** X14. A field whose type is a string that the table does not answer for
    is rejected: whatever else is wrong with it, the error at its [type]
    names the type and lists the supported ones, and a form holding such a
    field is invalid. *)
Theorem unsupported_type_is_an_error (field : JSValue) (type : string) :
  truthy field = true -> typeof field = TObject ->
  get_opt field "type" = JStr type -> type <> "" ->
  own SUPPORTED_FIELD_TYPES type = None -> inherited type = JUndefined ->
  (forall p, leaves (validateField field p) (has_error (type_error p type))) /\
  (forall form l, lookup form "fields" = JArr l -> In field l ->
                  isValid (validate (JObj form)) = false).
Proof.
  intros Ht Ho Hty Hne Hown Hinh.
  assert (Hleaves : forall p,
             leaves (validateField field p) (has_error (type_error p type))).
  { intros p. unfold validateField. rewrite Ht, Ho.
    cbn [JSType_eqb negb orb].
    rewrite (get_truthy field "id" Ht). apply leaves_lift_Ok. cbv beta.
    destruct (missing_text_total (get_opt field "id")) as [b1 ->].
    apply leaves_lift_Ok. cbv beta. leaves_step.
    rewrite (get_truthy field "type" Ht). apply leaves_lift_Ok. cbv beta.
    rewrite Hty. cbn [typeof JSType_eqb negb orb ToString].
    assert (Htruthy : truthy (JStr type) = true)
      by (destruct type; [now elim Hne | reflexivity]).
    rewrite Htruthy. cbn [negb].
    unfold lookup. rewrite Hown, Hinh. cbn [truthy negb].
    apply leaves_bind_first.
    - apply kept_has_error.
    - apply leaves_addError.
    - pose proof accumulates_validateFieldTypeSpecific. accum. }
  split; [exact Hleaves|].
  intros form l. now apply field_error_invalid with (e := fun p => type_error p type).
Qed.

(** X15. A radio, select, checkbox, checkboxes or multi_select field
    without a non-empty array of options is rejected with an error at its
    [options]: the options are required when they are missing or no array,
    and at least one is required when the array is empty. *)
Theorem options_are_required (field : JSValue) (type : string) :
  truthy field = true -> typeof field = TObject ->
  get_opt field "type" = JStr type -> In type optionFields ->
  (forall x l, get_opt field "options" <> JArr (x :: l)) ->
  (forall p, leaves (validateField field p)
               (has_error (options_error p type (get_opt field "options")))) /\
  (forall form l, lookup form "fields" = JArr l -> In field l ->
                  isValid (validate (JObj form)) = false).
Proof.
  intros Ht Ho Hty Hin Hopt.
  assert (Hleaves : forall p,
             leaves (validateField field p)
               (has_error (options_error p type (get_opt field "options")))).
  { intros p. apply validateField_then_specific; [exact Ht | exact Ho |].
    unfold validateFieldTypeSpecific.
    rewrite (get_truthy field "type" Ht). apply leaves_lift_Ok. cbv beta.
    rewrite Hty.
    assert (Hinc : list_includes optionFields (JStr type) = true).
    { simpl in Hin. simpl.
      repeat (destruct Hin as [<-|Hin]; [reflexivity|]). contradiction. }
    rewrite Hinc. cbn [when ToString].
    pose proof accumulates_validateFieldValidation.
    pose proof accumulates_validateOption.
    apply leaves_bind_first; [apply kept_has_error | | accum].
    rewrite (get_truthy field "options" Ht). apply leaves_lift_Ok. cbv beta.
    apply leaves_bind_first; [apply kept_has_error | | accum].
    unfold options_error.
    destruct (get_opt field "options") as [ | |b|n|s|items|props|name arity];
      cbn [Array_isArray]; rewrite ?andb_false_r; cbn [negb];
      try apply leaves_addError.
    destruct items as [|x items]; [|now elim (Hopt x items)].
    cbn [truthy andb negb]. rewrite is_zero_length_nil. apply leaves_addError. }
  split; [exact Hleaves|].
  intros form l.
  now apply field_error_invalid
    with (e := fun p => options_error p type (get_opt field "options")).
Qed.


(** X16. A number or slider field whose [min] is not below its [max] (two
    numbers, equal ones included) is rejected with the error at its [min],
    and a form holding such a field is invalid. *)
Theorem bounds_must_be_ordered (field : JSValue) (type : string) (a b : float) :
  truthy field = true -> typeof field = TObject ->
  get_opt field "type" = JStr type -> type = "number" \/ type = "slider" ->
  get_opt field "min" = JNum a -> get_opt field "max" = JNum b ->
  PrimFloat.is_nan a = false -> PrimFloat.is_nan b = false ->
  PrimFloat.ltb a b = false ->
  (forall p, leaves (validateField field p) (has_error (bounds_error p))) /\
  (forall form l, lookup form "fields" = JArr l -> In field l ->
                  isValid (validate (JObj form)) = false).
Proof.
  intros Ht Ho Hty Hnum Hmin Hmax Ha Hb Hlt.
  assert (Hleaves : forall p,
             leaves (validateField field p) (has_error (bounds_error p))).
  { intros p. apply validateField_then_specific; [exact Ht | exact Ho |].
    unfold validateFieldTypeSpecific.
    rewrite (get_truthy field "type" Ht). apply leaves_lift_Ok. cbv beta.
    rewrite Hty.
    assert (Hinc : list_includes optionFields (JStr type) = false)
      by (destruct Hnum; subst type; reflexivity).
    assert (Hsel : is_str (JStr type) "number" || is_str (JStr type) "slider" = true)
      by (destruct Hnum; subst type; reflexivity).
    rewrite Hinc, Hsel. cbn [when].
    pose proof accumulates_validateFieldValidation.
    leaves_step.
    apply leaves_bind_first; [apply kept_has_error | | accum].
    rewrite (get_truthy field "min" Ht). apply leaves_lift_Ok. cbv beta.
    rewrite (get_truthy field "max" Ht). apply leaves_lift_Ok. cbv beta.
    rewrite (get_truthy field "step" Ht). apply leaves_lift_Ok. cbv beta.
    do 3 leaves_step.
    rewrite Hmin, Hmax. unfold js_ge, IsLessThan.
    cbn [ToPrimitive ToNumber is_undefined negb andb].
    rewrite Ha, Hb, Hlt. cbn [orb when]. apply leaves_addError. }
  split; [exact Hleaves|].
  intros form l. now apply field_error_invalid with (e := bounds_error).
Qed.


(** ** The dialog and its callers *)

Lemma transform_outcome (jsonData : JSValue) (t : World) :
  import_outcome (snd (transformJsonToFormSchema jsonData t)).
Proof.
  unfold import_outcome, transformJsonToFormSchema, validateJsonSchema.
  destruct (isValid (validate jsonData)) eqn:Hv; cbn [negb].
  - destruct (createFormSchema jsonData t) as [t' [schema|e]]; cbn.
    + left. rewrite (validate_no_warnings jsonData Hv).
      repeat split. exists schema, (validate jsonData).
      repeat split; [exact Hv | now apply validate_no_warnings].
    + right. repeat split; [discriminate | now left].
  - cbn. right. repeat split.
    + pose proof (invalid_has_errors _ Hv) as Hne.
      destruct (errors (validate jsonData)); [congruence | discriminate].
    + right. now exists (validate jsonData).
Qed.

Lemma importFromFile_outcome (file : option string) (t : World) :
  import_outcome (snd (importFromFile file t)).
Proof.
  unfold importFromFile.
  destruct (text <~ readFileAsText file ;; parse text) as [data|e].
  - apply transform_outcome.
  - right. cbn. repeat split; [discriminate | now left].
Qed.

(** The state the handler ends in, by the path taken. *)
Lemma handleValidateAndProcess_run (s : JsonImportModal.State) (t : World) :
  (exists t' r,
      import_outcome r /\
      handleValidateAndProcess s t =
        (t', JsonImportModal.mkState
               (if success r then JsonImportModal.Preview
                else JsonImportModal.Validate)
               (JsonImportModal.jsonFile s) (JsonImportModal.jsonText s)
               (JsonImportModal.uploadMode s) (validationResult r) (Some r)
               false 100)) \/
  (exists message,
      JsonImportModal.jsonFile s = None /\
      JSON_parse (JsonImportModal.jsonText s) = None /\
      handleValidateAndProcess s t =
        (t, JsonImportModal.mkState JsonImportModal.Validate
              (JsonImportModal.jsonFile s) (JsonImportModal.jsonText s)
              (JsonImportModal.uploadMode s) (JsonImportModal.validationResult s)
              (Some (mkImportTransformResult false None
                       ["Failed to process JSON: " ++ message] [] None))
              false 25)).
Proof.
  unfold handleValidateAndProcess.
  destruct s as [step file text mode vr ir proc prog]. cbn.
  destruct file as [file|].
  - left. pose proof (importFromFile_outcome file t) as Ho.
    destruct (importFromFile file t) as [t' r]. exists t', r. now split.
  - unfold parse. destruct (JSON_parse text) as [data|] eqn:Hp; cbn.
    + left. pose proof (transform_outcome data t) as Ho.
      destruct (transformJsonToFormSchema data t) as [t' r]. exists t', r.
      now split.
    + right. eexists. repeat split.
Qed.

Lemma process_file_kept (s : JsonImportModal.State) (t : World) :
  JsonImportModal.jsonFile (snd (handleValidateAndProcess s t)) =
    JsonImportModal.jsonFile s.
Proof.
  destruct (handleValidateAndProcess_run s t)
    as [(t' & r & _ & ->)|(message & _ & _ & ->)]; reflexivity.
Qed.

(** X17. Where [handleValidateAndProcess] leaves the dialog: processing
    is over, the file, the text and the upload mode are untouched, an
    import result is there, and the step is the preview when the import
    succeeded and the validation step otherwise. In the preview the
    schema is shown, the validation result is a clean one, and the list of
    import warnings is never shown. *)
Theorem process_outcome (s : JsonImportModal.State) (t : World) :
  let s' := snd (handleValidateAndProcess s t) in
  JsonImportModal.isProcessing s' = false /\
  JsonImportModal.jsonFile s' = JsonImportModal.jsonFile s /\
  JsonImportModal.jsonText s' = JsonImportModal.jsonText s /\
  JsonImportModal.uploadMode s' = JsonImportModal.uploadMode s /\
  (exists r, JsonImportModal.importResult s' = Some r /\
             JsonImportModal.currentStep s' =
               if success r then JsonImportModal.Preview
               else JsonImportModal.Validate) /\
  (JsonImportModal.currentStep s' = JsonImportModal.Preview ->
   JsonImportModal.shows_preview s' = true /\
   JsonImportModal.shows_import_warnings s' = false /\
   JsonImportModal.progress_value s' = 75 /\
   exists v, JsonImportModal.validationResult s' = Some v /\
             ValidationResults v = ValidationSuccessful).
Proof.
  cbv zeta.
  destruct (handleValidateAndProcess_run s t)
    as [(t' & r & Ho & ->)|(message & _ & _ & ->)]; cbn.
  - do 4 (split; [reflexivity|]). split; [now exists r|].
    destruct Ho as [(Hs & _ & Hw & schema & v & Hf & Hv & Hi & Hvw)
                   |(Hs & _)]; rewrite Hs; [|discriminate].
    intros _. unfold JsonImportModal.shows_import_warnings,
      JsonImportModal.shows_preview, JsonImportModal.progress_value. cbn.
    rewrite Hf, Hw, Hv. repeat split. exists v. split; [reflexivity|].
    unfold ValidationResults. now rewrite Hi, Hvw.
  - do 4 (split; [reflexivity|]).
    split; [eexists; split; reflexivity | discriminate].
Qed.

(** X18. A failure that comes without a validation result leaves the
    dialog blank: started with no validation result on display, a run
    that ends in a read failure, a text that does not parse or an
    exception of the transformer shows none of the blocks of the dialog
    body, so that the message [Failed to ...] it has put into the import
    result is never rendered. A pasted text that does not parse is such a
    run. *)
Theorem failure_message_is_not_shown (s : JsonImportModal.State) (t : World) :
  JsonImportModal.validationResult s = None ->
  let s' := snd (handleValidateAndProcess s t) in
  (forall r, JsonImportModal.importResult s' = Some r ->
             validationResult r = None ->
             import_errors r <> [] /\
             JsonImportModal.currentStep s' = JsonImportModal.Validate /\
             JsonImportModal.shows_upload s' = false /\
             JsonImportModal.shows_validation s' = false /\
             JsonImportModal.shows_import_errors s' = false /\
             JsonImportModal.shows_preview s' = false /\
             JsonImportModal.shows_complete s' = false) /\
  (JsonImportModal.jsonFile s = None ->
   JSON_parse (JsonImportModal.jsonText s) = None ->
   exists r, JsonImportModal.importResult s' = Some r /\
             validationResult r = None).
Proof.
  intros Hfresh. cbv zeta. split.
  - destruct (handleValidateAndProcess_run s t)
      as [(t' & r & Ho & ->)|(message & Hfile & Hparse & ->)]; cbn;
      intros r' Hr Hnone; injection Hr as <-;
      unfold JsonImportModal.shows_import_errors, JsonImportModal.shows_validation,
        JsonImportModal.shows_preview, JsonImportModal.shows_upload,
        JsonImportModal.shows_complete; cbn.
    + destruct Ho as [(_ & _ & _ & schema & v & _ & Hv & _)
                     |(Hs & Hf & He & _)]; [congruence|].
      rewrite Hs, Hnone. cbn. now repeat split.
    + rewrite Hfresh. cbn. repeat split. discriminate.
  - intros Hfile Hparse. unfold handleValidateAndProcess.
    rewrite Hfile. unfold parse. rewrite Hparse. cbn.
    eexists. split; reflexivity.
Qed.


(** X19. A validation result outlives the text it was made for: when the
    pasted text does not parse, the handler leaves the validation result
    as it was. So after a run that put a validation result on display,
    going back, changing the text into one that does not parse and
    running again shows the earlier result once more, now next to the
    message [Failed to process JSON]. *)
Theorem earlier_validation_is_shown_again (s : JsonImportModal.State) (t : World)
        (text : string) (v : ValidationResult) :
  JsonImportModal.jsonFile s = None -> JSON_parse text = None ->
  JsonImportModal.validationResult (snd (handleValidateAndProcess s t)) = Some v ->
  let s1 := snd (handleValidateAndProcess s t) in
  let t1 := fst (handleValidateAndProcess s t) in
  let s2 := JsonImportModal.setJsonText text
              (JsonImportModal.setCurrentStep JsonImportModal.Upload s1) in
  let s3 := snd (handleValidateAndProcess s2 t1) in
  JsonImportModal.validationResult s3 = Some v /\
  JsonImportModal.shows_validation s3 = true /\
  JsonImportModal.shows_import_errors s3 = true /\
  JsonImportModal.progress s3 = 25 /\
  JsonImportModal.canProceedFromValidation s3 = false.
Proof.
  intros Hfile Hparse Hv. cbv zeta.
  pose proof (process_file_kept s t) as Hkept.
  set (s1 := snd (handleValidateAndProcess s t)) in *.
  set (t1 := fst (handleValidateAndProcess s t)).
  unfold handleValidateAndProcess at 1 2 3 4 5.
  cbn [JsonImportModal.jsonFile JsonImportModal.jsonText
       JsonImportModal.setJsonText JsonImportModal.setCurrentStep].
  rewrite Hkept, Hfile. unfold parse. rewrite Hparse. cbn.
  unfold JsonImportModal.shows_import_errors, JsonImportModal.shows_validation,
    JsonImportModal.canProceedFromValidation.
  cbn. rewrite Hv. now repeat split.
Qed.

(** X20. The summary never reads [Valid with warnings]: on whatever the
    validator returns, the component shows the success banner exactly
    when the result is valid and the failure badge exactly when there are
    errors, and the alert [Ready to import with warnings] is never
    shown. *)
Theorem summary_is_success_or_failure (jsonData : JSValue) :
  ValidationResults (validate jsonData) <> ValidWithWarnings /\
  ready_with_warnings (validate jsonData) = false /\
  (ValidationResults (validate jsonData) = ValidationSuccessful <->
   isValid (validate jsonData) = true) /\
  (ValidationResults (validate jsonData) = ValidationFailed <->
   errors (validate jsonData) <> []).
Proof.
  unfold ValidationResults, ready_with_warnings.
  destruct (isValid (validate jsonData)) eqn:Hv.
  - rewrite (validate_no_warnings jsonData Hv). cbn.
    repeat split; try discriminate; try reflexivity.
    intros Hne. exfalso. apply Hne.
    pose proof (isValid_length jsonData) as Hl. rewrite Hv in Hl.
    destruct (errors (validate jsonData)); [reflexivity | discriminate].
  - cbn. repeat split; try discriminate; try reflexivity.
    intros _. now apply invalid_has_errors.
Qed.

(** X21. What the dialog hands over is created: a result that
    [handleConfirmImport] passes to [onImportSuccess] carries a schema, so
    with a user signed in [handleImportFromJson] goes on to create the form
    from that schema, under the title in its settings, and its first
    failure message can only mean that nobody is signed in. *)
Theorem confirmed_import_is_created (s s' : JsonImportModal.State)
        (r : ImportTransformResult) :
  JsonImportModal.handleConfirmImport s = (Some r, s') ->
  JsonImportModal.currentStep s' = JsonImportModal.Complete /\
  JsonImportModal.importResult s = Some r /\
  (exists schema,
      formSchema r = Some schema /\
      forall userId created,
        handleImportSuccess (Some (handleImportFromJson (Some userId) created)) r =
          (false,
           Some (createForm userId (lookup (settings schema) "title") schema ::
                 match created with
                 | Ok formId =>
                     [ loadForms;
                       toast_success "Form imported successfully!";
                       router_push ("/form-builder/" ++ formId) ]
                 | Throw _ =>
                     [ toast_error "Failed to create form from imported JSON" ]
                 end))) /\
  (forall created,
      handleImportFromJson None created r =
        [ toast_error "Failed to import form from JSON" ]).
Proof.
  unfold JsonImportModal.handleConfirmImport.
  destruct (JsonImportModal.importResult s) as [r0|] eqn:Hr; [|discriminate].
  destruct (success r0) eqn:Hs; cbn [andb]; [|discriminate].
  destruct (formSchema r0) as [schema|] eqn:Hf; [|discriminate].
  intros H. injection H as <- <-.
  repeat split. exists schema. split; [exact Hf|].
  intros userId created. unfold handleImportSuccess, handleImportFromJson.
  now rewrite Hs, Hf.
Qed.

(** X22. After a run of the import, confirming hands a result over
    exactly when the dialog is at the preview; at the validation step
    [handleConfirmImport] does nothing at all. *)
Theorem confirm_after_process (s : JsonImportModal.State) (t : World) :
  let s1 := snd (handleValidateAndProcess s t) in
  (fst (JsonImportModal.handleConfirmImport s1) <> None <->
   JsonImportModal.currentStep s1 = JsonImportModal.Preview) /\
  (JsonImportModal.currentStep s1 = JsonImportModal.Validate ->
   JsonImportModal.handleConfirmImport s1 = (None, s1)) /\
  (JsonImportModal.currentStep s1 = JsonImportModal.Preview ->
   JsonImportModal.handleConfirmImport s1 =
     (JsonImportModal.importResult s1,
      JsonImportModal.setCurrentStep JsonImportModal.Complete s1)).
Proof.
  cbv zeta.
  destruct (handleValidateAndProcess_run s t)
    as [(t' & r & Ho & ->)|(message & _ & _ & ->)];
    unfold JsonImportModal.handleConfirmImport; cbn.
  - destruct Ho as [(Hs & _ & _ & schema & v & Hf & _)|(Hs & Hf & _)];
      rewrite Hs, Hf; cbn; repeat split; try discriminate; try reflexivity;
      intros H; try discriminate H; now elim H.
  - repeat split; try discriminate. intros H. now elim H.
Qed.


(** ** Fields that are no array, and the settings of the schema *)

Lemma fields_not_array_run (data : JSValue) :
  is_undefined data = false -> is_null data = false ->
  (forall l, get_opt data "fields" <> JArr l) ->
  exists errs,
    validateFormSchema data (mkValidator [] []) =
      (mkValidator (errs ++ [fields_not_array_error]) [], Ok tt) /\
    Forall (fun e => path e = "title" \/ path e = "description") errs.
Proof.
  intros Hu Hn Hf. unfold validateFormSchema.
  assert (Hget : forall k, get data k = Ok (get_opt data k))
    by (intros k; destruct data; try discriminate; reflexivity).
  unfold bind at 1. rewrite Hget. cbn [lift].
  destruct (missing_text_total (get_opt data "title")) as [b1 Hb1].
  unfold bind at 1. rewrite Hb1. cbn [lift].
  unfold bind at 1 2 3. rewrite !Hget. cbn [lift].
  exists ((if b1 then [title_error] else []) ++
          (if truthy (get_opt data "description") &&
              negb (JSType_eqb (typeof (get_opt data "description")) TString)
           then [mkValidationError "description"
                   "Form description must be a string" SevError]
           else []))%list.
  destruct b1;
    destruct (truthy (get_opt data "description") &&
              negb (JSType_eqb (typeof (get_opt data "description")) TString));
    (destruct (get_opt data "fields") as [ | |b|n|s|items|props|name arity] eqn:Ef;
     [ | | | | |now elim (Hf items)| | ]);
    cbn; (split; [reflexivity|]);
    repeat first [apply Forall_nil | apply Forall_cons; [cbn; auto|]].
Qed.

(** X23. When [fields] is not an array nothing below the root is
    validated: the run returns, [Fields must be an array] is the last
    error, before it come at most the errors for the title and the
    description, and the settings are not looked at, whatever they hold. *)
Theorem fields_not_array_stops_validation (jsonData : JSValue) :
  typeof jsonData <> TString ->
  is_undefined jsonData = false -> is_null jsonData = false ->
  (forall l, get_opt jsonData "fields" <> JArr l) ->
  exists errs,
    errors (validate jsonData) = (errs ++ [fields_not_array_error])%list /\
    Forall (fun e => path e = "title" \/ path e = "description") errs /\
    warnings (validate jsonData) = [] /\
    isValid (validate jsonData) = false /\
    ~ In root_error (errors (validate jsonData)).
Proof.
  intros Hty Hu Hn Hf.
  destruct (fields_not_array_run jsonData Hu Hn Hf) as (errs & Hrun & Herrs).
  exists errs.
  assert (Hv : validate jsonData =
               mkValidationResult false (errs ++ [fields_not_array_error]) []
                 (filter isFixableError (errs ++ [fields_not_array_error]))).
  { unfold validate.
    assert (Hbody : forall c : V unit,
               c (mkValidator [] []) =
                 (mkValidator (errs ++ [fields_not_array_error]) [], Ok tt) ->
               match c (mkValidator [] []) with
               | (this, Ok _) =>
                   mkValidationResult
                     (List.length (this_errors this) =? 0)%nat
                     (this_errors this) (this_warnings this)
                     (filter isFixableError (this_errors this))
               | (this, Throw _) =>
                   let this := fst (addError "root"
                     "Invalid JSON format. Please check your JSON syntax."
                     SevError this) in
                   mkValidationResult false (this_errors this)
                     (this_warnings this) []
               end =
               mkValidationResult false (errs ++ [fields_not_array_error]) []
                 (filter isFixableError (errs ++ [fields_not_array_error]))).
    { intros c ->. cbn [this_errors this_warnings].
      rewrite length_app. cbn [List.length]. now rewrite Nat.add_1_r. }
    apply Hbody. destruct jsonData; try exact Hrun. now elim Hty. }
  rewrite Hv. cbn. repeat split; [exact Herrs|].
  intros Hin. apply in_app_or in Hin. destruct Hin as [Hin|[Hin|[]]].
  - rewrite Forall_forall in Herrs. destruct (Herrs _ Hin) as [H|H]; discriminate H.
  - discriminate Hin.
Qed.


Lemma transformSettings_none (baseSettings : Props) :
  transformSettings (JObj []) baseSettings = Ok baseSettings.
Proof. reflexivity. Qed.

(** X24. The settings of an imported schema are the default schema's
    settings, made for the imported title and description, with at most
    theme, successMessage, redirectUrl, notifications and rtl replaced;
    when the import carries no settings they are the default settings
    unchanged. *)
Theorem imported_settings_keep_defaults (jsonData : JSValue) (t : World)
        (schema : FormSchema) :
  formSchema (snd (transformJsonToFormSchema jsonData t)) = Some schema ->
  let base :=
    settings (createDefaultFormSchema (get_opt jsonData "title")
                (js_or (get_opt jsonData "description") (JStr "")) false) in
  (forall k, ~ In k ["theme"; "successMessage"; "redirectUrl";
                     "notifications"; "rtl"] ->
             own (settings schema) k = own base k) /\
  (truthy (get_opt jsonData "settings") = false -> settings schema = base).
Proof.
  unfold transformJsonToFormSchema.
  destruct (negb _); [discriminate|].
  destruct (createFormSchema jsonData t) as [t1 [produced|e]] eqn:E; [|discriminate].
  cbn. intros H. injection H as ->.
  apply createFormSchema_run in E.
  destruct E as (l & transformed & t2 & _ & _ & _ & _ & _ & Hs).
  split.
  - exact (transformSettings_keeps _ _ Hs).
  - intros Hf. unfold js_or in Hs at 1. rewrite Hf in Hs.
    rewrite transformSettings_none in Hs. now injection Hs as <-.
Qed.


(** ** What the validator checks and the transformer does not take, and
    the other way round *)

(** X25. Where the settings' [min] and [max] come from: from the
    root-level [min] and [max] on a number or a slider, from
    [minSelections] and [maxSelections] on a checkbox (which is what
    checkboxes resolves to), and from nowhere else. So the selection
    bounds of a multi_select, which the validator checks, are not carried
    over, since multi_select resolves to select. *)
Theorem bounds_by_resolved_type (importedField fieldType : JSValue) (settings : Props) :
  transformFieldSettings importedField fieldType = Ok settings ->
  let from (k : string) :=
    if is_undefined (get_opt importedField k) then None
    else Some (get_opt importedField k) in
  own settings "min" =
    (if is_str fieldType "number" || is_str fieldType "slider" then from "min"
     else if is_str fieldType "checkbox" then from "minSelections"
     else None) /\
  own settings "max" =
    (if is_str fieldType "number" || is_str fieldType "slider" then from "max"
     else if is_str fieldType "checkbox" then from "maxSelections"
     else None) /\
  mapFieldType "checkboxes" = JStr "checkbox" /\
  mapFieldType "multi_select" = JStr "select".
Proof.
  unfold transformFieldSettings.
  destruct (get importedField "helpText") eqn:E0; [|discriminate].
  apply get_Ok in E0. destruct E0 as [_ Hall].
  rewrite !Hall. cbn [bindR]. cbv zeta.
  switch_cases fieldType; cbn [orb andb];
    intros H; injection H as <-; read_own; cbn [negb];
    repeat split;
    repeat match goal with
           | |- context [is_undefined ?v] => destruct (is_undefined v)
           end; reflexivity.
Qed.

Lemma mapM_throws {St A B} (f : A -> M St B) (l : list A) (x : A) :
  In x l -> (forall s, exists s' e, f x s = (s', Throw e)) ->
  forall s, exists s' e, mapM f l s = (s', Throw e).
Proof.
  intros Hin Hx. induction l as [|y l IH]; intros s; [destruct Hin|].
  simpl. unfold bind at 1.
  destruct Hin as [->|Hin].
  - destruct (Hx s) as (s' & e & ->). eauto.
  - destruct (f y s) as [s1 [b|e]]; [|eauto].
    unfold bind at 1. destruct (IH Hin s1) as (s' & e & ->). eauto.
Qed.

Lemma transformField_bad_options (importedField : JSValue) (t : World) :
  truthy importedField = true ->
  truthy (get_opt importedField "options") = true ->
  Array_isArray (get_opt importedField "options") = false ->
  is_zero (get_length (get_opt importedField "options")) = false ->
  exists t', transformField importedField t =
               (t', Throw (TypeError "importedOptions.map is not a function")).
Proof.
  intros Ht Hto Harr Hz. unfold transformField, bind, lift, ret.
  rewrite !(fun k => @get_truthy importedField k Ht).
  assert (Ho : transformOptions (get_opt importedField "options") =
               Throw (TypeError "importedOptions.map is not a function")).
  { unfold transformOptions. rewrite Hto, Hz. cbn [negb orb].
    destruct (get_opt importedField "options"); try reflexivity. discriminate. }
  rewrite Ho.
  destruct (truthy (get_opt importedField "id")); cbn; eauto.
Qed.

(** X26. The validator looks at [options] only on the five types that
    need them, the transformer maps them on every field. So a form that
    passes validation and holds a field whose [options] are truthy, no
    array and not of length zero (the JSON value [true], say) is not
    imported: the transformer throws, and the answer is a failure with the
    one message [Failed to transform JSON: ...], no warnings and no
    validation result. *)
Theorem valid_form_with_bad_options_fails (jsonData : JSValue) (t : World)
        (l : list JSValue) (field : JSValue) :
  typeof jsonData <> TString ->
  isValid (validate jsonData) = true ->
  get_opt jsonData "fields" = JArr l -> In field l ->
  truthy (get_opt field "options") = true ->
  Array_isArray (get_opt field "options") = false ->
  is_zero (get_length (get_opt field "options")) = false ->
  exists message,
    snd (transformJsonToFormSchema jsonData t) =
      mkImportTransformResult false None
        ["Failed to transform JSON: " ++ message] [] None.
Proof.
  intros Hty Hv Hl Hin Hto Harr Hz.
  destruct (@valid_form_inv jsonData Hty Hv) as (form & l' & -> & Hl' & Hobj).
  simpl in Hl. rewrite Hl' in Hl. injection Hl as ->.
  rewrite Forall_forall in Hobj. destruct (Hobj _ Hin) as [Ht _].
  unfold transformJsonToFormSchema, validateJsonSchema. rewrite Hv. cbn [negb].
  assert (Hthrow : exists t' e, createFormSchema (JObj form) t = (t', Throw e)).
  { unfold createFormSchema. cbn [get]. unfold bind at 1 2 3. cbn [lift].
    rewrite Hl'. cbn [map_fields]. unfold bind at 1.
    destruct (@mapM_throws World JSValue FormField transformField l field Hin) with (s := t)
      as (t' & e & ->); [|eauto].
    intros s. destruct (@transformField_bad_options field s Ht Hto Harr Hz) as (s' & ->).
    eauto. }
  destruct Hthrow as (t' & e & ->). cbn. eauto.
Qed.

End Host.

(** * Worked examples *)

(** The rules of [patterned_text] reach the output unchanged. *)
Lemma patterned_text_rules :
  exists validation,
    transformValidation patterned_text = Ok validation /\
    own validation "minLength" = Some (JNum 2) /\
    own validation "maxLength" = Some (JNum 5) /\
    own validation "pattern" = Some (JStr "^a").
Proof.
  destruct (@transformValidation_rules patterned_text)
    as (validation & Hrun & H & _); try discriminate.
  exists validation. split; [exact Hrun|].
  repeat split; apply H; simpl; auto.
Defined.

(** C4 as stated fails: a valid number field with the root-level bounds 1
    and 10 and [validation: {min: 5}] comes out with [validation.min = 1]. *)
Lemma validation_min_overridden :
  (forall parse s2n n2s,
      isValid (validate parse s2n n2s (document "T" [bounded_number])) = true) /\
  imported_rule bounded_number "min" = JNum 5 /\
  transformValidation bounded_number = Ok [("min", JNum 1); ("max", JNum 10)] /\
  own [("min", JNum 1); ("max", JNum 10)] "min" <> Some (JNum 5).
Proof.
  repeat split. intros H.
  apply (f_equal (fun o => match o with
                           | Some (JNum n) => PrimFloat.eqb n 5
                           | _ => false
                           end)) in H.
  vm_compute in H. discriminate H.
Qed.

(** A rule whose value is falsy is not copied: [minLength: 0] is valid and
    absent from the output. *)
Lemma zero_minLength_dropped :
  (forall parse s2n n2s,
      isValid (validate parse s2n n2s (document "T" [zero_minLength])) = true) /\
  imported_rule zero_minLength "minLength" = JNum 0 /\
  transformValidation zero_minLength = Ok [("maxLength", JNum 5)].
Proof. repeat split. Qed.

(** On a text field [defaultChecked] wins over [defaultValue]. *)
Lemma text_both_defaults_setting :
  exists settings,
    transformFieldSettings text_both_defaults (JStr "text") = Ok settings /\
    own settings "defaultValue" = Some (JBool true).
Proof.
  destruct (@defaultChecked_precedence text_both_defaults (JStr "text"))
    as (settings & Hrun & H & _); try discriminate.
  exists settings. split; [exact Hrun|]. apply H. discriminate.
Defined.

(** C5 as stated fails: on a slider carrying both, [defaultValue] stays. *)
Lemma slider_keeps_defaultValue :
  (forall parse s2n n2s,
      isValid (validate parse s2n n2s (document "T" [slider_both_defaults])) = true) /\
  get_opt slider_both_defaults "defaultValue" = JNum 5 /\
  get_opt slider_both_defaults "defaultChecked" = JBool true /\
  mapFieldType "slider" = JStr "slider" /\
  transformFieldSettings slider_both_defaults (JStr "slider") =
    Ok [("defaultValue", JNum 5)] /\
  own [("defaultValue", JNum 5)] "defaultValue" <> Some (JBool true).
Proof. repeat split. discriminate. Qed.

(** A text that the sample host's parser rejects. *)
Lemma not_json_rejected :
  Sample.JSON_parse "{not json" = None /\
  validate Sample.JSON_parse Sample.StringToNumber Sample.NumberToString
    (JStr "{not json") =
  mkValidationResult false [root_error] [] [].
Proof.
  split; [reflexivity|].
  apply (@validate_unparseable Sample.JSON_parse Sample.StringToNumber
           Sample.NumberToString "{not json" eq_refl).
Defined.

(** The multi-select scenario of the specification. *)
Lemma pick_many_allows_multiple :
  exists t' f,
    transformField Sample.NumberToString Sample.Date_now Sample.Math_random
      pick_many 0 = (t', Ok f) /\
    field_type f = JStr "select" /\
    own (field_settings f) "allowMultiple" = Some (JBool true).
Proof.
  destruct (@allowMultiple_iff_multi_select Sample.NumberToString Sample.Date_now
              Sample.Math_random pick_many 0)
    as (t' & f & Hrun & H1 & H2 & _); try discriminate; [reflexivity|].
  exists t', f. split; [exact Hrun|].
  split; [apply H2 | apply H1]; reflexivity.
Defined.

Lemma pick_many_form_schema :
  exists schema block,
    formSchema (snd (transformJsonToFormSchema Sample.JSON_parse Sample.StringToNumber
                       Sample.NumberToString Sample.Date_now Sample.Math_random
                       Sample.createDefaultFormSchema pick_many_form 0)) = Some schema /\
    blocks schema = [block] /\
    fields schema = block_fields block /\
    logic schema = JArr [].
Proof.
  destruct (@valid_form_schema_shape Sample.JSON_parse Sample.StringToNumber
              Sample.NumberToString Sample.Date_now Sample.Math_random
              Sample.createDefaultFormSchema pick_many_form 0)
    as (schema & l & block & Hs & _ & Hb & _ & _ & Hf & Hl).
  - discriminate.
  - reflexivity.
  - intros l field Hl Hin. injection Hl as <-.
    destruct Hin as [<-|[]]. reflexivity.
  - exists schema, block. repeat split; assumption.
Defined.


(** The multi-select form passes without a warning. *)
Lemma pick_many_form_is_clean :
  isValid (validate Sample.JSON_parse Sample.StringToNumber Sample.NumberToString
             pick_many_form) = true /\
  warnings (validate Sample.JSON_parse Sample.StringToNumber Sample.NumberToString
              pick_many_form) = [].
Proof.
  split; [reflexivity|].
  apply (@valid_means_no_warnings Sample.JSON_parse Sample.StringToNumber
           Sample.NumberToString pick_many_form eq_refl).
Defined.

Lemma pick_many_form_imports_clean :
  success (snd (transformJsonToFormSchema Sample.JSON_parse Sample.StringToNumber
                  Sample.NumberToString Sample.Date_now Sample.Math_random
                  Sample.createDefaultFormSchema pick_many_form 0)) = true /\
  import_warnings
    (snd (transformJsonToFormSchema Sample.JSON_parse Sample.StringToNumber
            Sample.NumberToString Sample.Date_now Sample.Math_random
            Sample.createDefaultFormSchema pick_many_form 0)) = [].
Proof.
  split; [reflexivity|].
  apply (@successful_import_has_no_warnings Sample.JSON_parse Sample.StringToNumber
           Sample.NumberToString Sample.Date_now Sample.Math_random
           Sample.createDefaultFormSchema pick_many_form 0 eq_refl).
Defined.

(** A string, a labelled object and a number among the options. *)
Lemma mixed_options_texts :
  transformOptions mixed_options = Ok (Some [JStr "A"; JStr "B"; JStr "Option"]) /\
  exists l, mixed_options = JArr l /\ l <> [] /\
            Forall2 option_text l [JStr "A"; JStr "B"; JStr "Option"].
Proof.
  split; [reflexivity|].
  destruct (@transformOptions_entries mixed_options
              [JStr "A"; JStr "B"; JStr "Option"] eq_refl)
    as (l & Hl & Hne & _ & Hall).
  exists l. repeat split; assumption.
Defined.

(** The multi-select field keeps its identifier and its options. *)
Lemma pick_many_keeps_its_id :
  exists t' f,
    transformField Sample.NumberToString Sample.Date_now Sample.Math_random
      pick_many 0 = (t', Ok f) /\
    field_id f = JStr "f1" /\ t' = 0.
Proof.
  destruct (transformField Sample.NumberToString Sample.Date_now Sample.Math_random
              pick_many 0) as [t' [f|e]] eqn:E;
    [|vm_compute in E; discriminate E].
  exists t', f. split; [reflexivity|].
  pose proof (@transformField_identifier Sample.NumberToString Sample.Date_now
                Sample.Math_random pick_many 0 t' f E) as (Hid & _).
  exact Hid.
Defined.

(** A dark theme and Arabic on top of a default title. *)
Lemma dark_arabic_settings :
  exists settings,
    transformSettings Sample.NumberToString dark_arabic [("title", JStr "T")] =
      Ok settings /\
    own settings "title" = Some (JStr "T") /\
    own settings "rtl" = Some (JBool true).
Proof.
  destruct (@transformSettings_frame Sample.NumberToString
              Sample.createDefaultFormSchema dark_arabic
              [("title", JStr "T")] eq_refl)
    as (settings & Hrun & Hframe & Hrtl & _).
  exists settings. split; [exact Hrun|]. split; [|exact Hrtl].
  rewrite Hframe; [reflexivity|].
  simpl. intros [H|[H|[H|[H|[H|[]]]]]]; discriminate H.
Defined.

(** [minLength: 0] is absent from the output, [maxLength: 5] is there. *)
Lemma zero_minLength_members :
  transformValidation zero_minLength = Ok [("maxLength", JNum 5)] /\
  own [("maxLength", JNum 5)] "minLength" = None /\
  own [("maxLength", JNum 5)] "requiredMessage" = None.
Proof.
  split; [reflexivity|].
  destruct (@transformValidation_members Sample.createDefaultFormSchema
              zero_minLength [("maxLength", JNum 5)] eq_refl)
    as (Hcopy & _ & Hreq & _).
  split; [|exact Hreq].
  apply (Hcopy "minLength"). simpl. auto.
Defined.


(** The multi-select form comes out with its field's identifier, and the
    one draw goes to the block. *)
Lemma pick_many_form_identifiers :
  exists schema,
    formSchema (snd (transformJsonToFormSchema Sample.JSON_parse Sample.StringToNumber
                       Sample.NumberToString Sample.Date_now Sample.Math_random
                       Sample.createDefaultFormSchema pick_many_form 0)) =
      Some schema /\
    map field_id (fields schema) = [JStr "f1"] /\
    fst (transformJsonToFormSchema Sample.JSON_parse Sample.StringToNumber
           Sample.NumberToString Sample.Date_now Sample.Math_random
           Sample.createDefaultFormSchema pick_many_form 0) = 1.
Proof.
  destruct (formSchema (snd (transformJsonToFormSchema Sample.JSON_parse
              Sample.StringToNumber Sample.NumberToString Sample.Date_now
              Sample.Math_random Sample.createDefaultFormSchema pick_many_form 0)))
    as [schema|] eqn:E; [|vm_compute in E; discriminate E].
  exists schema. split; [reflexivity|].
  destruct (@import_keeps_identifiers Sample.JSON_parse Sample.StringToNumber
              Sample.NumberToString Sample.Date_now Sample.Math_random
              Sample.createDefaultFormSchema pick_many_form 0 schema E)
    as (l & block & Hl & Hids & _ & _ & _ & Ht).
  split; [|exact Ht].
  rewrite Hids. cbn in Hl. injection Hl as <-. reflexivity.
Defined.

(** A type nobody knows. *)
Lemma hologram_is_rejected :
  isValid (validate Sample.JSON_parse Sample.StringToNumber Sample.NumberToString
             (document "T" [pick_many; hologram_field])) = false.
Proof.
  destruct (@unsupported_type_is_an_error Sample.JSON_parse Sample.StringToNumber
              Sample.NumberToString hologram_field "hologram"
              eq_refl eq_refl eq_refl ltac:(discriminate) eq_refl eq_refl)
    as [_ H].
  apply (H [("title", JStr "T"); ("fields", JArr [pick_many; hologram_field])]
           [pick_many; hologram_field]); [reflexivity|].
  right. now left.
Defined.

(** A select without options. *)
Lemma bare_select_is_rejected :
  isValid (validate Sample.JSON_parse Sample.StringToNumber Sample.NumberToString
             (document "T" [bare_select])) = false.
Proof.
  destruct (@options_are_required Sample.JSON_parse Sample.StringToNumber
              Sample.NumberToString bare_select "select"
              eq_refl eq_refl eq_refl ltac:(simpl; auto) ltac:(discriminate))
    as [_ H].
  apply (H [("title", JStr "T"); ("fields", JArr [bare_select])] [bare_select]);
    [reflexivity | now left].
Defined.

(** Equal bounds. *)
Lemma level_bounds_is_rejected :
  isValid (validate Sample.JSON_parse Sample.StringToNumber Sample.NumberToString
             (document "T" [level_bounds])) = false.
Proof.
  destruct (@bounds_must_be_ordered Sample.JSON_parse Sample.StringToNumber
              Sample.NumberToString level_bounds "number" 5 5
              eq_refl eq_refl eq_refl (or_introl eq_refl)
              eq_refl eq_refl eq_refl eq_refl eq_refl)
    as [_ H].
  apply (H [("title", JStr "T"); ("fields", JArr [level_bounds])] [level_bounds]);
    [reflexivity | now left].
Defined.

(** A pasted text that is no JSON: the dialog shows nothing of it. *)
Lemma not_json_shows_nothing :
  JsonImportModal.shows_validation
    (snd (handleValidateAndProcess Sample.JSON_parse Sample.StringToNumber
            Sample.NumberToString Sample.Date_now Sample.Math_random
            Sample.createDefaultFormSchema (pasted "{not json") 0)) = false /\
  JsonImportModal.shows_import_errors
    (snd (handleValidateAndProcess Sample.JSON_parse Sample.StringToNumber
            Sample.NumberToString Sample.Date_now Sample.Math_random
            Sample.createDefaultFormSchema (pasted "{not json") 0)) = false.
Proof.
  destruct (@failure_message_is_not_shown Sample.JSON_parse Sample.StringToNumber
              Sample.NumberToString Sample.Date_now Sample.Math_random
              Sample.createDefaultFormSchema (pasted "{not json") 0 eq_refl)
    as [Hhidden Hparse].
  destruct (Hparse eq_refl eq_refl) as (r & Hr & Hnone).
  destruct (Hhidden r Hr Hnone) as (_ & _ & _ & Hv & He & _).
  now split.
Defined.

(** The errors found in [{}] are shown again for a text that is no JSON. *)
Lemma empty_object_result_is_shown_again :
  JsonImportModal.shows_validation
    (snd (handleValidateAndProcess Literals.JSON_parse Sample.StringToNumber
            Sample.NumberToString Sample.Date_now Sample.Math_random
            Sample.createDefaultFormSchema
            (JsonImportModal.setJsonText "{not json"
               (JsonImportModal.setCurrentStep JsonImportModal.Upload
                  (snd (handleValidateAndProcess Literals.JSON_parse
                          Sample.StringToNumber Sample.NumberToString
                          Sample.Date_now Sample.Math_random
                          Sample.createDefaultFormSchema (pasted "{}") 0))))
            (fst (handleValidateAndProcess Literals.JSON_parse
                    Sample.StringToNumber Sample.NumberToString
                    Sample.Date_now Sample.Math_random
                    Sample.createDefaultFormSchema (pasted "{}") 0)))) = true.
Proof.
  destruct (@earlier_validation_is_shown_again Literals.JSON_parse
              Sample.StringToNumber Sample.NumberToString Sample.Date_now
              Sample.Math_random Sample.createDefaultFormSchema
              (pasted "{}") 0 "{not json"
              (validate Literals.JSON_parse Sample.StringToNumber
                 Sample.NumberToString (JObj []))
              eq_refl eq_refl eq_refl)
    as (_ & H & _).
  exact H.
Defined.

(** The dialog at the preview of the multi-select form. *)
Lemma pick_many_form_is_created :
  exists r s',
    JsonImportModal.handleConfirmImport
      (JsonImportModal.setImportResult
         (Some (snd (transformJsonToFormSchema Sample.JSON_parse
                       Sample.StringToNumber Sample.NumberToString Sample.Date_now
                       Sample.Math_random Sample.createDefaultFormSchema
                       pick_many_form 0)))
         (JsonImportModal.setCurrentStep JsonImportModal.Preview
            JsonImportModal.initial)) = (Some r, s') /\
    JsonImportModal.currentStep s' = JsonImportModal.Complete /\
    handleImportFromJson None (Ok "form-1") r =
      [toast_error "Failed to import form from JSON"].
Proof.
  destruct (JsonImportModal.handleConfirmImport
              (JsonImportModal.setImportResult
                 (Some (snd (transformJsonToFormSchema Sample.JSON_parse
                               Sample.StringToNumber Sample.NumberToString
                               Sample.Date_now Sample.Math_random
                               Sample.createDefaultFormSchema pick_many_form 0)))
                 (JsonImportModal.setCurrentStep JsonImportModal.Preview
                    JsonImportModal.initial)))
    as [[r|] s'] eqn:E; [|vm_compute in E; discriminate E].
  exists r, s'. split; [reflexivity|].
  destruct (@confirmed_import_is_created _ s' r E) as (Hstep & _ & _ & Hnone).
  split; [exact Hstep | apply Hnone].
Defined.

(** Fields given as a text: the settings, a number, go unnoticed. *)
Lemma fields_as_text_errors :
  exists errs,
    errors (validate Sample.JSON_parse Sample.StringToNumber Sample.NumberToString
              fields_as_text) = (errs ++ [fields_not_array_error])%list /\
    Forall (fun e => path e = "title" \/ path e = "description") errs.
Proof.
  destruct (@fields_not_array_stops_validation Sample.JSON_parse
              Sample.StringToNumber Sample.NumberToString fields_as_text
              ltac:(discriminate) eq_refl eq_refl ltac:(discriminate))
    as (errs & He & Herrs & _).
  exists errs. now split.
Defined.

(** The multi-select form, imported without settings, has the default ones. *)
Lemma pick_many_form_settings :
  exists schema,
    formSchema (snd (transformJsonToFormSchema Sample.JSON_parse Sample.StringToNumber
                       Sample.NumberToString Sample.Date_now Sample.Math_random
                       Sample.createDefaultFormSchema pick_many_form 0)) =
      Some schema /\
    settings schema =
      [("title", JStr "T"); ("description", JStr ""); ("multiStep", JBool false)].
Proof.
  destruct (formSchema (snd (transformJsonToFormSchema Sample.JSON_parse
              Sample.StringToNumber Sample.NumberToString Sample.Date_now
              Sample.Math_random Sample.createDefaultFormSchema pick_many_form 0)))
    as [schema|] eqn:E; [|vm_compute in E; discriminate E].
  exists schema. split; [reflexivity|].
  destruct (@imported_settings_keep_defaults Sample.JSON_parse Sample.StringToNumber
              Sample.NumberToString Sample.Date_now Sample.Math_random
              Sample.createDefaultFormSchema pick_many_form 0 schema E)
    as [_ H].
  rewrite H; reflexivity.
Defined.


(** The selection bounds of the multi-select field are not in its settings. *)
Lemma pick_many_has_no_bounds :
  exists settings,
    transformFieldSettings pick_many (mapFieldType "multi_select") = Ok settings /\
    get_opt pick_many "minSelections" = JNum 1 /\
    own settings "min" = None /\ own settings "max" = None.
Proof.
  destruct (transformFieldSettings pick_many (mapFieldType "multi_select"))
    as [settings|e] eqn:E; [|vm_compute in E; discriminate E].
  exists settings. split; [reflexivity|]. split; [reflexivity|].
  destruct (@bounds_by_resolved_type pick_many (mapFieldType "multi_select")
              settings E) as (Hmin & Hmax & _).
  split; [exact Hmin | exact Hmax].
Defined.

(** A text field with [options: true] passes validation and stops the import. *)
Lemma text_with_options_fails :
  isValid (validate Sample.JSON_parse Sample.StringToNumber Sample.NumberToString
             (document "T" [text_with_options])) = true /\
  success (snd (transformJsonToFormSchema Sample.JSON_parse Sample.StringToNumber
                  Sample.NumberToString Sample.Date_now Sample.Math_random
                  Sample.createDefaultFormSchema
                  (document "T" [text_with_options]) 0)) = false.
Proof.
  split; [reflexivity|].
  destruct (@valid_form_with_bad_options_fails Sample.JSON_parse
              Sample.StringToNumber Sample.NumberToString Sample.Date_now
              Sample.Math_random Sample.createDefaultFormSchema
              (document "T" [text_with_options]) 0
              [text_with_options] text_with_options
              ltac:(discriminate) eq_refl eq_refl (or_introl eq_refl)
              eq_refl eq_refl eq_refl)
    as (message & ->).
  reflexivity.
Defined.
